(** * zaudiobrowser: the metadata cache and the archive accessor

    A shallow embedding of [audio_browser/cache/cache_manager.py]
    ([CacheManager]) and of [audio_browser/zip/zip_manager.py]
    ([ZipManager]), and the properties of the specification that concern
    them.

    Conventions of the embedding.
    - Python values that travel through the cache (payloads, cache
      documents) are values of [pyval]; tuples and lists are kept apart,
      since [json.dump] writes both as JSON arrays and [json.load] reads
      arrays back as lists.
    - The objects [ZipManager], [CacheManager] and the parts of the file
      system they touch form one record [world]; methods are computations
      in a state-and-exception monad [M] over it.  A raised exception
      keeps the mutations made before it, as in Python.
    - An open [zipfile.ZipFile] holds the central directory it read when
      it was opened; the file on disk may change under it.
    - A string of the embedding is the UTF-8 text of a Python [str]:
      splitting at ['/'] and ['.'], prefixes, equality and the order of
      strings are the same on the bytes as on the code points.
      [str.lower] follows Unicode; it is a parameter of the embedding
      ([Str.Unicode]) of which only its effect on ASCII text is assumed.
      Paths follow [posixpath] and [pathlib.PurePosixPath].
    - Archive files and the files of the cache directory are kept in two
      maps: no archive is stored under the name of a cache file.
    - The cache directory is reliable storage: it exists (created by
      [CacheManager.__init__]) and writing or deleting a file in it does
      not fail.  Reading can fail: a file may hold text that [json.load]
      rejects.
    - Whether a destination of [extract_file] can be opened for writing
      is a property of the world ([writable]).
    - The tag prober (mutagen) is a collaborator: an entry carries the
      durations it would find.
    - Progress callbacks, logging and debug printing have no effect on the
      modelled state and are left out. *)

From Stdlib Require Import String Ascii ZArith List Sorting.Sorted Permutation Lia Bool.
From stdpp Require Import base option list gmap strings.

Local Open Scope string_scope.
Local Open Scope list_scope.

(* ===================================================================== *)
(** ** Strings: [str] operations used by the code                         *)
(* ===================================================================== *)

Module Str.

Definition slash : ascii := "/"%char.
Definition dot : ascii := "."%char.

(** [s.lower()] for a string of ASCII characters: the letters A to Z
    become a to z. *)
Definition ascii_lower_char (c : ascii) : ascii :=
  let n := nat_of_ascii c in
  if (65 <=? n)%nat && (n <=? 90)%nat then ascii_of_nat (n + 32) else c.

Fixpoint ascii_lower (s : string) : string :=
  match s with
  | EmptyString => EmptyString
  | String c r => String (ascii_lower_char c) (ascii_lower r)
  end.

(** [s.isascii()] *)
Fixpoint is_ascii (s : string) : bool :=
  match s with
  | EmptyString => true
  | String c r => (nat_of_ascii c <? 128)%nat && is_ascii r
  end.

(** Python's [str.lower], which follows the case mapping of Unicode.
    The embedding takes the function as it is; what it uses of it is
    that ASCII text is lowered letter by letter. *)
Class Unicode : Type := {
  str_lower : string -> string;
  str_lower_ascii : forall s, is_ascii s = true -> str_lower s = ascii_lower s;
}.

(** [s.lower()] *)
Definition lower `{Unicode} (s : string) : string := str_lower s.

(** The lowering of ASCII letters alone is one such function; the
    examples on ASCII names are run with it. *)
Definition ascii_only : Unicode :=
  {| str_lower := ascii_lower; str_lower_ascii := fun s _ => eq_refl |}.

(** [s.startswith(p)] *)
Definition startswith (s p : string) : bool := String.prefix p s.

(** [p in s] for two strings: [p] occurs in [s] as a substring. *)
Fixpoint contains (s p : string) : bool :=
  String.prefix p s ||
  match s with
  | EmptyString => false
  | String _ r => contains r p
  end.

(** [all(c == ch for c in s)] *)
Fixpoint all_char (ch : ascii) (s : string) : bool :=
  match s with
  | EmptyString => true
  | String c r => Ascii.eqb c ch && all_char ch r
  end.

(** [(s[:i], s[i:])] with [i = s.rfind(ch) + 1]: the first component is
    empty exactly when [ch] does not occur in [s]. *)
Fixpoint rsplit (ch : ascii) (s : string) : string * string :=
  match s with
  | EmptyString => (EmptyString, EmptyString)
  | String c r =>
      let '(h, t) := rsplit ch r in
      match h with
      | String _ _ => (String c h, t)
      | EmptyString =>
          if Ascii.eqb c ch then (String c EmptyString, r)
          else (EmptyString, String c r)
      end
  end.

(** [s.rstrip(ch)] *)
Fixpoint rstrip (ch : ascii) (s : string) : string :=
  match s with
  | EmptyString => EmptyString
  | String c r =>
      match rstrip ch r with
      | EmptyString => if Ascii.eqb c ch then EmptyString else String c EmptyString
      | r' => String c r'
      end
  end.

(** [s.split(ch)] *)
Fixpoint split (ch : ascii) (s : string) : list string :=
  match s with
  | EmptyString => [EmptyString]
  | String c r =>
      if Ascii.eqb c ch then EmptyString :: split ch r
      else match split ch r with
           | [] => [String c EmptyString]
           | w :: ws => String c w :: ws
           end
  end.

(** Python orders strings by code point, lexicographically: [a <= b]. *)
Definition le (a b : string) : bool := String.leb a b.

End Str.

(* ===================================================================== *)
(** ** Paths: [os.path] (posixpath) and [pathlib.PurePosixPath]            *)
(* ===================================================================== *)

Module Path.

(** [os.path.basename(p)]: [p[p.rfind('/') + 1:]] *)
Definition basename (p : string) : string := snd (Str.rsplit Str.slash p).

(** [os.path.dirname(p)]: the head [p[:p.rfind('/') + 1]], with its
    trailing slashes stripped unless it consists of slashes only. *)
Definition dirname (p : string) : string :=
  let head := fst (Str.rsplit Str.slash p) in
  match head with
  | EmptyString => head
  | _ => if Str.all_char Str.slash head then head else Str.rstrip Str.slash head
  end.

(** [os.path.join(a, b)] for two components: [b] alone when it is
    absolute, [a + b] when [a] is empty or ends with a slash, and
    [a + '/' + b] otherwise. *)
Definition join (a b : string) : string :=
  if Str.startswith b "/" then b
  else match snd (Str.rsplit Str.slash a) with
       | EmptyString => a ++ b
       | _ => a ++ "/" ++ b
       end.

(** [Path(p).name]: the last component of [p] that is neither empty nor
    ["."]; the empty string when there is none. *)
Definition name (p : string) : string :=
  List.last
    (List.filter (fun x => negb (String.eqb x "") && negb (String.eqb x "."))
                 (Str.split Str.slash p))
    "".

(** [Path(p).suffix]: with [i = name.rfind('.')], [name[i:]] when
    [0 < i < len(name) - 1], and [''] otherwise. *)
Definition suffix (p : string) : string :=
  let '(h, t) := Str.rsplit Str.dot (name p) in
  match h, t with
  | String _ (String _ _), String _ _ => String Str.dot t
  | _, _ => ""
  end.

End Path.

(* ===================================================================== *)
(** ** [sorted(..., key=...)] and [list.sort(key=...)]                     *)
(* ===================================================================== *)

(** Python's sort is stable, so its result is the one stable arrangement
    of the input by key; insertion from the right computes it. *)
Section StableSort.
Context {A : Type} (key : A -> string).

Fixpoint insert_by (x : A) (l : list A) : list A :=
  match l with
  | [] => [x]
  | y :: l' =>
      if Str.le (key x) (key y) then x :: y :: l' else y :: insert_by x l'
  end.

Definition sorted_by (l : list A) : list A := List.fold_right insert_by [] l.

End StableSort.

(* ===================================================================== *)
(** ** The scan of [ZipManager.list_audio_files] (lines 245-272)           *)
(* ===================================================================== *)

Module Scan.

Section WithUnicode.
Context `{U : Str.Unicode}.

(** [ZipManager.AUDIO_EXTENSIONS] *)
Definition AUDIO_EXTENSIONS : list string := [".wav"; ".mp3"; ".ogg"].

(** [Path(name).suffix.lower() in self.AUDIO_EXTENSIONS] *)
Definition has_audio_extension (name : string) : bool :=
  existsb (String.eqb (Str.lower (Path.suffix name))) AUDIO_EXTENSIONS.

(** [name.startswith('__MACOSX') or name.startswith('._')] *)
Definition is_system_file (name : string) : bool :=
  Str.startswith name "__MACOSX" || Str.startswith name "._".

(** [files_by_folder]: a dict in insertion order, folder to names. *)
Definition folders := list (string * list string).

(** [if folder not in d: d[folder] = []] followed by
    [d[folder].append(name)] *)
Fixpoint add_to_folder (folder name : string) (d : folders) : folders :=
  match d with
  | [] => [(folder, [name])]
  | (f, ns) :: d' =>
      if String.eqb f folder then (f, ns ++ [name]) :: d'
      else (f, ns) :: add_to_folder folder name d'
  end.

(** [d[folder]] for a key of [d] *)
Fixpoint bucket (folder : string) (d : folders) : list string :=
  match d with
  | [] => []
  | (f, ns) :: d' => if String.eqb f folder then ns else bucket folder d'
  end.

(** One turn of the loop over [all_files]. *)
Definition scan_step (d : folders) (name : string) : folders :=
  if is_system_file name then d
  else if has_audio_extension name
       then add_to_folder (Path.dirname name) name d
       else d.

Definition files_by_folder (all_files : list string) : folders :=
  List.fold_left scan_step all_files [].

(** The list [audio_files] built from the names of the archive. *)
Definition scan_audio_files (all_files : list string) : list string :=
  let d := files_by_folder all_files in
  let sorted_folders := sorted_by Str.lower (List.map fst d) in
  List.flat_map
    (fun folder => sorted_by (fun x => Str.lower (Path.basename x)) (bucket folder d))
    sorted_folders.

End WithUnicode.

End Scan.

(* ===================================================================== *)
(** ** Python values, exceptions and the [json] module                    *)
(* ===================================================================== *)

(** The values the cache handles.  A float is the rational [num/den] it
    denotes (the write timestamp is the only float the code produces);
    dict keys are strings, in insertion order. *)
#[local] Unset Elimination Schemes.
Inductive pyval : Type :=
| PNone
| PBool (b : bool)
| PInt (n : Z)
| PFloat (num : Z) (den : positive)
| PStr (s : string)
| PList (items : list pyval)
| PTuple (items : list pyval)
| PDict (fields : list (string * pyval)).
#[local] Set Elimination Schemes.

(** The exceptions of the modelled code. *)
Inductive exn : Type :=
| FileNotFoundError
| BadZipFile
| ValueError (msg : string)
| KeyError
| TypeError
| AttributeError
| OSError
| JSONDecodeError.

Inductive result (A : Type) : Type :=
| Ok (a : A)
| Raise (e : exn).
Arguments Ok {A} a.
Arguments Raise {A} e.

Module Py.

(** [d.get(k)] on the fields of a dict *)
Fixpoint dict_get (k : string) (d : list (string * pyval)) : option pyval :=
  match d with
  | [] => None
  | (k', v) :: d' => if String.eqb k' k then Some v else dict_get k d'
  end.

(** [d[k] = v] on the fields of a dict: an existing key keeps its place,
    a new key goes last. *)
Fixpoint dict_set (k : string) (v : pyval) (d : list (string * pyval))
  : list (string * pyval) :=
  match d with
  | [] => [(k, v)]
  | (k', v') :: d' =>
      if String.eqb k' k then (k', v) :: d' else (k', v') :: dict_set k v d'
  end.

(** The number a numeric value denotes, as a fraction. *)
Definition numeric (v : pyval) : option (Z * positive) :=
  match v with
  | PBool b => Some (if b then 1%Z else 0%Z, 1%positive)
  | PInt n => Some (n, 1%positive)
  | PFloat n d => Some (n, d)
  | _ => None
  end.

Definition frac_eqb (x y : Z * positive) : bool :=
  (fst x * Z.pos (snd y) =? fst y * Z.pos (snd x))%Z.

(** [a == b]: numbers compare by value across [bool], [int] and
    [float]; sequences compare elementwise and a list never equals a
    tuple; dicts compare as key-value sets. *)
Fixpoint eq (a b : pyval) {struct a} : bool :=
  match a, b with
  | PNone, PNone => true
  | PStr s, PStr t => String.eqb s t
  | PList l, PList m =>
      (fix go (l m : list pyval) {struct l} : bool :=
         match l, m with
         | [], [] => true
         | x :: l', y :: m' => eq x y && go l' m'
         | _, _ => false
         end) l m
  | PTuple l, PTuple m =>
      (fix go (l m : list pyval) {struct l} : bool :=
         match l, m with
         | [], [] => true
         | x :: l', y :: m' => eq x y && go l' m'
         | _, _ => false
         end) l m
  | PDict d, PDict e =>
      (List.length d =? List.length e)%nat &&
      (fix go (d : list (string * pyval)) {struct d} : bool :=
         match d with
         | [] => true
         | (k, v) :: d' =>
             match dict_get k e with
             | Some w => eq v w
             | None => false
             end && go d'
         end) d
  | PBool x, _ =>
      match numeric b with
      | Some y => frac_eqb (if x then 1%Z else 0%Z, 1%positive) y
      | None => false
      end
  | PInt x, _ =>
      match numeric b with Some y => frac_eqb (x, 1%positive) y | None => false end
  | PFloat n d, _ =>
      match numeric b with Some y => frac_eqb (n, d) y | None => false end
  | _, _ => false
  end.

(** [a != b] *)
Definition ne (a b : pyval) : bool := negb (eq a b).

(** [bool(v)] *)
Definition truthy (v : pyval) : bool :=
  match v with
  | PNone => false
  | PBool b => b
  | PInt n => negb (n =? 0)%Z
  | PFloat n _ => negb (n =? 0)%Z
  | PStr s => negb (String.eqb s "")
  | PList l | PTuple l => match l with [] => false | _ => true end
  | PDict d => match d with [] => false | _ => true end
  end.

(** [k in v] for a string [k] *)
Definition contains (k : string) (v : pyval) : result bool :=
  match v with
  | PDict d => Ok (bool_decide (is_Some (dict_get k d)))
  | PList l | PTuple l => Ok (existsb (eq (PStr k)) l)
  | PStr s => Ok (Str.contains s k)
  | _ => Raise TypeError
  end.

(** [v[k]] for a string [k] *)
Definition getitem (v : pyval) (k : string) : result pyval :=
  match v with
  | PDict d => match dict_get k d with Some x => Ok x | None => Raise KeyError end
  | _ => Raise TypeError
  end.

(** [v.get(k, dflt)] *)
Definition get (v : pyval) (k : string) (dflt : pyval) : result pyval :=
  match v with
  | PDict d => Ok (default dflt (dict_get k d))
  | _ => Raise AttributeError
  end.

(** [v[k] = x], giving the updated object *)
Definition setitem (v : pyval) (k : string) (x : pyval) : result pyval :=
  match v with
  | PDict d => Ok (PDict (dict_set k x d))
  | _ => Raise TypeError
  end.

(** The elements [for x in v[i:j]] visits over all the slices of the
    batching loop of [load_zip], after [len(v)]: those of a list or a
    tuple, the characters of a string; a dict has a length but cannot
    be sliced, and the other values have no length. *)
Definition items (v : pyval) : result (list pyval) :=
  match v with
  | PList l | PTuple l => Ok l
  | PStr s => Ok (List.map (fun c => PStr (String c EmptyString)) (list_ascii_of_string s))
  | PDict [] => Ok []
  | _ => Raise TypeError
  end.

End Py.

Module Json.

(** What [json.load] returns for the text [json.dump] wrote for [v]:
    JSON has one array type, so tuples come back as lists. *)
Fixpoint normalize (v : pyval) : pyval :=
  match v with
  | PList l => PList (List.map normalize l)
  | PTuple l => PList (List.map normalize l)
  | PDict d => PDict (List.map (fun kv => (fst kv, normalize (snd kv))) d)
  | _ => v
  end.

(** No tuple occurs in [v]. *)
Fixpoint native (v : pyval) : bool :=
  match v with
  | PList l => forallb native l
  | PTuple _ => false
  | PDict d => forallb (fun kv => native (snd kv)) d
  | _ => true
  end.

(** The text of a file: text that [json.load] rejects, or the text
    [json.dumps(v)] of a value. *)
Inductive content : Type :=
| Malformed (raw : string)
| Document (v : pyval).

(** [json.dump(v, f)] into a fresh file *)
Definition dump (v : pyval) : content := Document (normalize v).

(** [json.load(f)] *)
Definition load (c : content) : result pyval :=
  match c with
  | Malformed _ => Raise JSONDecodeError
  | Document v => Ok (normalize v)
  end.

End Json.

(* ===================================================================== *)
(** ** The world: archives, cache directory and the two manager objects   *)
(* ===================================================================== *)

(** A [zipfile.ZipInfo] with what the code reads of the entry: its bytes,
    and the duration in milliseconds that the tag prober finds in the
    first [max_header_size] bytes and in the whole entry ([None] when it
    finds none or fails). *)
Record zipinfo : Type := ZipInfo {
  filename : string;
  file_size : Z;
  date_time : list Z;
  entry_bytes : string;
  header_duration : option Z;
  full_duration : option Z;
}.

(** An open [zipfile.ZipFile]: the central directory as it was read when
    the archive was opened. *)
Record zipfile : Type := ZipFile { filelist : list zipinfo }.

(** A file at an archive path: what [os.stat] reports, and its central
    directory when it is a readable ZIP.  [st_mtime] is the float of
    [os.stat], given as the fraction it denotes. *)
Record archive : Type := Archive {
  st_size : Z;
  st_mtime : Z * positive;
  central_directory : option (list zipinfo);
}.

Record world : Type := World {
  archives : gmap string archive;          (* files at archive paths *)
  cache_dir : string;                      (* CacheManager.cache_dir *)
  cache_files : gmap string Json.content;  (* files of the cache directory, by path *)
  cache_index : gmap string string;        (* CacheManager.cache_index *)
  open_zips : gmap string zipfile;         (* ZipManager.open_zips *)
  extracted_files : list string;           (* ZipManager.extracted_files *)
  user_files : gmap string string;         (* files written by extraction, by path *)
  writable : string -> bool;               (* can [open(path, 'wb')] succeed *)
  clock : Z * positive;                    (* what [time.time()] reads *)
  zip_reads : nat;                         (* how often an archive was opened and its directory read *)
}.

Definition set_cache_files (f : gmap string Json.content -> gmap string Json.content) (w : world) : world :=
  World (archives w) (cache_dir w) (f (cache_files w)) (cache_index w) (open_zips w)
        (extracted_files w) (user_files w) (writable w) (clock w) (zip_reads w).

Definition set_cache_index (f : gmap string string -> gmap string string) (w : world) : world :=
  World (archives w) (cache_dir w) (cache_files w) (f (cache_index w)) (open_zips w)
        (extracted_files w) (user_files w) (writable w) (clock w) (zip_reads w).

Definition set_open_zips (f : gmap string zipfile -> gmap string zipfile) (w : world) : world :=
  World (archives w) (cache_dir w) (cache_files w) (cache_index w) (f (open_zips w))
        (extracted_files w) (user_files w) (writable w) (clock w) (zip_reads w).

Definition set_extracted_files (f : list string -> list string) (w : world) : world :=
  World (archives w) (cache_dir w) (cache_files w) (cache_index w) (open_zips w)
        (f (extracted_files w)) (user_files w) (writable w) (clock w) (zip_reads w).

Definition set_user_files (f : gmap string string -> gmap string string) (w : world) : world :=
  World (archives w) (cache_dir w) (cache_files w) (cache_index w) (open_zips w)
        (extracted_files w) (f (user_files w)) (writable w) (clock w) (zip_reads w).

Definition count_zip_read (w : world) : world :=
  World (archives w) (cache_dir w) (cache_files w) (cache_index w) (open_zips w)
        (extracted_files w) (user_files w) (writable w) (clock w) (S (zip_reads w)).

(** The environment changes archives (and time passes) between calls. *)
Definition set_archives (a : gmap string archive) (t : Z * positive) (w : world) : world :=
  World a (cache_dir w) (cache_files w) (cache_index w) (open_zips w)
        (extracted_files w) (user_files w) (writable w) t (zip_reads w).

(* ===================================================================== *)
(** ** Computations: state and exceptions                                  *)
(* ===================================================================== *)

Definition M (A : Type) : Type := world -> result A * world.

Definition ret {A} (a : A) : M A := fun w => (Ok a, w).

Definition bind {A B} (m : M A) (k : A -> M B) : M B :=
  fun w => match m w with
           | (Ok a, w') => k a w'
           | (Raise e, w') => (Raise e, w')
           end.

Definition raise {A} (e : exn) : M A := fun w => (Raise e, w).

Definition lift {A} (r : result A) : M A := fun w => (r, w).

Definition gets {A} (f : world -> A) : M A := fun w => (Ok (f w), w).

Definition modify (f : world -> world) : M unit := fun w => (Ok tt, f w).

(** [try: m  except Exception as e: handler(e)] *)
Definition try_except {A} (m : M A) (handler : exn -> M A) : M A :=
  fun w => match m w with
           | (Ok a, w') => (Ok a, w')
           | (Raise e, w') => handler e w'
           end.

Declare Scope py_scope.
Delimit Scope py_scope with py.
Notation "x <- m ;; k" := (bind m (fun x => k))
  (at level 100, m at next level, right associativity) : py_scope.
Notation "m ;; k" := (bind m (fun _ => k))
  (at level 100, right associativity) : py_scope.
Local Open Scope py_scope.

(** [os.stat(path)] *)
Definition os_stat (path : string) : M archive :=
  a <- gets archives ;;
  match a !! path with
  | Some f => ret f
  | None => raise FileNotFoundError
  end.

(** [os.path.exists(path)] for an archive path *)
Definition archive_exists (path : string) : M bool :=
  a <- gets archives ;; ret (bool_decide (is_Some (a !! path))).

(** [time.time()] *)
Definition time_time : M pyval :=
  t <- gets clock ;; ret (PFloat (fst t) (snd t)).

(* ===================================================================== *)
(** ** [CacheManager] (cache_manager.py)                                   *)
(* ===================================================================== *)

Module CacheManager.

(** [_get_cache_file_path]: the file name of the archive with [.cache]
    appended, inside the cache directory. *)
Definition cache_file_path (dir zip_path : string) : string :=
  Path.join dir (Path.basename zip_path ++ ".cache").

Definition _get_cache_file_path (zip_path : string) : M string :=
  dir <- gets cache_dir ;; ret (cache_file_path dir zip_path).

(** [self.cache_index_file] *)
Definition cache_index_file (dir : string) : string :=
  Path.join dir "cache_index.json".

(** The dict [self.cache_index] as a Python value. *)
Definition index_value (idx : gmap string string) : pyval :=
  PDict (List.map (fun kv => (fst kv, PStr (snd kv))) (map_to_list idx)).

(** [_save_cache_index] *)
Definition _save_cache_index : M unit :=
  dir <- gets cache_dir ;;
  idx <- gets cache_index ;;
  modify (set_cache_files (fun fs => <[cache_index_file dir := Json.dump (index_value idx)]> fs)).

(** [_load_cache]: the document of the entry file; [{}] when the file
    is missing or cannot be parsed. *)
Definition _load_cache (zip_path : string) : M pyval :=
  cache_file <- _get_cache_file_path zip_path ;;
  fs <- gets cache_files ;;
  match fs !! cache_file with
  | None => ret (PDict [])
  | Some c => try_except (lift (Json.load c)) (fun _ => ret (PDict []))
  end.

(** [_save_cache] *)
Definition _save_cache (zip_path : string) (cache_data : pyval) : M unit :=
  cache_file <- _get_cache_file_path zip_path ;;
  modify (set_cache_files (fun fs => <[cache_file := Json.dump cache_data]> fs)).

(** [int(stats.st_mtime)]: the float, truncated towards zero. *)
Definition mtime_seconds (f : archive) : Z :=
  (fst (st_mtime f) ÷ Z.pos (snd (st_mtime f)))%Z.

Definition file_stats (f : archive) : pyval :=
  PDict [("size", PInt (st_size f)); ("mtime", PInt (mtime_seconds f))].

(** [_calculate_file_stats] *)
Definition _calculate_file_stats (file_path : string) : M pyval :=
  stats <- os_stat file_path ;; ret (file_stats stats).

(** [remove_from_cache] *)
Definition remove_from_cache (zip_path : string) : M unit :=
  idx <- gets cache_index ;;
  match idx !! zip_path with
  | Some cache_file =>
      modify (set_cache_files (fun fs => delete cache_file fs)) ;;
      modify (set_cache_index (fun i => delete zip_path i)) ;;
      _save_cache_index
  | None => ret tt
  end.

(** [get_cached_metadata]; [PNone] is Python's [None]. *)
Definition get_cached_metadata (zip_path : string) : M pyval :=
  idx <- gets cache_index ;;
  if negb (bool_decide (is_Some (idx !! zip_path))) then ret PNone else
  cache_data <- _load_cache zip_path ;;
  if negb (Py.truthy cache_data) then ret PNone else
  still_there <- archive_exists zip_path ;;
  if negb still_there then remove_from_cache zip_path ;; ret PNone else
  current_stats <- _calculate_file_stats zip_path ;;
  new_format <- lift (Py.contains "file_stats" cache_data) ;;
  if new_format then
    cur_size <- lift (Py.getitem current_stats "size") ;;
    stored <- lift (Py.getitem cache_data "file_stats") ;;
    stored_size <- lift (Py.getitem stored "size") ;;
    if Py.ne cur_size stored_size then remove_from_cache zip_path ;; ret PNone else
    cur_mtime <- lift (Py.getitem current_stats "mtime") ;;
    stored' <- lift (Py.getitem cache_data "file_stats") ;;
    stored_mtime <- lift (Py.getitem stored' "mtime") ;;
    if Py.ne cur_mtime stored_mtime then remove_from_cache zip_path ;; ret PNone else
    lift (Py.getitem cache_data "metadata")
  else
    old_format <- lift (Py.contains "checksum" cache_data) ;;
    if old_format then
      cur_size <- lift (Py.getitem current_stats "size") ;;
      legacy_size <- lift (Py.get cache_data "size" (PInt 0)) ;;
      if Py.ne cur_size legacy_size then remove_from_cache zip_path ;; ret PNone else
      upgraded <- lift (Py.setitem cache_data "file_stats" current_stats) ;;
      _save_cache zip_path upgraded ;;
      lift (Py.getitem upgraded "metadata")
    else
      remove_from_cache zip_path ;; ret PNone.

(** [cache_metadata], called with [file_bytes=None] as at every call
    site of the repository. *)
Definition cache_metadata (zip_path : string) (metadata : pyval) : M unit :=
  stats <- _calculate_file_stats zip_path ;;
  now <- time_time ;;
  let cache_data :=
    PDict [("file_stats", stats); ("metadata", metadata); ("timestamp", now)] in
  _save_cache zip_path cache_data ;;
  cache_file <- _get_cache_file_path zip_path ;;
  modify (set_cache_index (fun i => <[zip_path := cache_file]> i)) ;;
  _save_cache_index.

End CacheManager.

(* ===================================================================== *)
(** ** [ZipManager] (zip_manager.py)                                       *)
(* ===================================================================== *)

Module ZipManager.

Section WithUnicode.
Context `{U : Str.Unicode}.

(** [zf.namelist()] *)
Definition namelist (zf : zipfile) : list string := List.map filename (filelist zf).

(** [name in names] *)
Definition mem (name : string) (names : list string) : bool :=
  existsb (String.eqb name) names.

(** [zf.getinfo(name)]: the directory keeps the last entry of a name. *)
Definition getinfo (zf : zipfile) (name : string) : result zipinfo :=
  match List.find (fun zi => String.eqb (filename zi) name) (List.rev (filelist zf)) with
  | Some zi => Ok zi
  | None => Raise KeyError
  end.

(** [zipfile.ZipFile(zip_path, 'r')]: reads the archive from disk. *)
Definition ZipFile_open (zip_path : string) : M zipfile :=
  modify count_zip_read ;;
  a <- gets archives ;;
  match a !! zip_path with
  | None => raise FileNotFoundError
  | Some f =>
      match central_directory f with
      | None => raise BadZipFile
      | Some entries => ret (ZipFile entries)
      end
  end.

(** [self.open_zips[zip_path]] *)
Definition handle (zip_path : string) : M zipfile :=
  zs <- gets open_zips ;;
  match zs !! zip_path with
  | Some zf => ret zf
  | None => raise KeyError
  end.

(** [str(e)] of an exception that reaches the last handler of
    [_validate_zip] *)
Definition exn_message (e : exn) : string :=
  match e with
  | FileNotFoundError => "No such file or directory"
  | ValueError msg => msg
  | _ => "error"
  end.

(** [_validate_zip]: the error message, or the opened archive. *)
Definition _validate_zip (zip_path : string) : M (string + zipfile) :=
  try_except
    (zip_file <- ZipFile_open zip_path ;;
     let audio_files :=
       List.filter (fun zinfo => Scan.has_audio_extension (filename zinfo))
                   (filelist zip_file) in
     match audio_files with
     | [] => ret (inl "No audio files found")
     | _ => ret (inr zip_file)
     end)
    (fun e =>
       match e with
       | BadZipFile => ret (inl "ZIP file is invalid")
       | _ => ret (inl (exn_message e))
       end).

(** [_ensure_zip_open] *)
Definition _ensure_zip_open (zip_path : string) : M unit :=
  zs <- gets open_zips ;;
  match zs !! zip_path with
  | Some _ => ret tt
  | None =>
      there <- archive_exists zip_path ;;
      if negb there then raise FileNotFoundError else
      zf <- try_except (ZipFile_open zip_path)
              (fun e => match e with
                        | BadZipFile => raise (ValueError "Invalid ZIP file")
                        | _ => raise e
                        end) ;;
      modify (set_open_zips (fun m => <[zip_path := zf]> m))
  end.

(** The live scan of [list_audio_files] (lines 241-272): open the
    archive if it is not open yet, and scan its names. *)
Definition scan_open_archive (zip_path : string) : M pyval :=
  _ensure_zip_open zip_path ;;
  zf <- handle zip_path ;;
  ret (PList (List.map PStr (Scan.scan_audio_files (namelist zf)))).

(** [list_audio_files]: the cached list when the cache answers,
    otherwise the live scan. *)
Definition list_audio_files (zip_path : string) : M pyval :=
  cached_metadata <- CacheManager.get_cached_metadata zip_path ;;
  from_cache <- (if Py.truthy cached_metadata
                 then lift (Py.contains "audio_files" cached_metadata)
                 else ret false) ;;
  if from_cache then lift (Py.getitem cached_metadata "audio_files")
  else scan_open_archive zip_path.

Definition max_header_size : Z := 1024 * 1024.

(** The [try] block of [get_audio_duration]: probe the header (the
    whole entry when it is small), then the whole entry. *)
Definition probe_duration (zi : zipinfo) : pyval :=
  let first :=
    if (file_size zi <=? max_header_size)%Z then full_duration zi
    else header_duration zi in
  match first with
  | Some d => PInt d
  | None =>
      if (max_header_size <? file_size zi)%Z then
        match full_duration zi with
        | Some d => PInt d
        | None => PNone
        end
      else PNone
  end.

(** [get_audio_duration] *)
Definition get_audio_duration (zip_path file_name : string) : M pyval :=
  cached_metadata <- CacheManager.get_cached_metadata zip_path ;;
  has_records <- (if Py.truthy cached_metadata
                  then lift (Py.contains "file_metadata" cached_metadata)
                  else ret false) ;;
  cached <- (if has_records then
               records <- lift (Py.getitem cached_metadata "file_metadata") ;;
               file_metadata <- lift (Py.get records file_name (PDict [])) ;;
               known <- lift (Py.contains "duration_ms" file_metadata) ;;
               if known
               then d <- lift (Py.getitem file_metadata "duration_ms") ;; ret (Some d)
               else ret None
             else ret None) ;;
  match cached with
  | Some d => ret d
  | None =>
      _ensure_zip_open zip_path ;;
      zf <- handle zip_path ;;
      if negb (mem file_name (namelist zf)) then raise KeyError else
      try_except
        (zf' <- handle zip_path ;;
         zip_info <- lift (getinfo zf' file_name) ;;
         ret (probe_duration zip_info))
        (fun _ => ret PNone)
  end.

(** The body of the loop of [load_zip] for one element of
    [audio_files]; an exception leaves [file_metadata] as it is at that
    point. *)
Definition load_file_metadata (zip_path : string)
    (file_metadata : list (string * pyval)) (item : pyval)
  : M (list (string * pyval)) :=
  match item with
  | PStr file_path =>
      try_except
        (zf <- handle zip_path ;;
         zip_info <- lift (getinfo zf file_path) ;;
         let record := [("size", PInt (file_size zip_info));
                        ("timestamp", PTuple (List.map PInt (date_time zip_info)))] in
         let file_metadata' := Py.dict_set file_path (PDict record) file_metadata in
         try_except
           (duration <- get_audio_duration zip_path file_path ;;
            match duration with
            | PNone => ret file_metadata'
            | _ => ret (Py.dict_set file_path
                          (PDict (Py.dict_set "duration_ms" duration record))
                          file_metadata')
            end)
           (fun _ => ret file_metadata'))
        (fun _ => ret file_metadata)
  | _ => ret file_metadata   (* getinfo raises on a name that is not a string *)
  end.

Fixpoint load_all_metadata (zip_path : string)
    (file_metadata : list (string * pyval)) (items : list pyval)
  : M (list (string * pyval)) :=
  match items with
  | [] => ret file_metadata
  | item :: rest =>
      file_metadata' <- load_file_metadata zip_path file_metadata item ;;
      load_all_metadata zip_path file_metadata' rest
  end.

(** The [timing_info] of [load_zip], without its wall-clock times. *)
Record timing_info : Type := TimingInfo { used_cache : bool }.

(** [load_zip] *)
Definition load_zip (zip_path : string) : M timing_info :=
  there <- archive_exists zip_path ;;
  if negb there then raise FileNotFoundError else
  try_except
    (cached_metadata <- CacheManager.get_cached_metadata zip_path ;;
     match cached_metadata with
     | PNone =>
         zs <- gets open_zips ;;
         if bool_decide (is_Some (zs !! zip_path)) then ret (TimingInfo true) else
         validated <- _validate_zip zip_path ;;
         match validated with
         | inl error => raise (ValueError error)
         | inr zip_file =>
             modify (set_open_zips (fun m => <[zip_path := zip_file]> m)) ;;
             audio_files <- list_audio_files zip_path ;;
             items <- lift (Py.items audio_files) ;;
             file_metadata <- load_all_metadata zip_path [] items ;;
             zf <- handle zip_path ;;
             CacheManager.cache_metadata zip_path
               (PDict [("audio_files", audio_files);
                       ("total_files", PInt (Z.of_nat (List.length (filelist zf))));
                       ("file_metadata", PDict file_metadata)]) ;;
             ret (TimingInfo false)
         end
     | _ => ret (TimingInfo true)
     end)
    (fun e => match e with
              | BadZipFile => raise (ValueError "Invalid ZIP file")
              | _ => raise e
              end).

(** [open(output_path, 'wb')] and the copy of the entry into it *)
Definition write_file (path data : string) : M unit :=
  ok <- gets writable ;;
  if ok path then modify (set_user_files (fun fs => <[path := data]> fs))
  else raise OSError.

(** [extract_file] *)
Definition extract_file (zip_path file_name output_dir : string) : M string :=
  _ensure_zip_open zip_path ;;
  zf <- handle zip_path ;;
  if negb (mem file_name (namelist zf)) then raise KeyError else
  try_except
    (let base_name := Path.basename file_name in
     let output_path := Path.join output_dir base_name in
     zf' <- handle zip_path ;;
     source <- lift (getinfo zf' file_name) ;;
     write_file output_path (entry_bytes source) ;;
     fs <- gets user_files ;;
     if negb (bool_decide (is_Some (fs !! output_path))) then raise OSError else
     modify (set_extracted_files (fun l => l ++ [output_path])) ;;
     ret output_path)
    (fun _ => raise OSError).

End WithUnicode.

End ZipManager.

(* ===================================================================== *)
(** ** [CacheManager]: the index across sessions, clearing the cache       *)
(* ===================================================================== *)

Module CacheIndex.
Import CacheManager.

(** [_load_cache_index]: what [json.load] reads from the index file;
    [{}] when the file is missing or cannot be parsed. *)
Definition _load_cache_index : M pyval :=
  dir <- gets cache_dir ;;
  fs <- gets cache_files ;;
  match fs !! cache_index_file dir with
  | None => ret (PDict [])
  | Some c => try_except (lift (Json.load c)) (fun _ => ret (PDict []))
  end.

(** The fields of a dict from archive paths to file paths. *)
Fixpoint index_fields (d : list (string * pyval)) : option (list (string * string)) :=
  match d with
  | [] => Some []
  | (k, PStr f) :: d' => (fun r => (k, f) :: r) <$> index_fields d'
  | _ => None
  end.

(** The value [_load_cache_index] returned, as the index of the model.
    The code keeps whatever [json.load] returned; a document that is not
    a dict of strings has no counterpart in [cache_index] ([None]). *)
Definition as_index (v : pyval) : option (gmap string string) :=
  match v with
  | PDict d => list_to_map <$> index_fields d
  | _ => None
  end.

(** [CacheManager.__init__] with the default directory, over the files
    the cache directory holds: [self.cache_index = self._load_cache_index()]. *)
Definition __init__ (w : world) : option world :=
  match _load_cache_index w with
  | (Ok v, w') => idx ← as_index v ; Some (set_cache_index (fun _ => idx) w')
  | (Raise _, _) => None
  end.

(** The loop of [clear_cache]: [if os.path.exists(f): os.remove(f)] for
    each file. *)
Fixpoint remove_files (files : list string) : M unit :=
  match files with
  | [] => ret tt
  | cache_file :: rest =>
      modify (set_cache_files (fun fs => delete cache_file fs)) ;;
      remove_files rest
  end.

(** [clear_cache] *)
Definition clear_cache : M unit :=
  idx <- gets cache_index ;;
  remove_files (List.map snd (map_to_list idx)) ;;
  modify (set_cache_index (fun _ => ∅)) ;;
  _save_cache_index.

(** [list_cached_zips]: the keys of the index (the model does not keep
    the order in which they were inserted). *)
Definition list_cached_zips : M (list string) :=
  idx <- gets cache_index ;; ret (List.map fst (map_to_list idx)).

End CacheIndex.

(* ===================================================================== *)
(** ** [ZipManager]: reading, streaming, batches, closing                 *)
(* ===================================================================== *)

Module ZipAccess.
Import ZipManager.

Section WithUnicode.
Context `{U : Str.Unicode}.

(** [ZipManager.__init__]: no archive open, nothing extracted, and a
    new [CacheManager]. *)
Definition __init__ (w : world) : option world :=
  CacheIndex.__init__
    (set_extracted_files (fun _ => []) (set_open_zips (fun _ => ∅) w)).

(** [read_file] *)
Definition read_file (zip_path file_name : string) : M string :=
  _ensure_zip_open zip_path ;;
  zf <- handle zip_path ;;
  if negb (mem file_name (namelist zf)) then raise KeyError else
  try_except
    (zf' <- handle zip_path ;;
     file <- lift (getinfo zf' file_name) ;;
     ret (entry_bytes file))
    (fun _ => raise OSError).

(** [data[:n]] and [data[n:]] for [n >= 0] *)
Fixpoint take (n : nat) (data : string) : string :=
  match n, data with
  | S n', String c r => String c (take n' r)
  | _, _ => EmptyString
  end.

Fixpoint drop (n : nat) (data : string) : string :=
  match n, data with
  | S n', String _ r => drop n' r
  | _, _ => data
  end.

(** [file.read(n)] on an open entry of which [rest] is still unread:
    the bytes read and what is left; a negative [n] reads to the end. *)
Definition file_read (n : Z) (rest : string) : string * string :=
  if (n <? 0)%Z then (rest, EmptyString)
  else (take (Z.to_nat n) rest, drop (Z.to_nat n) rest).

(** The loop of [stream_file], for at most [turns] turns: the chunks it
    yields. *)
Fixpoint stream_loop (turns : nat) (chunk_size : Z) (rest : string) : list string :=
  match turns with
  | O => []
  | S turns' =>
      let '(chunk, rest') := file_read chunk_size rest in
      match chunk with
      | EmptyString => []
      | _ => chunk :: stream_loop turns' chunk_size rest'
      end
  end.

(** [list(stream_file(zip_path, file_name, chunk_size))]: the generator
    run to its end.  Every turn but the last yields a chunk that is not
    empty, so the loop takes at most [len(data) + 1] turns. *)
Definition stream_file (zip_path file_name : string) (chunk_size : Z)
  : M (list string) :=
  _ensure_zip_open zip_path ;;
  zf <- handle zip_path ;;
  if negb (mem file_name (namelist zf)) then raise KeyError else
  zf' <- handle zip_path ;;
  file <- lift (getinfo zf' file_name) ;;
  ret (stream_loop (S (String.length (entry_bytes file))) chunk_size (entry_bytes file)).

(** The loop of [extract_files]; an exception of [extract_file] is
    logged and raised again. *)
Fixpoint extract_loop (zip_path : string) (file_names : list string)
    (output_dir : string) (extracted_paths : list string) : M (list string) :=
  match file_names with
  | [] => ret extracted_paths
  | name :: rest =>
      path <- try_except (extract_file zip_path name output_dir)
                (fun e => raise e) ;;
      extract_loop zip_path rest output_dir (extracted_paths ++ [path])
  end.

(** [extract_files] *)
Definition extract_files (zip_path : string) (file_names : list string)
    (output_dir : string) : M (list string) :=
  extract_loop zip_path file_names output_dir [].

(** The first loop of [cleanup].  Whether [os.remove] succeeds on a file
    is up to the environment ([can_remove]); its [OSError] is passed
    over. *)
Fixpoint remove_extracted (can_remove : string -> bool) (files : list string)
  : M unit :=
  match files with
  | [] => ret tt
  | file_path :: rest =>
      try_except
        (fs <- gets user_files ;;
         if bool_decide (is_Some (fs !! file_path)) then
           if can_remove file_path
           then modify (set_user_files (fun m => delete file_path m))
           else raise OSError
         else ret tt)
        (fun e => match e with
                  | OSError | FileNotFoundError => ret tt
                  | _ => raise e
                  end) ;;
      remove_extracted can_remove rest
  end.

(** [cleanup].  The temporary directory of the object holds no file of
    the model; closing a handle has no effect but its removal from
    [open_zips]. *)
Definition cleanup (can_remove : string -> bool) : M unit :=
  files <- gets extracted_files ;;
  remove_extracted can_remove files ;;
  modify (set_extracted_files (fun _ => [])) ;;
  modify (set_open_zips (fun _ => ∅)).

(** [close_zip] *)
Definition close_zip (zip_path : string) : M unit :=
  zs <- gets open_zips ;;
  if bool_decide (is_Some (zs !! zip_path))
  then modify (set_open_zips (fun m => delete zip_path m))
  else ret tt.

(** [get_open_zips]: the keys of [open_zips] (the model does not keep
    the order in which they were inserted). *)
Definition get_open_zips : M (list string) :=
  zs <- gets open_zips ;; ret (List.map fst (map_to_list zs)).

(** [get_file_duration].  The code updates the dicts of
    [cached_metadata] in place; no other reference to them exists, so
    the model rebuilds the value around each update. *)
Definition get_file_duration (zip_path file_name : string) : M pyval :=
  cached_metadata <- CacheManager.get_cached_metadata zip_path ;;
  has_records <- (if Py.truthy cached_metadata
                  then lift (Py.contains "file_metadata" cached_metadata)
                  else ret false) ;;
  cached <- (if has_records then
               records <- lift (Py.getitem cached_metadata "file_metadata") ;;
               file_metadata <- lift (Py.get records file_name (PDict [])) ;;
               known <- lift (Py.contains "duration_ms" file_metadata) ;;
               if known
               then d <- lift (Py.getitem file_metadata "duration_ms") ;; ret (Some d)
               else ret None
             else ret None) ;;
  match cached with
  | Some d => ret d
  | None =>
      duration <- get_audio_duration zip_path file_name ;;
      match duration with
      | PNone => ret duration
      | _ =>
          created <- match cached_metadata with
                     | PNone =>
                         audio_files <- list_audio_files zip_path ;;
                         zf <- handle zip_path ;;
                         ret (PDict [("audio_files", audio_files);
                                     ("total_files", PInt (Z.of_nat (List.length (filelist zf))));
                                     ("file_metadata", PDict [])])
                     | _ => ret cached_metadata
                     end ;;
          has_records' <- lift (Py.contains "file_metadata" created) ;;
          with_records <- (if negb has_records'
                           then lift (Py.setitem created "file_metadata" (PDict []))
                           else ret created) ;;
          records <- lift (Py.getitem with_records "file_metadata") ;;
          has_file <- lift (Py.contains file_name records) ;;
          with_file <- (if negb has_file then
                          zf <- handle zip_path ;;
                          zip_info <- lift (getinfo zf file_name) ;;
                          let record := PDict [("size", PInt (file_size zip_info));
                                               ("timestamp", PTuple (List.map PInt (date_time zip_info)))] in
                          records0 <- lift (Py.getitem with_records "file_metadata") ;;
                          records1 <- lift (Py.setitem records0 file_name record) ;;
                          lift (Py.setitem with_records "file_metadata" records1)
                        else ret with_records) ;;
          records2 <- lift (Py.getitem with_file "file_metadata") ;;
          record <- lift (Py.getitem records2 file_name) ;;
          record' <- lift (Py.setitem record "duration_ms" duration) ;;
          records3 <- lift (Py.setitem records2 file_name record') ;;
          updated <- lift (Py.setitem with_file "file_metadata" records3) ;;
          CacheManager.cache_metadata zip_path updated ;;
          ret duration
      end
  end.

End WithUnicode.

End ZipAccess.

(* ===================================================================== *)
(** * Notions used to state the properties                              *)
(* ===================================================================== *)

(** ** The order of a sorted list, and what the scan keeps *)

Section StableSortOrder.
Context {A : Type} (key : A -> string).

Definition key_le (a b : A) : Prop := Str.le (key a) (key b) = true.

End StableSortOrder.

Module ScanSpec.
Import Scan.

Section WithUnicode.
Context `{U : Str.Unicode}.

(** The names the loop keeps. *)
Definition kept (name : string) : bool :=
  negb (is_system_file name) && has_audio_extension name.

Definition in_folder (folder name : string) : bool :=
  String.eqb (Path.dirname name) folder.

Definition add_name (d : folders) (name : string) : folders :=
  add_to_folder (Path.dirname name) name d.

(** Folder order: the list is sorted by lower-cased folder name. *)
Definition folder_le (a b : string) : Prop :=
  Str.le (Str.lower (Path.dirname a)) (Str.lower (Path.dirname b)) = true.

(** File order: sorted by lower-cased base name. *)
Definition file_le (a b : string) : Prop :=
  Str.le (Str.lower (Path.basename a)) (Str.lower (Path.basename b)) = true.

Definition base_key (n : string) : string := Str.lower (Path.basename n).

End WithUnicode.

End ScanSpec.

(** ** What [get_cached_metadata] reads, and what it decides *)

Module Lookup.
Import CacheManager.

(** The three ways a lookup leaves the cache. *)
Inductive effect : Type :=
| Keep
| Remove
| Rewrite (cache_data : pyval).

Definition run_effect (zip_path : string) (e : effect) : M unit :=
  match e with
  | Keep => ret tt
  | Remove => remove_from_cache zip_path
  | Rewrite cache_data => _save_cache zip_path cache_data
  end.

(** What the lookup reads of the world. *)
Definition indexed (w : world) (zip_path : string) : bool :=
  bool_decide (is_Some (cache_index w !! zip_path)).

Definition entry_file (w : world) (zip_path : string) : option Json.content :=
  cache_files w !! cache_file_path (cache_dir w) zip_path.

Definition loaded (file : option Json.content) : pyval :=
  match file with
  | None => PDict []
  | Some c => match Json.load c with Ok v => v | Raise _ => PDict [] end
  end.

Definition fingerprint (f : archive) : Z * Z := (st_size f, mtime_seconds f).

Definition observed (w : world) (zip_path : string) : option (Z * Z) :=
  fingerprint <$> archives w !! zip_path.

Definition stats_value (fp : Z * Z) : pyval :=
  PDict [("size", PInt (fst fp)); ("mtime", PInt (snd fp))].

Definition on_error {A : Type} (r : result A) (k : A -> result pyval * effect)
  : result pyval * effect :=
  match r with
  | Ok a => k a
  | Raise e => (Raise e, Keep)
  end.

(** The outcome of a lookup as a function of what it reads. *)
Definition decide (is_indexed : bool) (cache_data : pyval) (stats : option (Z * Z))
  : result pyval * effect :=
  if negb is_indexed then (Ok PNone, Keep) else
  if negb (Py.truthy cache_data) then (Ok PNone, Keep) else
  match stats with
  | None => (Ok PNone, Remove)
  | Some fp =>
      on_error (Py.contains "file_stats" cache_data) (fun new_format =>
      if new_format then
        on_error (Py.getitem cache_data "file_stats") (fun stored =>
        on_error (Py.getitem stored "size") (fun stored_size =>
        if Py.ne (PInt (fst fp)) stored_size then (Ok PNone, Remove) else
        on_error (Py.getitem stored "mtime") (fun stored_mtime =>
        if Py.ne (PInt (snd fp)) stored_mtime then (Ok PNone, Remove) else
        (Py.getitem cache_data "metadata", Keep))))
      else
        on_error (Py.contains "checksum" cache_data) (fun old_format =>
        if old_format then
          on_error (Py.get cache_data "size" (PInt 0)) (fun legacy_size =>
          if Py.ne (PInt (fst fp)) legacy_size then (Ok PNone, Remove) else
          on_error (Py.setitem cache_data "file_stats" (stats_value fp)) (fun upgraded =>
          (Py.getitem upgraded "metadata", Rewrite upgraded)))
        else (Ok PNone, Remove)))
  end.

Definition decision (w : world) (zip_path : string) : result pyval * effect :=
  decide (indexed w zip_path) (loaded (entry_file w zip_path)) (observed w zip_path).

End Lookup.

(** ** The cache after a store, after a removal *)

Module CacheSpec.
Import CacheManager Lookup.

(** The document [cache_metadata] writes. *)
Definition entry_document (f : archive) (metadata : pyval) (t : Z * positive) : pyval :=
  PDict [("file_stats", file_stats f); ("metadata", metadata);
         ("timestamp", PFloat (fst t) (snd t))].

(** The world after [cache_metadata zip_path metadata]. *)
Definition after_store (p : string) (metadata : pyval) (f : archive) (w : world) : world :=
  let cache_file := cache_file_path (cache_dir w) p in
  set_cache_files
    (fun fs => <[cache_index_file (cache_dir w) :=
                   Json.dump (index_value (<[p := cache_file]> (cache_index w)))]> fs)
    (set_cache_index (fun i => <[p := cache_file]> i)
       (set_cache_files
          (fun fs => <[cache_file := Json.dump (entry_document f metadata (clock w))]> fs)
          w)).

(** The world after [remove_from_cache] of a registered archive. *)
Definition after_remove (p cache_file : string) (w : world) : world :=
  set_cache_files
    (fun fs => <[cache_index_file (cache_dir w) :=
                   Json.dump (index_value (delete p (cache_index w)))]> fs)
    (set_cache_index (fun i => delete p i)
       (set_cache_files (fun fs => delete cache_file fs) w)).

(** The parts of the world a lookup never touches. *)
Definition same_outside_cache (w w1 : world) : Prop :=
  archives w1 = archives w /\ cache_dir w1 = cache_dir w /\
  open_zips w1 = open_zips w /\ extracted_files w1 = extracted_files w /\
  user_files w1 = user_files w /\ writable w1 = writable w /\
  clock w1 = clock w /\ zip_reads w1 = zip_reads w.

(** [d] without the key [k] *)
Definition dict_without (k : string) (d : list (string * pyval)) : list (string * pyval) :=
  List.filter (fun kv => negb (String.eqb (fst kv) k)) d.

End CacheSpec.

(** ** The archive accessor: opened archives, settled states *)

Module ZipSpec.
Import ZipManager.

Section WithUnicode.
Context `{U : Str.Unicode}.

Definition scanned (zf : zipfile) : pyval :=
  PList (List.map PStr (Scan.scan_audio_files (namelist zf))).

Definition opened (p : string) (zf : zipfile) (w : world) : world :=
  set_open_zips (fun m => <[p := zf]> m) (count_zip_read w).

(** Which branch [list_audio_files] takes on a lookup result. *)
Definition from_cache (v : pyval) : result bool :=
  if Py.truthy v then Py.contains "audio_files" v else Ok false.

Definition audio_entries (entries : list zipinfo) : list zipinfo :=
  List.filter (fun zinfo => Scan.has_audio_extension (filename zinfo)) entries.

(** The payload [load_zip] stores after a scan. *)
Definition scan_payload (entries : list zipinfo) (fm : list (string * pyval)) : pyval :=
  PDict [("audio_files", scanned (ZipFile entries));
         ("total_files", PInt (Z.of_nat (List.length entries)));
         ("file_metadata", PDict fm)].

(** The state a successful [load_zip] leaves for the path: the lookup
    is served [v] without effect, the archive exists, and when the
    lookup misses the archive is open. *)
Definition settled (p : string) (w : world) (v : pyval) : Prop :=
  Lookup.decision w p = (Ok v, Lookup.Keep) /\
  is_Some (archives w !! p) /\
  (v = PNone -> is_Some (open_zips w !! p)).

(** What [list_audio_files] answers in such a state. *)
Definition served (p : string) (w : world) (v L : pyval) : Prop :=
  match from_cache v with
  | Ok true => Py.getitem v "audio_files" = Ok L
  | Ok false => exists zf, open_zips w !! p = Some zf /\ L = scanned zf
  | Raise _ => False
  end.

(** The names of an archive, as the scan lists them. *)
Definition listing (entries : list zipinfo) : list string :=
  Scan.scan_audio_files (List.map filename entries).

(** The world after a successful extraction to [path]. *)
Definition extracted (path data : string) (w : world) : world :=
  set_extracted_files (fun l => l ++ [path])
    (set_user_files (fun fs => <[path := data]> fs) w).

End WithUnicode.

End ZipSpec.

(** ** Sample archives and worlds *)

Module Sample.

Definition entry (name : string) (size : Z) (duration : option Z) : zipinfo :=
  ZipInfo name size [2024; 5; 17; 10; 30; 0]%Z "fake audio content" duration duration.

(** The archive of the ordering scenario of the specification. *)
Definition pack : archive :=
  Archive 4096 (1716000000500%Z, 1000%positive)
    (Some [entry "drums/kick.wav" 16 (Some 1200%Z);
           entry "drums/Snare.wav" 16 (Some 800%Z);
           entry "amb/room.ogg" 16 None]).

(** The same file after it was replaced by a larger one. *)
Definition pack_modified : archive :=
  Archive 8192 (1716000555000%Z, 1000%positive)
    (Some [entry "drums/kick.wav" 16 (Some 1200%Z)]).

(** An archive with a resource fork next to its one audio file. *)
Definition mac : archive :=
  Archive 2048 (1716000001000%Z, 1000%positive)
    (Some [entry "__MACOSX/._audio1.wav" 4 None; entry "audio1.wav" 16 (Some 300%Z)]).


Definition cache_root : string := "/home/user/.audio_browser/cache".

(** A new [ZipManager] over an empty cache directory. *)
Definition fresh (a : gmap string archive) : world :=
  World a cache_root ∅ ∅ ∅ [] ∅ (fun _ => true) (1716000100%Z, 1%positive) 0.

Definition pack_path : string := "/music/pack.zip".

Definition initial : world := fresh {[pack_path := pack]}.

(** A payload as [load_zip] builds it, with the entry's [date_time]. *)
Definition payload : pyval :=
  PDict [("audio_files", PList [PStr "drums/kick.wav"]);
         ("total_files", PInt 1);
         ("file_metadata",
           PDict [("drums/kick.wav",
                    PDict [("size", PInt 16);
                           ("timestamp", PTuple (List.map PInt [2024; 5; 17; 10; 30; 0]%Z));
                           ("duration_ms", PInt 1200)])])].

(** The same payload with the time stamp as a list. *)
Definition payload_lists : pyval :=
  PDict [("audio_files", PList [PStr "drums/kick.wav"]);
         ("total_files", PInt 1);
         ("file_metadata",
           PDict [("drums/kick.wav",
                    PDict [("size", PInt 16);
                           ("timestamp", PList (List.map PInt [2024; 5; 17; 10; 30; 0]%Z));
                           ("duration_ms", PInt 1200)])])].

Definition corrupt_world : world :=
  set_cache_index
    (fun i => <[pack_path :=
                  CacheManager.cache_file_path cache_root pack_path]> i)
    (set_cache_files
       (fun fs => <[CacheManager.cache_file_path cache_root pack_path :=
                      Json.Malformed "{file_stats: {size: 40"]> fs)
       initial).

Definition legacy_document : list (string * pyval) :=
  [("checksum", PStr "9f86d081884c7d659a2feaa0c55ad015a3bf4f1b2b0b822cd15d6c15b0f00a08");
   ("size", PInt 4096);
   ("timestamp", PFloat 1700000000 1);
   ("metadata", payload_lists)].

Definition legacy_world : world :=
  set_cache_index
    (fun i => <[pack_path :=
                  CacheManager.cache_file_path cache_root pack_path]> i)
    (set_cache_files
       (fun fs => <[CacheManager.cache_file_path cache_root pack_path :=
                      Json.Document (PDict legacy_document)]> fs)
       initial).

Definition stored_document : list (string * pyval) :=
  [("file_stats", CacheManager.file_stats pack);
   ("metadata", payload_lists);
   ("timestamp", PFloat 1716000100 1)].

(** The cache holds the entry of [pack]; the file has since been
    replaced. *)
Definition stale_world : world :=
  set_archives {[pack_path := pack_modified]} (1716000600%Z, 1%positive)
    (CacheSpec.after_store pack_path payload_lists pack initial).

Definition backup_path : string := "/backup/pack.zip".

Definition two_archives : world :=
  fresh {[pack_path := pack; backup_path := pack_modified]}.

Definition backup_payload : pyval :=
  PDict [("audio_files", PList [PStr "drums/kick.wav"]);
         ("total_files", PInt 1);
         ("file_metadata", PDict [])].

Definition other_path : string := "/music/loops.zip".

(** Two archives of different names, the second one cached. *)
Definition other_cached : world :=
  CacheSpec.after_store other_path backup_payload mac
    (fresh {[pack_path := pack; other_path := mac]}).

(** The archive of [pack] rewritten within the same second to the
    same size, with other entries. *)
Definition pack_touched : archive :=
  Archive 4096 (1716000000900%Z, 1000%positive)
    (Some [entry "other/clap.wav" 16 (Some 100%Z)]).

Definition mac_path : string := "/music/mac.zip".

Definition mac_world : world := fresh {[mac_path := mac]}.



(** Two entries named kick.wav in different folders. *)
Definition kicks : archive :=
  Archive 1000 (1716000003000%Z, 1000%positive)
    (Some [ZipInfo "drums/kick.wav" 9 [2024; 5; 17; 10; 30; 0]%Z "drum kick" None None;
           ZipInfo "perc/kick.wav" 9 [2024; 5; 17; 10; 31; 0]%Z "perc kick" None None]).

Definition kicks_path : string := "/music/kicks.zip".

Definition kicks_world : world := fresh {[kicks_path := kicks]}.

(** Entries at the root, in a folder, in a folder inside it, and in a
    folder that differs from another in case only. *)
Definition nested : archive :=
  Archive 3000 (1716000005000%Z, 1000%positive)
    (Some [entry "b.wav" 16 None; entry "a/z.wav" 16 None; entry "notes.txt" 5 None;
           entry "a/b/c.wav" 16 None; entry "A/y.wav" 16 None]).

Definition nested_path : string := "/music/nested.zip".

Definition nested_world : world := fresh {[nested_path := nested]}.

(** The file of [pack] written anew later, to the same size, with one
    entry. *)
Definition pack_rewritten : archive :=
  Archive 4096 (1716000555000%Z, 1000%positive)
    (Some [entry "drums/kick.wav" 16 (Some 1200%Z)]).

(** A folder packed on a Mac and packed again inside another archive:
    the resource forks lie under pack/__MACOSX, and a hidden file lies
    next to the audio file. *)
Definition repacked : archive :=
  Archive 5000 (1716000006000%Z, 1000%positive)
    (Some [entry "pack/kick.wav" 16 (Some 1200%Z);
           entry "pack/__MACOSX/._kick.wav" 4 None;
           entry "pack/._snare.wav" 4 None]).

Definition repacked_path : string := "/music/repacked.zip".

Definition repacked_world : world := fresh {[repacked_path := repacked]}.

End Sample.

(** ** The index file, and what a session keeps true *)

Module IndexSpec.
Import CacheManager.

(** What a new [CacheManager] reads from the index file. *)
Definition stored_index (w : world) : pyval :=
  Lookup.loaded (cache_files w !! cache_index_file (cache_dir w)).

(** The index file holds the index of the running session. *)
Definition synced (w : world) : Prop :=
  CacheIndex.as_index (stored_index w) = Some (cache_index w).

(** Every archive is registered with the entry file of its name. *)
Definition consistent (w : world) : Prop :=
  forall p cache_file,
    cache_index w !! p = Some cache_file ->
    cache_file = cache_file_path (cache_dir w) p.

(** The files of the cache directory without [files]. *)
Definition without (files : list string) (fs : gmap string Json.content)
  : gmap string Json.content :=
  List.fold_left (fun fs' cache_file => delete cache_file fs') files fs.

(** The world after [clear_cache]. *)
Definition cleared (w : world) : world :=
  set_cache_files
    (fun fs => <[cache_index_file (cache_dir w) := Json.dump (index_value ∅)]> fs)
    (set_cache_index (fun _ => ∅)
       (set_cache_files (without (List.map snd (map_to_list (cache_index w)))) w)).

(** A new session over the files of [w]. *)
Definition restarted (idx : gmap string string) (w : world) : world :=
  set_cache_index (fun _ => idx)
    (set_extracted_files (fun _ => []) (set_open_zips (fun _ => ∅) w)).

End IndexSpec.

(** ** Sessions: sequences of calls *)

Module Session.

Section WithUnicode.
Context `{U : Str.Unicode}.

Inductive call : Type :=
| LoadZip (zip_path : string)
| ListAudioFiles (zip_path : string)
| GetAudioDuration (zip_path file_name : string)
| GetFileDuration (zip_path file_name : string)
| ReadFile (zip_path file_name : string)
| StreamFile (zip_path file_name : string) (chunk_size : Z)
| ExtractFile (zip_path file_name output_dir : string)
| ExtractFiles (zip_path : string) (file_names : list string) (output_dir : string)
| CloseZip (zip_path : string)
| Cleanup (can_remove : string -> bool)
| GetCachedMetadata (zip_path : string)
| CacheMetadata (zip_path : string) (metadata : pyval)
| RemoveFromCache (zip_path : string)
| ClearCache
| Environment (a : gmap string archive) (now : Z * positive).

(** The world after a computation, whether it returned or raised. *)
Definition after {A : Type} (m : M A) (w : world) : world := snd (m w).

(** The world after a call of a method; [Environment] is a change of
    the archives made from outside between two calls. *)
Definition run (c : call) : world -> world :=
  match c with
  | LoadZip p => after (ZipManager.load_zip p)
  | ListAudioFiles p => after (ZipManager.list_audio_files p)
  | GetAudioDuration p n => after (ZipManager.get_audio_duration p n)
  | GetFileDuration p n => after (ZipAccess.get_file_duration p n)
  | ReadFile p n => after (ZipAccess.read_file p n)
  | StreamFile p n size => after (ZipAccess.stream_file p n size)
  | ExtractFile p n out => after (ZipManager.extract_file p n out)
  | ExtractFiles p ns out => after (ZipAccess.extract_files p ns out)
  | CloseZip p => after (ZipAccess.close_zip p)
  | Cleanup can_remove => after (ZipAccess.cleanup can_remove)
  | GetCachedMetadata p => after (CacheManager.get_cached_metadata p)
  | CacheMetadata p md => after (CacheManager.cache_metadata p md)
  | RemoveFromCache p => after (CacheManager.remove_from_cache p)
  | ClearCache => after CacheIndex.clear_cache
  | Environment a now => set_archives a now
  end.

Definition session (calls : list call) (w : world) : world :=
  List.fold_left (fun w' c => run c w') calls w.

(** [m] keeps [I], on return and on exception. *)
Definition preserves (I : world -> Prop) {A : Type} (m : M A) : Prop :=
  forall w, I w -> I (after m w).

End WithUnicode.

End Session.

(** ** Batches, cleanup *)

Module BatchSpec.

(** Where [extract_file] writes an entry. *)
Definition destination (output_dir file_name : string) : string :=
  Path.join output_dir (Path.basename file_name).

(** The files left when [cleanup] has gone through [files]. *)
Definition removed (can_remove : string -> bool) (files : list string)
    (fs : gmap string string) : gmap string string :=
  List.fold_left (fun fs' f => if can_remove f then delete f fs' else fs') files fs.

(** The world after [cleanup]. *)
Definition cleaned (can_remove : string -> bool) (w : world) : world :=
  set_open_zips (fun _ => ∅)
    (set_extracted_files (fun _ => [])
       (set_user_files (removed can_remove (extracted_files w)) w)).

(** The world after [close_zip]. *)
Definition closed (p : string) (w : world) : world :=
  set_open_zips (fun m => delete p m) w.

End BatchSpec.

(** ** Durations in the payload *)

Module DurationSpec.

(** The record [get_file_duration] starts from: the one the payload has
    for the file, or a new one from the entry. *)
Definition base_record (fm : list (string * pyval)) (name : string) (zi : zipinfo)
  : list (string * pyval) :=
  match Py.dict_get name fm with
  | Some (PDict record) => record
  | _ => [("size", PInt (file_size zi));
          ("timestamp", PTuple (List.map PInt (date_time zi)))]
  end.

(** The payload [d] with the duration of [name] added to its record. *)
Definition merged (d fm : list (string * pyval)) (name : string) (zi : zipinfo)
    (duration : pyval) : pyval :=
  PDict (Py.dict_set "file_metadata"
           (PDict (Py.dict_set name
                     (PDict (Py.dict_set "duration_ms" duration (base_record fm name zi)))
                     fm))
           d).

(** The payload knows no duration of [name]. *)
Definition unknown (fm : list (string * pyval)) (name : string) : Prop :=
  forall x, Py.dict_get name fm = Some x ->
            exists record, x = PDict record /\ Py.dict_get "duration_ms" record = None.

End DurationSpec.

(** ** More sample worlds *)

Module Scenario.
Import Sample.

Section WithUnicode.
Context `{U : Str.Unicode}.

(** The cache holds the entry of [pack]; the archive is gone. *)
Definition vanished_world : world :=
  set_archives ∅ (1716000600%Z, 1%positive)
    (CacheSpec.after_store pack_path payload_lists pack initial).

(** An entry file with the fingerprint of [pack] and no payload. *)
Definition bare_entry_world : world :=
  set_cache_index
    (fun i => <[pack_path := CacheManager.cache_file_path cache_root pack_path]> i)
    (set_cache_files
       (fun fs => <[CacheManager.cache_file_path cache_root pack_path :=
                      Json.Document (PDict [("file_stats", CacheManager.file_stats pack)])]> fs)
       initial).

(** Next to the entry of [pack], an entry file no archive is
    registered with. *)
Definition orphan_file : string := "/home/user/.audio_browser/cache/old.zip.cache".

Definition orphan_world : world :=
  set_cache_files
    (fun fs => <[orphan_file := Json.Document (PDict [("checksum", PStr "00")])]> fs)
    (CacheSpec.after_store pack_path payload_lists pack initial).

(** The entry of [pack] is there, the index file is damaged. *)
Definition damaged_index_world : world :=
  set_cache_files
    (fun fs => <[CacheManager.cache_index_file cache_root := Json.Malformed "{"]> fs)
    (CacheSpec.after_store pack_path payload_lists pack initial).

(** [pack] was opened, then replaced on disk, then opened again: the
    handle of the first open is still there. *)
Definition stale_handle_world : world :=
  snd (ZipManager.load_zip pack_path
         (set_archives {[pack_path := pack_modified]} (1716000600%Z, 1%positive)
            (snd (ZipManager.load_zip pack_path initial)))).

(** A file that is no ZIP archive. *)
Definition notes_path : string := "/music/notes.zip".

Definition notes_world : world :=
  fresh {[notes_path := Archive 10 (1716000004000%Z, 1000%positive) None]}.

(** The cache holds a payload of [pack] without any record. *)
Definition bare_payload_world : world :=
  CacheSpec.after_store pack_path backup_payload pack initial.

(** [pack] after [load_zip]. *)
Definition loaded_world : world := snd (ZipManager.load_zip pack_path initial).

(** A file that was there before anything was extracted. *)
Definition with_user_file : world :=
  set_user_files (fun fs => <["/tmp/out/kick.wav" := "my own recording"]> fs) kicks_world.

(** Only the output directory can be written to, not its root. *)
Definition guarded_world : world :=
  World {[kicks_path := kicks]} cache_root ∅ ∅ ∅ [] ∅
        (fun path => Str.startswith path "/tmp/out/") (1716000100%Z, 1%positive) 0.

End WithUnicode.

End Scenario.

Ltac unfold_monad :=
  cbv beta iota delta [bind ret gets modify lift raise try_except].

(* ===================================================================== *)
(** * Properties                                                           *)
(* ===================================================================== *)

(** ** The path functions and the scan on examples *)

Example ex_dirname : List.map Path.dirname ["a/b/c.wav"; "c.wav"; "/c.wav"; "a//c.wav"; "//c.wav"]
  = ["a/b"; ""; "/"; "a"; "//"].
Proof. reflexivity. Qed.
Example ex_basename : List.map Path.basename ["a/b/c.wav"; "c.wav"; "a/"; ""] = ["c.wav"; "c.wav"; ""; ""].
Proof. reflexivity. Qed.
Example ex_suffix : List.map Path.suffix ["a/b/c.WAV"; ".wav"; "a.b/c"; "x.wav/"; "a."; "__MACOSX/._a.wav"; "a/b.tar.gz"]
  = [".WAV"; ""; ""; ".wav"; ""; ".wav"; ".gz"].
Proof. reflexivity. Qed.
Example ex_join : List.map (fun '(a, b) => Path.join a b) [("/out", "a.wav"); ("/out/", "a.wav"); ("", "a.wav"); ("/out", "")]
  = ["/out/a.wav"; "/out/a.wav"; "a.wav"; "/out/"].
Proof. reflexivity. Qed.
(** On ASCII text [str.lower] is the lowering of the letters A to Z,
    so the scan of ASCII names can be run. *)
Lemma lower_ascii `{U : Str.Unicode} (s : string) :
  Str.is_ascii s = true -> Str.lower s = Str.ascii_lower s.
Proof. apply Str.str_lower_ascii. Qed.

Ltac lower_text :=
  repeat (cbv -[Str.lower]; rewrite ?lower_ascii by reflexivity);
  try reflexivity.

Section ScanExamples.
Context `{U : Str.Unicode}.

Example ex_scan : Scan.scan_audio_files ["drums/kick.wav"; "drums/Snare.wav"; "amb/room.ogg"]
  = ["amb/room.ogg"; "drums/kick.wav"; "drums/Snare.wav"].
Proof. lower_text. Qed.
Example ex_scan2 : Scan.scan_audio_files ["B/b.wav"; "A/a.mp3"; "a/c.ogg"; "__MACOSX/._audio1.wav"; "audio1.wav"; "x.txt"]
  = ["audio1.wav"; "A/a.mp3"; "a/c.ogg"; "B/b.wav"].
Proof. lower_text. Qed.

(** The test for system files looks at the start of the entry name: a
    marker further inside the name does not count, and a leading dot
    alone is no marker. *)
Example system_marker_inside_name :
  Scan.scan_audio_files
    ["pack/._kick.wav"; "pack/__MACOSX/snare.wav"; ".hidden.wav"; "__MACOSX_notes.wav"]
  = [".hidden.wav"; "pack/._kick.wav"; "pack/__MACOSX/snare.wav"].
Proof. lower_text. Qed.

(** Folders that differ in case only are two folders; they come next to
    each other, in the order of the archive. *)
Example folders_differing_in_case :
  Scan.scan_audio_files ["a/z.wav"; "A/b.wav"; "B/c.wav"; "a/a.wav"]
  = ["a/a.wav"; "a/z.wav"; "A/b.wav"; "B/c.wav"].
Proof. lower_text. Qed.

End ScanExamples.

(** ** The order on strings *)

Module StrFacts.

Lemma compare_refl (s : string) : String.compare s s = Eq.
Proof.
  induction s as [|c s IH]; simpl; [reflexivity|].
  unfold Ascii.compare. rewrite N.compare_refl. exact IH.
Qed.

Lemma le_refl (s : string) : Str.le s s = true.
Proof. unfold Str.le, String.leb. now rewrite compare_refl. Qed.

Lemma le_total (a b : string) : Str.le a b = true \/ Str.le b a = true.
Proof. apply String.leb_total. Qed.

Lemma le_false_flip (a b : string) : Str.le a b = false -> Str.le b a = true.
Proof. destruct (le_total a b) as [H|H]; congruence. Qed.

(** [compare] is a lexicographic order: [Lt] and [Eq] compose. *)
Lemma compare_trans (a b c : string) :
  String.compare a b <> Gt -> String.compare b c <> Gt -> String.compare a c <> Gt.
Proof.
  revert b c. induction a as [|x a IH]; intros [|y b] [|z c]; simpl; try congruence.
  unfold Ascii.compare.
  destruct (N.compare_spec (N_of_ascii x) (N_of_ascii y)) as [Hxy|Hxy|Hxy];
    destruct (N.compare_spec (N_of_ascii y) (N_of_ascii z)) as [Hyz|Hyz|Hyz];
    destruct (N.compare_spec (N_of_ascii x) (N_of_ascii z)) as [Hxz|Hxz|Hxz];
    try congruence; try lia.
  apply IH.
Qed.

Lemma le_trans (a b c : string) :
  Str.le a b = true -> Str.le b c = true -> Str.le a c = true.
Proof.
  unfold Str.le, String.leb. intros Hab Hbc.
  pose proof (compare_trans a b c) as H.
  destruct (String.compare a b), (String.compare b c), (String.compare a c);
    try reflexivity; try discriminate; exfalso; apply H; congruence.
Qed.

End StrFacts.

(** ** The stable sort *)

Section StableSortFacts.
Context {A : Type} (key : A -> string).

Lemma insert_by_perm (x : A) (l : list A) : Permutation (insert_by key x l) (x :: l).
Proof.
  induction l as [|y l IH]; simpl; [reflexivity|].
  destruct (Str.le (key x) (key y)); [reflexivity|].
  rewrite IH. apply perm_swap.
Qed.

Lemma sorted_by_perm (l : list A) : Permutation (sorted_by key l) l.
Proof.
  induction l as [|x l IH]; simpl; [reflexivity|].
  rewrite insert_by_perm. now rewrite IH.
Qed.

Lemma insert_by_sorted (x : A) (l : list A) :
  StronglySorted (key_le key) l -> StronglySorted (key_le key) (insert_by key x l).
Proof.
  induction 1 as [|y l Hl IH Hy]; simpl.
  - repeat constructor.
  - destruct (Str.le (key x) (key y)) eqn:E.
    + constructor; [constructor; assumption|].
      constructor; [exact E|].
      eapply List.Forall_impl; [|exact Hy].
      intros z Hz. unfold key_le in *. eapply StrFacts.le_trans; eassumption.
    + constructor; [exact IH|].
      eapply Permutation_Forall; [symmetry; apply insert_by_perm|].
      constructor; [|exact Hy].
      now apply StrFacts.le_false_flip.
Qed.

Lemma sorted_by_sorted (l : list A) : StronglySorted (key_le key) (sorted_by key l).
Proof.
  induction l as [|x l IH]; simpl; [constructor|].
  now apply insert_by_sorted.
Qed.

Lemma sorted_by_In (x : A) (l : list A) : In x (sorted_by key l) <-> In x l.
Proof.
  split; apply Permutation_in; [|symmetry]; apply sorted_by_perm.
Qed.

Lemma sorted_by_NoDup (l : list A) : List.NoDup l -> List.NoDup (sorted_by key l).
Proof.
  intros H. eapply Permutation_NoDup; [symmetry; apply sorted_by_perm|exact H].
Qed.

End StableSortFacts.

(** ** The scan: grouping by folder, then the two sorts *)

Module ScanFacts.
Import Scan ScanSpec.

Section WithUnicode.
Context `{U : Str.Unicode}.

Lemma scan_step_filter (names : list string) (d : folders) :
  List.fold_left scan_step names d = List.fold_left add_name (List.filter kept names) d.
Proof.
  revert d. induction names as [|n names IH]; intros d; simpl; [reflexivity|].
  unfold scan_step at 2, kept.
  destruct (is_system_file n); simpl; [apply IH|].
  destruct (has_audio_extension n); simpl; apply IH.
Qed.

Lemma bucket_add (f g n : string) (d : folders) :
  bucket f (add_to_folder g n d)
  = if String.eqb g f then bucket f d ++ [n] else bucket f d.
Proof.
  induction d as [|[h ns] d IH]; simpl.
  - destruct (String.eqb_spec g f); simpl; reflexivity.
  - destruct (String.eqb_spec h g) as [->|Hhg]; simpl.
    + destruct (String.eqb_spec g f); reflexivity.
    + destruct (String.eqb_spec h f) as [->|Hhf].
      * destruct (String.eqb_spec g f); [congruence|reflexivity].
      * exact IH.
Qed.

Lemma bucket_fold (f : string) (l : list string) (d : folders) :
  bucket f (List.fold_left add_name l d) = bucket f d ++ List.filter (in_folder f) l.
Proof.
  revert d. induction l as [|n l IH]; intros d; simpl.
  - now rewrite List.app_nil_r.
  - rewrite IH. unfold add_name, in_folder. rewrite bucket_add.
    destruct (String.eqb (Path.dirname n) f); [now rewrite <- List.app_assoc|reflexivity].
Qed.

Lemma keys_add_In (g n x : string) (d : folders) :
  In x (List.map fst (add_to_folder g n d)) -> x = g \/ In x (List.map fst d).
Proof.
  induction d as [|[h ns] d IH]; simpl.
  - intros [<-|[]]. now left.
  - destruct (String.eqb h g); simpl; intros [<-|H]; auto.
    destruct (IH H); auto.
Qed.

Lemma keys_add_NoDup (g n : string) (d : folders) :
  List.NoDup (List.map fst d) -> List.NoDup (List.map fst (add_to_folder g n d)).
Proof.
  induction d as [|[h ns] d IH]; simpl; intros H.
  - repeat constructor. intros [].
  - inversion H as [|? ? Hnotin Hnd]; subst.
    destruct (String.eqb_spec h g) as [->|Hhg]; simpl; [exact H|].
    constructor; [|now apply IH].
    intros Hin. apply keys_add_In in Hin. destruct Hin; congruence.
Qed.

Lemma keys_fold_NoDup (l : list string) (d : folders) :
  List.NoDup (List.map fst d) -> List.NoDup (List.map fst (List.fold_left add_name l d)).
Proof.
  revert d. induction l as [|n l IH]; intros d H; simpl; [exact H|].
  apply IH. now apply keys_add_NoDup.
Qed.

Lemma contents_add (g n : string) (d : folders) :
  Permutation (List.flat_map snd (add_to_folder g n d)) (n :: List.flat_map snd d).
Proof.
  induction d as [|[h ns] d IH]; simpl; [reflexivity|].
  destruct (String.eqb h g); simpl.
  - rewrite <- List.app_assoc. simpl.
    now rewrite <- Permutation_middle.
  - rewrite IH. now rewrite <- Permutation_middle.
Qed.

Lemma contents_fold (l : list string) (d : folders) :
  Permutation (List.flat_map snd (List.fold_left add_name l d)) (l ++ List.flat_map snd d).
Proof.
  revert d. induction l as [|n l IH]; intros d; simpl; [reflexivity|].
  rewrite IH. unfold add_name. rewrite contents_add.
  now rewrite <- Permutation_middle.
Qed.

Lemma flat_map_ext_In {A B : Type} (g h : A -> list B) (l : list A) :
  (forall x, In x l -> g x = h x) -> List.flat_map g l = List.flat_map h l.
Proof.
  induction l as [|x l IH]; simpl; intros H; [reflexivity|].
  rewrite (H x) by now left. f_equal. apply IH. intros y Hy. apply H. now right.
Qed.

(** With distinct keys, reading every bucket in key order gives the
    contents of the dict. *)
Lemma buckets_contents (d : folders) :
  List.NoDup (List.map fst d) ->
  List.flat_map (fun f => bucket f d) (List.map fst d) = List.flat_map snd d.
Proof.
  induction d as [|[h ns] d IH]; simpl; intros H; [reflexivity|].
  inversion H as [|? ? Hnotin Hnd]; subst.
  rewrite String.eqb_refl. f_equal.
  rewrite <- (IH Hnd). apply flat_map_ext_In.
  intros g Hg. destruct (String.eqb_spec h g) as [->|_]; [contradiction|reflexivity].
Qed.

Lemma flat_map_perm {A B : Type} (g : A -> list B) (l l' : list A) :
  Permutation l l' -> Permutation (List.flat_map g l) (List.flat_map g l').
Proof.
  induction 1; simpl.
  - reflexivity.
  - now apply Permutation_app_head.
  - rewrite !List.app_assoc. apply Permutation_app_tail, Permutation_app_comm.
  - etransitivity; eassumption.
Qed.

Lemma flat_map_perm_pointwise {A B : Type} (g h : A -> list B) (l : list A) :
  (forall x, Permutation (g x) (h x)) ->
  Permutation (List.flat_map g l) (List.flat_map h l).
Proof.
  intros Hgh. induction l as [|x l IH]; simpl; [reflexivity|].
  now apply Permutation_app.
Qed.

(** The scan keeps exactly the names that pass the two tests, each as
    often as it occurs. *)
Lemma scan_perm (names : list string) :
  Permutation (scan_audio_files names) (List.filter kept names).
Proof.
  unfold scan_audio_files, files_by_folder. rewrite scan_step_filter.
  set (d := List.fold_left add_name (List.filter kept names) []).
  assert (Hnd : List.NoDup (List.map fst d)) by (apply keys_fold_NoDup; constructor).
  etransitivity.
  { apply flat_map_perm_pointwise. intros f. apply sorted_by_perm. }
  etransitivity.
  { apply flat_map_perm. apply sorted_by_perm. }
  rewrite (buckets_contents d Hnd). unfold d.
  rewrite contents_fold. simpl. now rewrite List.app_nil_r.
Qed.

Lemma scan_In (names : list string) (n : string) :
  In n (scan_audio_files names) <-> In n names /\ kept n = true.
Proof.
  rewrite <- List.filter_In. split; apply Permutation_in; [|symmetry]; apply scan_perm.
Qed.

Lemma StronglySorted_app {A : Type} (R : A -> A -> Prop) (l1 l2 : list A) :
  StronglySorted R l1 -> StronglySorted R l2 ->
  (forall a b, In a l1 -> In b l2 -> R a b) ->
  StronglySorted R (l1 ++ l2).
Proof.
  induction 1 as [|x l1 Hl1 IH Hx]; simpl; intros H2 Hcross; [exact H2|].
  constructor.
  - apply IH; [exact H2|]. intros a b Ha Hb. apply Hcross; [now right|exact Hb].
  - apply List.Forall_app. split; [exact Hx|].
    apply List.Forall_forall. intros b Hb. apply Hcross; [now left|exact Hb].
Qed.

Lemma same_folder_sorted (f : string) (l : list string) :
  Forall (fun n => Path.dirname n = f) l -> StronglySorted folder_le l.
Proof.
  induction 1 as [|x l Hx Hl IH]; constructor; [exact IH|].
  eapply List.Forall_impl; [|exact Hl].
  intros y Hy. unfold folder_le. rewrite Hx, Hy. apply StrFacts.le_refl.
Qed.

Lemma flat_map_folder_sorted (g : string -> list string) (ks : list string) :
  (forall k, Forall (fun n => Path.dirname n = k) (g k)) ->
  StronglySorted (key_le Str.lower) ks ->
  StronglySorted folder_le (List.flat_map g ks).
Proof.
  intros Hg. induction 1 as [|k ks Hks IH Hk]; simpl; [constructor|].
  apply StronglySorted_app; [eapply same_folder_sorted; apply Hg|exact IH|].
  intros a b Ha Hb. apply List.in_flat_map in Hb. destruct Hb as (k' & Hk' & Hb).
  pose proof (Hg k) as Hgk. pose proof (Hg k') as Hgk'.
  rewrite List.Forall_forall in Hgk, Hgk', Hk.
  unfold folder_le. rewrite (Hgk a Ha), (Hgk' b Hb). exact (Hk k' Hk').
Qed.

Lemma filter_other_folder (f k : string) (l : list string) :
  Forall (fun n => Path.dirname n = k) l -> k <> f -> List.filter (in_folder f) l = [].
Proof.
  induction 1 as [|x l Hx Hl IH]; intros Hkf; simpl; [reflexivity|].
  unfold in_folder at 1. rewrite Hx.
  destruct (String.eqb_spec k f); [contradiction|]. now apply IH.
Qed.

Lemma filter_same_folder (f : string) (l : list string) :
  Forall (fun n => Path.dirname n = f) l -> List.filter (in_folder f) l = l.
Proof.
  induction 1 as [|x l Hx Hl IH]; simpl; [reflexivity|].
  unfold in_folder at 1. rewrite Hx, String.eqb_refl. now rewrite IH.
Qed.

Lemma filter_flat_map_absent (g : string -> list string) (f : string) (ks : list string) :
  (forall k, Forall (fun n => Path.dirname n = k) (g k)) ->
  ~ In f ks -> List.filter (in_folder f) (List.flat_map g ks) = [].
Proof.
  intros Hg. induction ks as [|k ks IH]; simpl; intros Hf; [reflexivity|].
  rewrite List.filter_app, IH by tauto.
  rewrite (filter_other_folder f k); [reflexivity|apply Hg|]. intros ->. apply Hf. now left.
Qed.

Lemma filter_flat_map_present (g : string -> list string) (f : string) (ks : list string) :
  (forall k, Forall (fun n => Path.dirname n = k) (g k)) ->
  List.NoDup ks -> In f ks -> List.filter (in_folder f) (List.flat_map g ks) = g f.
Proof.
  intros Hg. induction 1 as [|k ks Hk Hnd IH]; simpl; intros Hf; [contradiction|].
  rewrite List.filter_app. destruct (String.eqb_spec k f) as [->|Hkf].
  - rewrite filter_same_folder by apply Hg.
    rewrite filter_flat_map_absent by assumption. apply List.app_nil_r.
  - rewrite (filter_other_folder f k) by (try apply Hg; assumption).
    simpl. apply IH. destruct Hf; [contradiction|assumption].
Qed.

Lemma bucket_absent (f : string) (d : folders) :
  ~ In f (List.map fst d) -> bucket f d = [].
Proof.
  induction d as [|[h ns] d IH]; simpl; intros H; [reflexivity|].
  destruct (String.eqb_spec h f) as [->|_]; [tauto|]. apply IH. tauto.
Qed.

Lemma filter_in_folder_Forall (f : string) (l : list string) :
  Forall (fun n => Path.dirname n = f) (List.filter (in_folder f) l).
Proof.
  apply List.Forall_forall. intros n Hn. apply List.filter_In in Hn.
  destruct Hn as [_ Hn]. unfold in_folder in Hn. now apply String.eqb_eq in Hn.
Qed.

Lemma scan_buckets (names : list string) :
  scan_audio_files names
  = List.flat_map
      (fun f => sorted_by base_key (List.filter (in_folder f) (List.filter kept names)))
      (sorted_by Str.lower
         (List.map fst (List.fold_left add_name (List.filter kept names) []))).
Proof.
  unfold scan_audio_files, files_by_folder. rewrite scan_step_filter.
  apply flat_map_ext_In. intros f _. now rewrite bucket_fold.
Qed.

Lemma sorted_bucket_Forall (l : list string) (k : string) :
  Forall (fun n => Path.dirname n = k) (sorted_by base_key (List.filter (in_folder k) l)).
Proof.
  eapply Permutation_Forall; [symmetry; apply sorted_by_perm|].
  apply filter_in_folder_Forall.
Qed.

(** The list is sorted by folder, case-insensitively. *)
Lemma scan_folder_sorted (names : list string) :
  StronglySorted folder_le (scan_audio_files names).
Proof.
  rewrite scan_buckets. apply flat_map_folder_sorted.
  - intros k. apply sorted_bucket_Forall.
  - apply sorted_by_sorted.
Qed.

(** The entries of one folder appear as the stable sort, by lower-cased
    base name, of the folder's kept names. *)
Lemma scan_within_folder (names : list string) (f : string) :
  List.filter (in_folder f) (scan_audio_files names)
  = sorted_by base_key (List.filter (in_folder f) (List.filter kept names)).
Proof.
  rewrite scan_buckets.
  set (d := List.fold_left add_name (List.filter kept names) []).
  assert (Hnd : List.NoDup (List.map fst d)) by (apply keys_fold_NoDup; constructor).
  destruct (List.in_dec String.string_dec f (List.map fst d)) as [Hin|Hout].
  - apply filter_flat_map_present.
    + intros k. apply sorted_bucket_Forall.
    + now apply sorted_by_NoDup.
    + now apply sorted_by_In.
  - rewrite filter_flat_map_absent.
    + pose proof (bucket_fold f (List.filter kept names) []) as Hb.
      fold d in Hb. rewrite (bucket_absent f d Hout) in Hb. simpl in Hb.
      now rewrite <- Hb.
    + intros k. apply sorted_bucket_Forall.
    + now rewrite sorted_by_In.
Qed.

Lemma scan_within_folder_sorted (names : list string) (f : string) :
  StronglySorted file_le (List.filter (in_folder f) (scan_audio_files names)).
Proof.
  rewrite scan_within_folder. apply (sorted_by_sorted base_key).
Qed.

End WithUnicode.

End ScanFacts.

(** ** Python values and JSON *)

Section PyvalInduction.
Variable P : pyval -> Prop.
Hypothesis HNone : P PNone.
Hypothesis HBool : forall b, P (PBool b).
Hypothesis HInt : forall n, P (PInt n).
Hypothesis HFloat : forall n d, P (PFloat n d).
Hypothesis HStr : forall s, P (PStr s).
Hypothesis HList : forall l, Forall P l -> P (PList l).
Hypothesis HTuple : forall l, Forall P l -> P (PTuple l).
Hypothesis HDict : forall d, Forall (fun kv => P (snd kv)) d -> P (PDict d).

Fixpoint pyval_induction (v : pyval) : P v :=
  match v with
  | PNone => HNone
  | PBool b => HBool b
  | PInt n => HInt n
  | PFloat n d => HFloat n d
  | PStr s => HStr s
  | PList l =>
      HList l ((fix go (l : list pyval) : Forall P l :=
                  match l with
                  | [] => @List.Forall_nil _ P
                  | x :: l' => @List.Forall_cons _ P x l' (pyval_induction x) (go l')
                  end) l)
  | PTuple l =>
      HTuple l ((fix go (l : list pyval) : Forall P l :=
                   match l with
                   | [] => @List.Forall_nil _ P
                   | x :: l' => @List.Forall_cons _ P x l' (pyval_induction x) (go l')
                   end) l)
  | PDict d =>
      HDict d ((fix go (d : list (string * pyval)) : Forall (fun kv => P (snd kv)) d :=
                  match d with
                  | [] => @List.Forall_nil _ _
                  | kv :: d' => @List.Forall_cons _ _ kv d' (pyval_induction (snd kv)) (go d')
                  end) d)
  end.
End PyvalInduction.

Module JsonFacts.
Import Json.

Lemma map_fixed {A : Type} (f : A -> A) (l : list A) :
  Forall (fun x => f x = x) l -> List.map f l = l.
Proof. induction 1 as [|x l Hx Hl IH]; simpl; congruence. Qed.

(** Reading back what was written changes nothing more. *)
Lemma normalize_idem (v : pyval) : normalize (normalize v) = normalize v.
Proof.
  induction v as [| | | | |l IH|l IH|d IH] using pyval_induction; simpl; try reflexivity.
  - f_equal. rewrite List.map_map. apply List.map_ext_Forall. exact IH.
  - f_equal. rewrite List.map_map. apply List.map_ext_Forall. exact IH.
  - f_equal. rewrite List.map_map. apply List.map_ext_Forall.
    eapply List.Forall_impl; [|exact IH]. intros [k x] Hx; simpl in *. now rewrite Hx.
Qed.

(** A value without tuples is read back as it was written. *)
Lemma normalize_native (v : pyval) : native v = true -> normalize v = v.
Proof.
  induction v as [| | | | |l IH|l IH|d IH] using pyval_induction; simpl;
    try reflexivity; try discriminate.
  - intros H. f_equal. apply map_fixed.
    rewrite List.forallb_forall in H. rewrite List.Forall_forall in IH |- *.
    intros x Hx. apply IH; auto.
  - intros H. f_equal. apply map_fixed.
    rewrite List.forallb_forall in H. rewrite List.Forall_forall in IH |- *.
    intros [k x] Hx. simpl. f_equal. apply (IH (k, x) Hx). exact (H (k, x) Hx).
Qed.

Lemma native_normalize (v : pyval) : native (normalize v) = true.
Proof.
  induction v as [| | | | |l IH|l IH|d IH] using pyval_induction; simpl; try reflexivity.
  - rewrite List.forallb_forall. intros x Hx. apply List.in_map_iff in Hx.
    destruct Hx as (y & <- & Hy). rewrite List.Forall_forall in IH. now apply IH.
  - rewrite List.forallb_forall. intros x Hx. apply List.in_map_iff in Hx.
    destruct Hx as (y & <- & Hy). rewrite List.Forall_forall in IH. now apply IH.
  - rewrite List.forallb_forall. intros x Hx. apply List.in_map_iff in Hx.
    destruct Hx as (y & <- & Hy). rewrite List.Forall_forall in IH. simpl. now apply IH.
Qed.

Lemma normalize_names (names : list string) :
  normalize (PList (List.map PStr names)) = PList (List.map PStr names).
Proof.
  apply normalize_native. simpl. rewrite List.forallb_forall.
  intros x Hx. apply List.in_map_iff in Hx. now destruct Hx as (y & <- & _).
Qed.

Lemma load_dump (v : pyval) : load (dump v) = Ok (normalize v).
Proof. unfold load, dump. now rewrite normalize_idem. Qed.

Lemma dict_get_normalize (k : string) (d : list (string * pyval)) :
  Py.dict_get k (List.map (fun kv => (fst kv, normalize (snd kv))) d)
  = normalize <$> Py.dict_get k d.
Proof.
  induction d as [|[k' x] d IH]; simpl; [reflexivity|].
  destruct (String.eqb k' k); [reflexivity|exact IH].
Qed.

Lemma dict_set_normalize (k : string) (x : pyval) (d : list (string * pyval)) :
  List.map (fun kv => (fst kv, normalize (snd kv))) (Py.dict_set k x d)
  = Py.dict_set k (normalize x) (List.map (fun kv => (fst kv, normalize (snd kv))) d).
Proof.
  induction d as [|[k' y] d IH]; simpl; [reflexivity|].
  destruct (String.eqb k' k); simpl; [reflexivity|now rewrite IH].
Qed.

End JsonFacts.

Module PyFacts.

Lemma dict_get_set_eq (k : string) (x : pyval) (d : list (string * pyval)) :
  Py.dict_get k (Py.dict_set k x d) = Some x.
Proof.
  induction d as [|[k' y] d IH]; simpl.
  - now rewrite String.eqb_refl.
  - destruct (String.eqb k' k) eqn:E; simpl; rewrite E; [reflexivity|exact IH].
Qed.

Lemma dict_get_set_ne (k k' : string) (x : pyval) (d : list (string * pyval)) :
  k <> k' -> Py.dict_get k' (Py.dict_set k x d) = Py.dict_get k' d.
Proof.
  intros Hne. induction d as [|[h y] d IH]; simpl.
  - destruct (String.eqb_spec k k'); [contradiction|reflexivity].
  - destruct (String.eqb_spec h k) as [->|Hhk]; simpl.
    + destruct (String.eqb_spec k k'); [contradiction|reflexivity].
    + destruct (String.eqb h k'); [reflexivity|exact IH].
Qed.

Lemma eq_int (a b : Z) : Py.eq (PInt a) (PInt b) = (a =? b)%Z.
Proof. simpl. unfold Py.frac_eqb. simpl. now rewrite !Z.mul_1_r. Qed.

Lemma ne_int (a b : Z) : Py.ne (PInt a) (PInt b) = negb (a =? b)%Z.
Proof. unfold Py.ne. now rewrite eq_int. Qed.

End PyFacts.

(** ** The lookup follows its decision *)

Module LookupFacts.
Import CacheManager Lookup.

Lemma load_cache_loaded (p : string) (w : world) :
  _load_cache p w = (Ok (loaded (entry_file w p)), w).
Proof.
  unfold _load_cache, _get_cache_file_path, entry_file, loaded. unfold_monad.
  destruct (cache_files w !! cache_file_path (cache_dir w) p) as [c|]; [|reflexivity].
  destruct (Json.load c); reflexivity.
Qed.

(** [get_cached_metadata] returns what [decide] says and leaves the
    cache as the effect says. *)
Lemma get_cached_metadata_decide (p : string) (w : world) :
  get_cached_metadata p w
  = (fst (decision w p), snd (run_effect p (snd (decision w p)) w)).
Proof.
  unfold get_cached_metadata, decision, decide, indexed, observed.
  unfold bind at 1. unfold gets at 1.
  destruct (bool_decide (is_Some (cache_index w !! p))) eqn:Hidx; simpl; [|reflexivity].
  unfold bind at 1. rewrite load_cache_loaded.
  destruct (Py.truthy (loaded (entry_file w p))) eqn:Htruthy; simpl; [|reflexivity].
  unfold archive_exists, _calculate_file_stats, os_stat. unfold_monad.
  destruct (archives w !! p) as [f|] eqn:Hf; simpl; rewrite ?Hf; simpl.
  2:{ destruct (remove_from_cache p w) as [[[]|e] w'] eqn:Hrm; try reflexivity.
      exfalso. revert Hrm. unfold remove_from_cache, _save_cache_index. unfold_monad.
      destruct (cache_index w !! p); discriminate. }
  assert (Hrm : forall w0, exists w1, remove_from_cache p w0 = (Ok tt, w1)).
  { intros w0. unfold remove_from_cache, _save_cache_index. unfold_monad.
    destruct (cache_index w0 !! p); eauto. }
  destruct (Py.contains "file_stats" (loaded (entry_file w p))) as [[|]|e]; simpl;
    [| |reflexivity].
  - destruct (Py.getitem (loaded (entry_file w p)) "file_stats") as [stored|e]; simpl;
      [|reflexivity].
    destruct (Py.getitem stored "size") as [ssz|e]; simpl; [|reflexivity].
    destruct (Py.ne (PInt (st_size f)) ssz); simpl.
    { destruct (Hrm w) as [w1 ->]. reflexivity. }
    destruct (Py.getitem stored "mtime") as [smt|e]; simpl; [|reflexivity].
    destruct (Py.ne (PInt (mtime_seconds f)) smt); simpl.
    { destruct (Hrm w) as [w1 ->]. reflexivity. }
    destruct (Py.getitem (loaded (entry_file w p)) "metadata"); reflexivity.
  - destruct (Py.contains "checksum" (loaded (entry_file w p))) as [[|]|e]; simpl;
      [| |reflexivity].
    + destruct (Py.get (loaded (entry_file w p)) "size" (PInt 0)) as [lsz|e]; simpl;
        [|reflexivity].
      destruct (Py.ne (PInt (st_size f)) lsz); simpl.
      { destruct (Hrm w) as [w1 ->]. reflexivity. }
      unfold file_stats, stats_value, fingerprint. simpl.
      destruct (Py.setitem (loaded (entry_file w p)) "file_stats" _) as [up|e]; simpl;
        [|reflexivity].
      unfold _save_cache, _get_cache_file_path. unfold_monad.
      destruct (Py.getitem up "metadata"); reflexivity.
    + destruct (Hrm w) as [w1 ->]. reflexivity.
Qed.

End LookupFacts.

(** ** Paths in the cache directory *)

Module PathFacts.

Lemma append_nil_l (s : string) : ("" ++ s)%string = s.
Proof. reflexivity. Qed.

Lemma append_cons (c : ascii) (a b : string) :
  (String c a ++ b)%string = String c (a ++ b)%string.
Proof. reflexivity. Qed.

Lemma rsplit_app (ch : ascii) (s : string) :
  (fst (Str.rsplit ch s) ++ snd (Str.rsplit ch s))%string = s.
Proof.
  induction s as [|c s IH]; simpl; [reflexivity|].
  destruct (Str.rsplit ch s) as [h t]; simpl in *.
  destruct h as [|c' h].
  - rewrite append_nil_l in IH. subst t. destruct (Ascii.eqb c ch); reflexivity.
  - simpl. rewrite append_cons. congruence.
Qed.

(** The part after the last [ch] does not begin with [ch]. *)
Lemma rsplit_snd_head (ch : ascii) (s : string) :
  match snd (Str.rsplit ch s) with
  | String c _ => c <> ch
  | EmptyString => True
  end.
Proof.
  induction s as [|c s IH]; simpl; [exact I|].
  pose proof (rsplit_app ch s) as Happ.
  destruct (Str.rsplit ch s) as [h t]; simpl in *.
  destruct h as [|c' h]; simpl in *.
  - rewrite append_nil_l in Happ. subst t.
    destruct (Ascii.eqb_spec c ch); simpl; [exact IH|assumption].
  - exact IH.
Qed.

Lemma startswith_slash (s : string) :
  Str.startswith s "/" = match s with
                         | String c _ => Ascii.eqb "/"%char c
                         | EmptyString => false
                         end.
Proof.
  destruct s as [|c s]; [reflexivity|].
  unfold Str.startswith.
  change (String.prefix "/" (String c s))
    with (if ascii_dec "/" c then String.prefix "" s else false).
  destruct (ascii_dec "/" c) as [<-|Hne].
  - rewrite Ascii.eqb_refl. now destruct s.
  - symmetry. now apply Ascii.eqb_neq.
Qed.

Lemma basename_ext_relative (p ext : string) :
  Str.startswith ext "/" = false ->
  Str.startswith (Path.basename p ++ ext)%string "/" = false.
Proof.
  intros Hext. unfold Path.basename.
  pose proof (rsplit_snd_head Str.slash p) as H.
  destruct (snd (Str.rsplit Str.slash p)) as [|c b].
  - now rewrite append_nil_l.
  - rewrite append_cons, startswith_slash. apply Ascii.eqb_neq.
    unfold Str.slash in H. congruence.
Qed.

Lemma append_inj_l (a x y : string) : (a ++ x)%string = (a ++ y)%string -> x = y.
Proof.
  induction a as [|c a IH]; rewrite ?append_nil_l, ?append_cons; intros H; [exact H|].
  injection H. exact IH.
Qed.

Lemma length_append (a b : string) :
  String.length (a ++ b)%string = (String.length a + String.length b)%nat.
Proof.
  induction a as [|c a IH]; rewrite ?append_nil_l, ?append_cons; simpl; congruence.
Qed.

Lemma append_inj_r (x y a : string) : (x ++ a)%string = (y ++ a)%string -> x = y.
Proof.
  revert y. induction x as [|c x IH]; intros [|d y] H;
    rewrite ?append_nil_l, ?append_cons in H.
  - reflexivity.
  - apply (f_equal String.length) in H. simpl in H. rewrite length_append in H. lia.
  - apply (f_equal String.length) in H. simpl in H. rewrite length_append in H. lia.
  - injection H as -> H. f_equal. now apply IH.
Qed.

(** In one directory, relative names give different paths. *)
Lemma join_inj (dir a b : string) :
  Str.startswith a "/" = false -> Str.startswith b "/" = false ->
  Path.join dir a = Path.join dir b -> a = b.
Proof.
  unfold Path.join. intros -> ->.
  destruct (snd (Str.rsplit Str.slash dir)); intros H.
  - now apply append_inj_l in H.
  - apply append_inj_l in H. rewrite !append_cons, !append_nil_l in H. now injection H.
Qed.

Lemma cache_name_not_index (b : string) : (b ++ ".cache")%string <> "cache_index.json".
Proof.
  intros H.
  apply (f_equal String.length) in H as Hlen. rewrite length_append in Hlen.
  do 11 (destruct b as [|? b]; rewrite ?append_nil_l, ?append_cons in H;
         [try discriminate H|injection H as _ H; simpl in Hlen]).
  all: simpl in Hlen; lia.
Qed.

(** An entry file is never the index file. *)
Lemma entry_not_index (dir p : string) :
  CacheManager.cache_file_path dir p <> CacheManager.cache_index_file dir.
Proof.
  unfold CacheManager.cache_file_path, CacheManager.cache_index_file. intros H.
  apply join_inj in H.
  - exact (cache_name_not_index _ H).
  - now apply basename_ext_relative.
  - reflexivity.
Qed.

(** Archives with different file names have different entry files. *)
Lemma entry_files_differ (dir p q : string) :
  Path.basename p <> Path.basename q ->
  CacheManager.cache_file_path dir p <> CacheManager.cache_file_path dir q.
Proof.
  unfold CacheManager.cache_file_path. intros Hne H.
  apply join_inj in H; try now apply basename_ext_relative.
  now apply append_inj_r in H.
Qed.

End PathFacts.

(** ** The cache: what [cache_metadata] and [remove_from_cache] leave *)

Module CacheFacts.
Import CacheManager Lookup LookupFacts CacheSpec.

Lemma cache_metadata_run (p : string) (md : pyval) (f : archive) (w : world) :
  archives w !! p = Some f ->
  cache_metadata p md w = (Ok tt, after_store p md f w).
Proof.
  intros Hf. unfold cache_metadata, _calculate_file_stats, os_stat, time_time,
    _save_cache, _get_cache_file_path, _save_cache_index.
  unfold_monad. rewrite Hf. reflexivity.
Qed.

Lemma cache_metadata_missing (p : string) (md : pyval) (w : world) :
  archives w !! p = None ->
  cache_metadata p md w = (Raise FileNotFoundError, w).
Proof.
  intros Hf. unfold cache_metadata, _calculate_file_stats, os_stat. unfold_monad.
  rewrite Hf. reflexivity.
Qed.

Lemma after_store_entry_file (p : string) (md : pyval) (f : archive) (w : world) :
  entry_file (after_store p md f w) p
  = Some (Json.dump (entry_document f md (clock w))).
Proof.
  unfold entry_file, after_store. simpl.
  rewrite lookup_insert_ne by (apply not_eq_sym, PathFacts.entry_not_index).
  apply lookup_insert_eq.
Qed.

Lemma after_store_indexed (p : string) (md : pyval) (f : archive) (w : world) :
  cache_index (after_store p md f w) !! p = Some (cache_file_path (cache_dir w) p).
Proof. unfold after_store. simpl. apply lookup_insert_eq. Qed.

Lemma loaded_dump (v : pyval) : loaded (Some (Json.dump v)) = Json.normalize v.
Proof. unfold loaded. now rewrite JsonFacts.load_dump. Qed.

Lemma ne_same (n : Z) : Py.ne (PInt n) (PInt n) = false.
Proof. rewrite PyFacts.ne_int. now rewrite Z.eqb_refl. Qed.

(** A lookup right after a store serves the stored payload as
    [json.load] reads it, and changes nothing. *)
Lemma decision_after_store (p : string) (md : pyval) (f : archive) (w : world) :
  archives w !! p = Some f ->
  decision (after_store p md f w) p = (Ok (Json.normalize md), Keep).
Proof.
  intros Hf. unfold decision.
  rewrite after_store_entry_file, loaded_dump.
  unfold indexed. rewrite after_store_indexed.
  unfold observed. replace (archives (after_store p md f w)) with (archives w) by reflexivity.
  rewrite Hf. simpl. unfold decide. simpl.
  rewrite !ne_same. reflexivity.
Qed.

Lemma get_keep (p : string) (w : world) (r : result pyval) :
  decision w p = (r, Keep) -> get_cached_metadata p w = (r, w).
Proof. intros H. rewrite get_cached_metadata_decide, H. reflexivity. Qed.

Lemma get_after_store (p : string) (md : pyval) (f : archive) (w : world) :
  archives w !! p = Some f ->
  get_cached_metadata p (after_store p md f w)
  = (Ok (Json.normalize md), after_store p md f w).
Proof. intros Hf. apply get_keep. now apply decision_after_store. Qed.

Lemma remove_from_cache_run (p cache_file : string) (w : world) :
  cache_index w !! p = Some cache_file ->
  remove_from_cache p w = (Ok tt, after_remove p cache_file w).
Proof.
  intros H. unfold remove_from_cache, _save_cache_index. unfold_monad.
  rewrite H. reflexivity.
Qed.

Lemma remove_from_cache_absent (p : string) (w : world) :
  cache_index w !! p = None -> remove_from_cache p w = (Ok tt, w).
Proof.
  intros H. unfold remove_from_cache. unfold_monad. rewrite H. reflexivity.
Qed.

Lemma save_cache_run (p : string) (doc : pyval) (w : world) :
  _save_cache p doc w
  = (Ok tt, set_cache_files
              (fun fs => <[cache_file_path (cache_dir w) p := Json.dump doc]> fs) w).
Proof. reflexivity. Qed.

Lemma indexed_true (w : world) (p : string) :
  indexed w p = true <-> is_Some (cache_index w !! p).
Proof. unfold indexed. apply bool_decide_eq_true. Qed.

Lemma decision_not_indexed (w : world) (p : string) :
  cache_index w !! p = None -> decision w p = (Ok PNone, Keep).
Proof.
  intros H. unfold decision, indexed. rewrite H.
  rewrite bool_decide_eq_false_2 by (intros [? ?]; discriminate). reflexivity.
Qed.

(** Only a miss removes an entry. *)
Lemma decide_remove (i : bool) (c : pyval) (s : option (Z * Z)) (r : result pyval) :
  decide i c s = (r, Remove) -> r = Ok PNone /\ i = true.
Proof.
  unfold decide, on_error. intros H.
  repeat (case_match; try discriminate); simplify_eq;
    split; try reflexivity; now destruct i.
Qed.

(** Only the upgrade of a legacy entry rewrites it. *)
Lemma decide_rewrite (i : bool) (c : pyval) (s : option (Z * Z))
    (r : result pyval) (up : pyval) :
  decide i c s = (r, Rewrite up) ->
  exists fp d,
    i = true /\ s = Some fp /\ c = PDict d /\
    Py.dict_get "file_stats" d = None /\
    up = PDict (Py.dict_set "file_stats" (stats_value fp) d) /\
    r = Py.getitem up "metadata".
Proof.
  unfold decide, on_error. intros H.
  repeat (case_match; try discriminate); simplify_eq.
  destruct c as [| | | | | | |d]; try discriminate.
  match goal with Hs : Py.setitem _ _ _ = Ok _ |- _ => simpl in Hs; injection Hs as <- end.
  assert (Hfs : Py.dict_get "file_stats" d = None).
  { assert (Hb : bool_decide (is_Some (Py.dict_get "file_stats" d)) = false).
    { match goal with Hc : Py.contains "file_stats" _ = Ok false |- _ =>
        simpl in Hc; congruence end. }
    destruct (Py.dict_get "file_stats" d) eqn:E; [|reflexivity].
    rewrite bool_decide_eq_true_2 in Hb by eauto. discriminate. }
  eexists _, d. split; [now destruct i|]. repeat (split; [reflexivity|]).
  split; [exact Hfs|]. split; reflexivity.
Qed.

Lemma loaded_normal (file : option Json.content) :
  Json.normalize (loaded file) = loaded file.
Proof.
  destruct file as [[raw|v]|]; simpl; try reflexivity. apply JsonFacts.normalize_idem.
Qed.

(** A field of a loaded document is as [json.load] reads it. *)
Lemma loaded_field (file : option Json.content) (d : list (string * pyval))
    (k : string) (x : pyval) :
  loaded file = PDict d -> Py.dict_get k d = Some x -> Json.normalize x = x.
Proof.
  intros Hd Hk. pose proof (loaded_normal file) as Hn. rewrite Hd in Hn.
  simpl in Hn. injection Hn as Hn.
  pose proof (JsonFacts.dict_get_normalize k d) as Hg. rewrite Hn, Hk in Hg.
  simpl in Hg. congruence.
Qed.

(** With a stored fingerprint equal to the observed one, the entry is
    served and nothing is touched. *)
Lemma decide_fingerprint_hit (d : list (string * pyval)) (fp : Z * Z) :
  Py.dict_get "file_stats" d = Some (stats_value fp) ->
  decide true (PDict d) (Some fp) = (Py.getitem (PDict d) "metadata", Keep).
Proof.
  intros H. unfold decide. simpl.
  destruct d as [|kv d]; [discriminate|]. simpl negb. cbv iota.
  unfold on_error, Py.contains, Py.getitem. rewrite H.
  rewrite bool_decide_eq_true_2 by eauto. simpl.
  rewrite !ne_same. reflexivity.
Qed.

(** After a lookup, the cache is such that the same lookup is served
    again without any effect. *)
Lemma decision_after_get (p : string) (w w1 : world) (r : result pyval) :
  get_cached_metadata p w = (r, w1) -> decision w1 p = (r, Keep).
Proof.
  rewrite get_cached_metadata_decide. intros H.
  destruct (decision w p) as [r0 e] eqn:Hdec. cbn [fst snd] in H.
  destruct e as [| |up]; cbn [run_effect] in H.
  - injection H as <- <-. exact Hdec.
  - unfold decision in Hdec. apply decide_remove in Hdec as [-> Hi].
    apply indexed_true in Hi as [cf Hcf].
    rewrite (remove_from_cache_run p cf w Hcf) in H. injection H as <- <-.
    apply decision_not_indexed. unfold after_remove. simpl.
    apply lookup_delete_eq.
  - unfold decision in Hdec.
    apply decide_rewrite in Hdec as (fp & d & Hi & Hobs & Hload & Hnofs & -> & ->).
    rewrite save_cache_run in H. injection H as <- <-.
    unfold decision.
    assert (Hentry : entry_file
              (set_cache_files
                 (fun fs => <[cache_file_path (cache_dir w) p :=
                      Json.dump (PDict (Py.dict_set "file_stats" (stats_value fp) d))]> fs) w) p
            = Some (Json.dump (PDict (Py.dict_set "file_stats" (stats_value fp) d)))).
    { unfold entry_file. simpl. apply lookup_insert_eq. }
    rewrite Hentry, loaded_dump.
    replace (indexed (set_cache_files _ w) p) with (indexed w p) by reflexivity.
    replace (observed (set_cache_files _ w) p) with (observed w p) by reflexivity.
    rewrite Hi, Hobs.
    assert (Hnorm : Json.normalize (PDict (Py.dict_set "file_stats" (stats_value fp) d))
                    = PDict (Py.dict_set "file_stats" (stats_value fp) d)).
    { simpl. rewrite JsonFacts.dict_set_normalize. simpl.
      pose proof (loaded_normal (entry_file w p)) as Hn. rewrite Hload in Hn.
      simpl in Hn. injection Hn as ->. reflexivity. }
    rewrite Hnorm. apply decide_fingerprint_hit. apply PyFacts.dict_get_set_eq.
Qed.

(** A second lookup finds the cache as the first one left it, and
    answers the same. *)
Lemma get_stable (p : string) (w w1 : world) (r : result pyval) :
  get_cached_metadata p w = (r, w1) -> get_cached_metadata p w1 = (r, w1).
Proof. intros H. apply get_keep. exact (decision_after_get _ _ _ _ H). Qed.

Lemma get_outside_cache (p : string) (w w1 : world) (r : result pyval) :
  get_cached_metadata p w = (r, w1) -> same_outside_cache w w1.
Proof.
  rewrite get_cached_metadata_decide. intros H. injection H as _ <-.
  destruct (snd (decision w p)) as [| |up]; cbn [run_effect].
  - repeat split.
  - destruct (cache_index w !! p) as [cf|] eqn:Hcf.
    + rewrite (remove_from_cache_run _ _ _ Hcf). repeat split.
    + rewrite (remove_from_cache_absent _ _ Hcf). repeat split.
  - repeat split.
Qed.

(** A lookup reads the index, the entry file and the size and
    modification time of the archive, nothing else. *)
Lemma decision_ext (p : string) (w w' : world) :
  cache_index w' = cache_index w -> cache_files w' = cache_files w ->
  cache_dir w' = cache_dir w -> observed w' p = observed w p ->
  decision w' p = decision w p.
Proof.
  intros Hi Hf Hd Ho. unfold decision, indexed, entry_file.
  now rewrite Hi, Hf, Hd, Ho.
Qed.

Lemma truthy_dict (k : string) (d : list (string * pyval)) (x : pyval) :
  Py.dict_get k d = Some x -> Py.truthy (PDict d) = true.
Proof. destruct d; [discriminate|reflexivity]. Qed.

(** A legacy entry whose size matches is served and rewritten. *)
Lemma decide_legacy (d : list (string * pyval)) (fp : Z * Z) (ck : pyval) :
  Py.dict_get "file_stats" d = None ->
  Py.dict_get "checksum" d = Some ck ->
  Py.dict_get "size" d = Some (PInt (fst fp)) ->
  let upgraded := PDict (Py.dict_set "file_stats" (stats_value fp) d) in
  decide true (PDict d) (Some fp) = (Py.getitem upgraded "metadata", Rewrite upgraded).
Proof.
  intros Hnofs Hck Hsize upgraded. unfold decide.
  rewrite (truthy_dict _ _ _ Hck).
  change (negb true) with false. cbv iota.
  unfold on_error, Py.contains, Py.get, Py.setitem.
  rewrite Hnofs, Hck, Hsize.
  rewrite bool_decide_eq_false_2 by (intros [? ?]; discriminate).
  rewrite bool_decide_eq_true_2 by eauto.
  change (default (PInt 0) (Some (PInt fp.1))) with (PInt (fst fp)).
  rewrite ne_same. reflexivity.
Qed.

Lemma dict_get_without (k k' : string) (d : list (string * pyval)) :
  k <> k' -> Py.dict_get k' (dict_without k d) = Py.dict_get k' d.
Proof.
  intros Hne. induction d as [|[h x] d IH]; simpl; [reflexivity|].
  destruct (String.eqb_spec h k) as [->|Hhk]; simpl.
  - destruct (String.eqb_spec k k'); [contradiction|exact IH].
  - destruct (String.eqb h k'); [reflexivity|exact IH].
Qed.

Lemma dict_get_without_eq (k : string) (d : list (string * pyval)) :
  Py.dict_get k (dict_without k d) = None.
Proof.
  induction d as [|[h x] d IH]; simpl; [reflexivity|].
  destruct (String.eqb_spec h k) as [->|Hhk]; simpl; [exact IH|].
  destruct (String.eqb_spec h k); [contradiction|exact IH].
Qed.

Lemma loaded_of_load (c : Json.content) (v : pyval) :
  Json.load c = Ok v -> loaded (Some c) = v.
Proof. unfold loaded. now intros ->. Qed.

Lemma loaded_malformed (raw : string) : loaded (Some (Json.Malformed raw)) = PDict [].
Proof. reflexivity. Qed.

(** A document that holds no data is a miss that touches nothing. *)
Lemma decision_empty (w : world) (p : string) :
  loaded (entry_file w p) = PDict [] -> decision w p = (Ok PNone, Keep).
Proof.
  intros H. unfold decision, decide. rewrite H. simpl. now destruct (indexed w p).
Qed.

End CacheFacts.

(** ** The archive accessor *)

Module ZipFacts.
Import ZipManager ZipSpec.

Section WithUnicode.
Context `{U : Str.Unicode}.

Lemma ensure_open_already (p : string) (w : world) (zf : zipfile) :
  open_zips w !! p = Some zf -> _ensure_zip_open p w = (Ok tt, w).
Proof. intros H. unfold _ensure_zip_open. unfold_monad. now rewrite H. Qed.

Lemma handle_open (p : string) (w : world) (zf : zipfile) :
  open_zips w !! p = Some zf -> handle p w = (Ok zf, w).
Proof. intros H. unfold handle. unfold_monad. now rewrite H. Qed.

Lemma scan_open_already (p : string) (w : world) (zf : zipfile) :
  open_zips w !! p = Some zf -> scan_open_archive p w = (Ok (scanned zf), w).
Proof.
  intros H. unfold scan_open_archive. unfold bind at 1.
  rewrite (ensure_open_already _ _ _ H). unfold bind. now rewrite (handle_open _ _ _ H).
Qed.

Lemma ZipFile_open_run (p : string) (w : world) (f : archive) (entries : list zipinfo) :
  archives w !! p = Some f -> central_directory f = Some entries ->
  ZipFile_open p w = (Ok (ZipFile entries), count_zip_read w).
Proof.
  intros Hf Hcd. unfold ZipFile_open. unfold_monad.
  replace (archives (count_zip_read w)) with (archives w) by reflexivity.
  now rewrite Hf, Hcd.
Qed.

Lemma ensure_open_fresh (p : string) (w : world) (f : archive) (entries : list zipinfo) :
  open_zips w !! p = None -> archives w !! p = Some f ->
  central_directory f = Some entries ->
  _ensure_zip_open p w = (Ok tt, opened p (ZipFile entries) w).
Proof.
  intros Hz Hf Hcd. unfold _ensure_zip_open, archive_exists.
  unfold bind at 1. unfold gets at 1. rewrite Hz.
  unfold bind at 1. unfold bind at 1. unfold gets at 1. unfold ret at 1.
  rewrite Hf. rewrite bool_decide_eq_true_2 by eauto.
  change (negb true) with false. cbv iota.
  unfold bind at 1. unfold try_except. rewrite (ZipFile_open_run _ _ _ _ Hf Hcd).
  reflexivity.
Qed.

(** A successful live scan: the archive is open afterwards, the list
    is the scan of its names, and the cache and the archives are as
    before. *)
Lemma scan_open_inv (p : string) (w w' : world) (L : pyval) :
  scan_open_archive p w = (Ok L, w') ->
  exists zf,
    open_zips w' !! p = Some zf /\ L = scanned zf /\
    (forall zf0, open_zips w !! p = Some zf0 -> zf0 = zf /\ w' = w) /\
    cache_index w' = cache_index w /\ cache_files w' = cache_files w /\
    cache_dir w' = cache_dir w /\ archives w' = archives w.
Proof.
  intros H. destruct (open_zips w !! p) as [zf|] eqn:Hz.
  - rewrite (scan_open_already _ _ _ Hz) in H. injection H as <- <-.
    exists zf. split; [exact Hz|]. split; [reflexivity|].
    split; [intros zf0 ?; split; congruence|]. repeat split.
  - destruct (archives w !! p) as [f|] eqn:Hf.
    + destruct (central_directory f) as [entries|] eqn:Hcd.
      * unfold scan_open_archive in H. unfold bind at 1 in H.
        rewrite (ensure_open_fresh _ _ _ _ Hz Hf Hcd) in H.
        unfold bind in H. rewrite (handle_open _ _ (ZipFile entries)) in H
          by (simpl; apply lookup_insert_eq).
        injection H as <- <-. exists (ZipFile entries).
        split; [simpl; apply lookup_insert_eq|]. split; [reflexivity|].
        split; [intros zf0 ?; discriminate|]. repeat split.
      * exfalso. revert H. unfold scan_open_archive, _ensure_zip_open, archive_exists,
          ZipFile_open. unfold_monad.
        repeat (rewrite ?Hz, ?Hf, ?Hcd; simpl). discriminate.
    + exfalso. revert H. unfold scan_open_archive, _ensure_zip_open, archive_exists.
      unfold_monad. repeat (rewrite ?Hz, ?Hf; simpl). discriminate.
Qed.

Lemma list_audio_files_run (p : string) (w : world) (v : pyval) :
  CacheManager.get_cached_metadata p w = (Ok v, w) ->
  list_audio_files p w
  = match from_cache v with
    | Ok true => (Py.getitem v "audio_files", w)
    | Ok false => scan_open_archive p w
    | Raise e => (Raise e, w)
    end.
Proof.
  intros H. unfold list_audio_files, from_cache. unfold bind at 1. rewrite H.
  destruct (Py.truthy v); unfold_monad.
  - destruct (Py.contains "audio_files" v) as [[|]|e]; reflexivity.
  - reflexivity.
Qed.

(** While the cache misses and the archive is open, probing a
    duration changes nothing. *)
Lemma get_audio_duration_miss (p name : string) (w : world) (zf : zipfile) :
  CacheManager.get_cached_metadata p w = (Ok PNone, w) ->
  open_zips w !! p = Some zf ->
  exists r, get_audio_duration p name w = (r, w).
Proof.
  intros Hget Hz. unfold get_audio_duration. unfold bind at 1. rewrite Hget.
  cbn [Py.truthy]. unfold bind at 1. unfold ret at 1. unfold bind at 1. unfold ret at 1.
  unfold bind at 1. rewrite (ensure_open_already _ _ _ Hz).
  unfold bind at 1. rewrite (handle_open _ _ _ Hz).
  destruct (mem name (namelist zf)); cbn [negb]; [|eexists; reflexivity].
  unfold try_except, bind. rewrite (handle_open _ _ _ Hz).
  unfold lift, ret. destruct (getinfo zf name); eexists; reflexivity.
Qed.

Lemma load_file_metadata_miss (p : string) (w : world) (zf : zipfile)
    (fm : list (string * pyval)) (item : pyval) :
  CacheManager.get_cached_metadata p w = (Ok PNone, w) ->
  open_zips w !! p = Some zf ->
  exists fm', load_file_metadata p fm item w = (Ok fm', w).
Proof.
  intros Hget Hz. unfold load_file_metadata.
  destruct item; try (eexists; reflexivity).
  unfold try_except at 1. unfold bind at 1. rewrite (handle_open _ _ _ Hz).
  unfold bind at 1. unfold lift at 1.
  destruct (getinfo zf s) as [zi|e]; [|eexists; reflexivity].
  unfold try_except at 1. unfold bind at 1.
  destruct (get_audio_duration_miss p s w zf Hget Hz) as [r ->].
  destruct r as [[]|e]; eexists; reflexivity.
Qed.

Lemma load_all_metadata_miss (p : string) (w : world) (zf : zipfile)
    (items : list pyval) (fm : list (string * pyval)) :
  CacheManager.get_cached_metadata p w = (Ok PNone, w) ->
  open_zips w !! p = Some zf ->
  exists fm', load_all_metadata p fm items w = (Ok fm', w).
Proof.
  intros Hget Hz. revert fm. induction items as [|item items IH]; intros fm; simpl.
  - eexists; reflexivity.
  - unfold bind.
    destruct (load_file_metadata_miss p w zf fm item Hget Hz) as [fm1 ->].
    apply IH.
Qed.

(** [_validate_zip] accepts a readable archive exactly when some entry
    has an audio extension; system files count. *)
Lemma validate_zip_run (p : string) (w : world) (f : archive) (entries : list zipinfo) :
  archives w !! p = Some f -> central_directory f = Some entries ->
  _validate_zip p w
  = (Ok (match audio_entries entries with
         | [] => inl "No audio files found"
         | _ => inr (ZipFile entries)
         end), count_zip_read w).
Proof.
  intros Hf Hcd. unfold _validate_zip, try_except, bind.
  rewrite (ZipFile_open_run _ _ _ _ Hf Hcd). cbn [filelist].
  fold (audio_entries entries). destruct (audio_entries entries); reflexivity.
Qed.

Lemma validate_zip_unreadable (p : string) (w : world) (f : archive) :
  archives w !! p = Some f -> central_directory f = None ->
  _validate_zip p w = (Ok (inl "ZIP file is invalid"), count_zip_read w).
Proof.
  intros Hf Hcd. unfold _validate_zip, ZipFile_open. unfold_monad.
  replace (archives (count_zip_read w)) with (archives w) by reflexivity.
  now rewrite Hf, Hcd.
Qed.

Lemma archive_exists_run (p : string) (w : world) :
  archive_exists p w = (Ok (bool_decide (is_Some (archives w !! p))), w).
Proof. reflexivity. Qed.

(** The three ways [load_zip] runs once the archive exists and the
    lookup has answered. *)
Lemma load_zip_hit (p : string) (w w0 : world) (f : archive) (v : pyval) :
  archives w !! p = Some f ->
  CacheManager.get_cached_metadata p w = (Ok v, w0) -> v <> PNone ->
  load_zip p w = (Ok (TimingInfo true), w0).
Proof.
  intros Hf Hget Hv. unfold load_zip. unfold bind at 1. rewrite archive_exists_run.
  rewrite bool_decide_eq_true_2 by eauto. cbn [negb].
  unfold try_except. unfold bind at 1. rewrite Hget.
  destruct v; try reflexivity. contradiction.
Qed.

Lemma load_zip_already_open (p : string) (w w0 : world) (f : archive) (zf : zipfile) :
  archives w !! p = Some f ->
  CacheManager.get_cached_metadata p w = (Ok PNone, w0) ->
  open_zips w0 !! p = Some zf ->
  load_zip p w = (Ok (TimingInfo true), w0).
Proof.
  intros Hf Hget Hz. unfold load_zip. unfold bind at 1. rewrite archive_exists_run.
  rewrite bool_decide_eq_true_2 by eauto. cbn [negb].
  unfold try_except. unfold bind at 1. rewrite Hget.
  unfold bind at 1. unfold gets at 1. rewrite Hz.
  rewrite bool_decide_eq_true_2 by eauto. reflexivity.
Qed.

Lemma get_miss_opened (p : string) (w w0 : world) (zf : zipfile) :
  CacheManager.get_cached_metadata p w = (Ok PNone, w0) ->
  CacheManager.get_cached_metadata p (opened p zf w0) = (Ok PNone, opened p zf w0).
Proof.
  intros Hget. apply CacheFacts.get_keep.
  rewrite <- (CacheFacts.decision_after_get _ _ _ _ Hget).
  now apply CacheFacts.decision_ext.
Qed.

(** The scan branch of [load_zip]: the archive is read once, left
    open, and the payload of the scan is stored. *)
Lemma load_zip_scan (p : string) (w w0 : world) (f : archive) (entries : list zipinfo) :
  archives w !! p = Some f ->
  CacheManager.get_cached_metadata p w = (Ok PNone, w0) ->
  open_zips w0 !! p = None ->
  central_directory f = Some entries ->
  audio_entries entries <> [] ->
  exists fm,
    load_zip p w
    = (Ok (TimingInfo false),
       CacheSpec.after_store p (scan_payload entries fm) f (opened p (ZipFile entries) w0)).
Proof.
  intros Hf Hget Hz Hcd Haudio.
  pose proof (CacheFacts.get_outside_cache _ _ _ _ Hget) as (Harch & _).
  assert (Hf0 : archives w0 !! p = Some f) by now rewrite Harch.
  set (zf := ZipFile entries). set (w' := opened p zf w0).
  assert (Hz' : open_zips w' !! p = Some zf) by (simpl; apply lookup_insert_eq).
  assert (Hget' : CacheManager.get_cached_metadata p w' = (Ok PNone, w'))
    by exact (get_miss_opened _ _ _ zf Hget).
  destruct (load_all_metadata_miss p w' zf
              (List.map PStr (Scan.scan_audio_files (namelist zf))) [] Hget' Hz')
    as [fm Hloop].
  exists fm.
  unfold load_zip. unfold bind at 1. rewrite archive_exists_run.
  rewrite bool_decide_eq_true_2 by eauto. cbn [negb].
  unfold try_except. unfold bind at 1. rewrite Hget.
  unfold bind at 1. unfold gets at 1. rewrite Hz.
  rewrite bool_decide_eq_false_2 by (intros [? ?]; discriminate).
  unfold bind at 1. rewrite (validate_zip_run _ _ _ _ Hf0 Hcd).
  destruct (audio_entries entries) as [|e es] eqn:Ha; [contradiction|].
  unfold bind at 1. unfold modify at 1. fold zf. fold (opened p zf w0). fold w'.
  unfold bind at 1. rewrite (list_audio_files_run _ _ _ Hget'). cbn [from_cache Py.truthy].
  rewrite (scan_open_already _ _ _ Hz').
  unfold bind at 1. unfold lift at 1. cbn [Py.items scanned].
  unfold bind at 1. rewrite Hloop.
  unfold bind at 1. rewrite (handle_open _ _ _ Hz').
  unfold bind at 1.
  rewrite (CacheFacts.cache_metadata_run p _ f w')
    by (replace (archives w') with (archives w0) by reflexivity; exact Hf0).
  reflexivity.
Qed.

Lemma load_zip_rejected (p : string) (w w0 : world) (f : archive) :
  archives w !! p = Some f ->
  CacheManager.get_cached_metadata p w = (Ok PNone, w0) ->
  open_zips w0 !! p = None ->
  match central_directory f with
  | Some entries => audio_entries entries = []
  | None => True
  end ->
  exists msg, load_zip p w = (Raise (ValueError msg), count_zip_read w0).
Proof.
  intros Hf Hget Hz Hbad.
  pose proof (CacheFacts.get_outside_cache _ _ _ _ Hget) as (Harch & _).
  assert (Hf0 : archives w0 !! p = Some f) by now rewrite Harch.
  unfold load_zip. unfold bind at 1. rewrite archive_exists_run.
  rewrite bool_decide_eq_true_2 by eauto. cbn [negb].
  unfold try_except. unfold bind at 1. rewrite Hget.
  unfold bind at 1. unfold gets at 1. rewrite Hz.
  rewrite bool_decide_eq_false_2 by (intros [? ?]; discriminate).
  unfold bind at 1.
  destruct (central_directory f) as [entries|] eqn:Hcd.
  - rewrite (validate_zip_run _ _ _ _ Hf0 Hcd), Hbad. eexists; reflexivity.
  - rewrite (validate_zip_unreadable _ _ _ Hf0 Hcd). eexists; reflexivity.
Qed.

(** Every successful [load_zip] is one of the three. *)
Lemma load_zip_cases (p : string) (w w1 : world) (t : timing_info) :
  load_zip p w = (Ok t, w1) ->
  exists f, archives w !! p = Some f /\
    ((exists v, v <> PNone /\ CacheManager.get_cached_metadata p w = (Ok v, w1) /\
                t = TimingInfo true) \/
     (exists zf, CacheManager.get_cached_metadata p w = (Ok PNone, w1) /\
                 open_zips w1 !! p = Some zf /\ t = TimingInfo true) \/
     (exists w0 entries fm,
         CacheManager.get_cached_metadata p w = (Ok PNone, w0) /\
         open_zips w0 !! p = None /\
         central_directory f = Some entries /\
         t = TimingInfo false /\
         w1 = CacheSpec.after_store p (scan_payload entries fm) f
                (opened p (ZipFile entries) w0))).
Proof.
  intros H. destruct (archives w !! p) as [f|] eqn:Hf.
  2:{ exfalso. revert H. unfold load_zip. unfold bind at 1. rewrite archive_exists_run.
      rewrite bool_decide_eq_false_2 by (intros [? ?]; congruence). discriminate. }
  exists f. split; [reflexivity|].
  destruct (CacheManager.get_cached_metadata p w) as [[v|e] w0] eqn:Hget.
  2:{ exfalso. revert H. unfold load_zip. unfold bind at 1. rewrite archive_exists_run.
      rewrite bool_decide_eq_true_2 by eauto. cbn [negb].
      unfold try_except. unfold bind at 1. rewrite Hget.
      destruct e; discriminate. }
  assert (Hv : {v = PNone} + {v <> PNone}) by (destruct v; auto; right; discriminate).
  destruct Hv as [->|Hv].
  - destruct (open_zips w0 !! p) as [zf|] eqn:Hz.
    + rewrite (load_zip_already_open _ _ _ _ _ Hf Hget Hz) in H. injection H as <- <-.
      right. left. eauto.
    + destruct (central_directory f) as [entries|] eqn:Hcd.
      * destruct (audio_entries entries) as [|e es] eqn:Ha.
        -- destruct (load_zip_rejected p w w0 f Hf Hget Hz) as [msg Hr];
             [now rewrite Hcd|]. congruence.
        -- destruct (load_zip_scan p w w0 f entries Hf Hget Hz Hcd) as [fm Hs];
             [congruence|].
           rewrite Hs in H. injection H as <- <-.
           right. right. exists w0, entries, fm. auto.
      * destruct (load_zip_rejected p w w0 f Hf Hget Hz) as [msg Hr];
          [now rewrite Hcd|]. congruence.
  - rewrite (load_zip_hit _ _ _ _ _ Hf Hget Hv) in H. injection H as <- <-.
    left. eauto.
Qed.

Lemma load_zip_settled (p : string) (w w1 : world) (t : timing_info) :
  load_zip p w = (Ok t, w1) ->
  exists v, settled p w1 v /\
            (open_zips w !! p = None -> v <> PNone) /\
            (used_cache t = false -> from_cache v = Ok true).
Proof.
  intros H. apply load_zip_cases in H as (f & Hf & [H|[H|H]]).
  - destruct H as (v & Hv & Hget & ->).
    pose proof (CacheFacts.get_outside_cache _ _ _ _ Hget) as (Harch & _).
    exists v. split; [|split; [auto|discriminate]].
    split; [exact (CacheFacts.decision_after_get _ _ _ _ Hget)|].
    split; [rewrite Harch; eauto|]. intros ->. contradiction.
  - destruct H as (zf & Hget & Hz & ->).
    pose proof (CacheFacts.get_outside_cache _ _ _ _ Hget) as (Harch & _ & Hopen & _).
    exists PNone. split; [|split; [|discriminate]].
    + split; [exact (CacheFacts.decision_after_get _ _ _ _ Hget)|].
      split; [rewrite Harch; eauto|]. eauto.
    + rewrite <- Hopen, Hz. discriminate.
  - destruct H as (w0 & entries & fm & Hget & Hz & Hcd & -> & ->).
    pose proof (CacheFacts.get_outside_cache _ _ _ _ Hget) as (Harch & _).
    assert (Hf' : archives (opened p (ZipFile entries) w0) !! p = Some f).
    { replace (archives (opened p (ZipFile entries) w0)) with (archives w0) by reflexivity.
      now rewrite Harch. }
    exists (Json.normalize (scan_payload entries fm)). split; [|split].
    + split; [now apply CacheFacts.decision_after_store|].
      split; [|discriminate].
      replace (archives (CacheSpec.after_store _ _ _ _))
        with (archives (opened p (ZipFile entries) w0)) by reflexivity.
      eauto.
    + intros _. discriminate.
    + reflexivity.
Qed.

Lemma settled_get (p : string) (w : world) (v : pyval) :
  settled p w v -> CacheManager.get_cached_metadata p w = (Ok v, w).
Proof. intros (Hdec & _). now apply CacheFacts.get_keep. Qed.

Lemma list_settled (p : string) (w w' : world) (v L : pyval) :
  settled p w v -> list_audio_files p w = (Ok L, w') ->
  settled p w' v /\ served p w' v L.
Proof.
  intros Hs Hlist. pose proof (settled_get _ _ _ Hs) as Hget.
  rewrite (list_audio_files_run _ _ _ Hget) in Hlist. unfold served.
  destruct (from_cache v) as [[|]|e]; [| |discriminate].
  - injection Hlist as Hitem <-. split; [exact Hs|exact Hitem].
  - apply scan_open_inv in Hlist as (zf & Hz & -> & _ & Hi & Hf & Hd & Ha).
    destruct Hs as (Hdec & Hex & Hopen). split; [|eauto].
    split; [|split].
    + rewrite <- Hdec. apply CacheFacts.decision_ext; try assumption.
      unfold Lookup.observed. now rewrite Ha.
    + now rewrite Ha.
    + intros _. eauto.
Qed.

(** In a settled state [load_zip] answers from what is there: nothing
    is read, opened or written. *)
Lemma load_zip_again (p : string) (w : world) (v : pyval) :
  settled p w v -> load_zip p w = (Ok (TimingInfo true), w).
Proof.
  intros Hs. pose proof (settled_get _ _ _ Hs) as Hget.
  destruct Hs as (_ & [f Hf] & Hopen).
  assert (Hv : {v = PNone} + {v <> PNone}) by (destruct v; auto; right; discriminate).
  destruct Hv as [->|Hv].
  - destruct (Hopen eq_refl) as [zf Hz].
    exact (load_zip_already_open _ _ _ _ _ Hf Hget Hz).
  - exact (load_zip_hit _ _ _ _ _ Hf Hget Hv).
Qed.

Lemma list_again (p : string) (w : world) (v L : pyval) :
  settled p w v -> served p w v L -> list_audio_files p w = (Ok L, w).
Proof.
  intros Hs Hserved. pose proof (settled_get _ _ _ Hs) as Hget.
  rewrite (list_audio_files_run _ _ _ Hget). unfold served in Hserved.
  destruct (from_cache v) as [[|]|e]; [| |contradiction].
  - now rewrite Hserved.
  - destruct Hserved as (zf & Hz & ->). exact (scan_open_already _ _ _ Hz).
Qed.

(** Replacing archives by files of the same size and modification
    time, and letting time pass, keeps a settled state settled. *)
Lemma settled_env (p : string) (w : world) (v : pyval)
    (a' : gmap string archive) (now' : Z * positive) :
  settled p w v ->
  (forall f, archives w !! p = Some f ->
             exists f', a' !! p = Some f' /\ st_size f' = st_size f /\
                        CacheManager.mtime_seconds f' = CacheManager.mtime_seconds f) ->
  settled p (set_archives a' now' w) v.
Proof.
  intros (Hdec & [f Hf] & Hopen) Henv.
  destruct (Henv f Hf) as (f' & Hf' & Hsize & Hmtime).
  split; [|split].
  - rewrite <- Hdec. apply CacheFacts.decision_ext; try reflexivity.
    unfold Lookup.observed. simpl archives. rewrite Hf, Hf'. simpl.
    unfold Lookup.fingerprint. now rewrite Hsize, Hmtime.
  - simpl. rewrite Hf'. eauto.
  - exact Hopen.
Qed.

(** The live path: with no valid cache entry and the archive not open,
    [list_audio_files] reads the archive and returns the scan. *)
Lemma list_live (p : string) (w w0 : world) (f : archive) (entries : list zipinfo) :
  archives w !! p = Some f -> central_directory f = Some entries ->
  CacheManager.get_cached_metadata p w = (Ok PNone, w0) ->
  open_zips w !! p = None ->
  list_audio_files p w
  = (Ok (PList (List.map PStr (listing entries))), opened p (ZipFile entries) w0).
Proof.
  intros Hf Hcd Hget Hz.
  pose proof (CacheFacts.get_outside_cache _ _ _ _ Hget) as (Harch & _ & Hopen & _).
  unfold list_audio_files. unfold bind at 1. rewrite Hget. cbn [Py.truthy].
  unfold bind at 1. unfold ret at 1.
  unfold scan_open_archive. unfold bind at 1.
  rewrite (ensure_open_fresh p w0 f entries) by congruence.
  unfold bind. rewrite (handle_open _ _ (ZipFile entries))
    by (simpl; apply lookup_insert_eq).
  reflexivity.
Qed.

(** The cache path: after [load_zip] did the scan, the lookup serves
    the stored payload and [list_audio_files] returns its list, the
    same scan. *)
Lemma list_after_load (p : string) (w w0 : world) (f : archive) (entries : list zipinfo) :
  archives w !! p = Some f -> central_directory f = Some entries ->
  CacheManager.get_cached_metadata p w = (Ok PNone, w0) ->
  open_zips w !! p = None ->
  audio_entries entries <> [] ->
  exists w1 payload,
    load_zip p w = (Ok (TimingInfo false), w1) /\
    CacheManager.get_cached_metadata p w1 = (Ok payload, w1) /\
    from_cache payload = Ok true /\
    Py.getitem payload "audio_files" = Ok (PList (List.map PStr (listing entries))) /\
    list_audio_files p w1 = (Ok (PList (List.map PStr (listing entries))), w1).
Proof.
  intros Hf Hcd Hget Hz Haudio.
  pose proof (CacheFacts.get_outside_cache _ _ _ _ Hget) as (Harch & _ & Hopen & _).
  destruct (load_zip_scan p w w0 f entries Hf Hget) as [fm Hload]; try congruence.
  set (w1 := CacheSpec.after_store p (scan_payload entries fm) f
               (opened p (ZipFile entries) w0)) in *.
  assert (Hget1 : CacheManager.get_cached_metadata p w1
                  = (Ok (Json.normalize (scan_payload entries fm)), w1)).
  { apply CacheFacts.get_after_store.
    replace (archives (opened p (ZipFile entries) w0)) with (archives w0) by reflexivity.
    congruence. }
  assert (Hitem : Py.getitem (Json.normalize (scan_payload entries fm)) "audio_files"
                  = Ok (PList (List.map PStr (listing entries)))).
  { unfold scan_payload, scanned, listing, namelist. simpl.
    rewrite List.map_map. reflexivity. }
  exists w1, (Json.normalize (scan_payload entries fm)).
  split; [exact Hload|]. split; [exact Hget1|]. split; [reflexivity|].
  split; [exact Hitem|].
  rewrite (list_audio_files_run _ _ _ Hget1).
  change (from_cache (Json.normalize (scan_payload entries fm))) with (@Ok bool true).
  cbv iota. now rewrite Hitem.
Qed.

Lemma mem_In (name : string) (names : list string) :
  mem name names = true <-> In name names.
Proof.
  unfold mem. rewrite List.existsb_exists. split.
  - intros (x & Hx & Heq). apply String.eqb_eq in Heq. now subst.
  - intros H. exists name. split; [exact H|apply String.eqb_refl].
Qed.

(** Every listed name has an entry. *)
Lemma getinfo_mem (zf : zipfile) (name : string) :
  mem name (namelist zf) = true ->
  exists zi, getinfo zf name = Ok zi /\ filename zi = name.
Proof.
  intros H. apply mem_In in H. unfold namelist in H.
  apply List.in_map_iff in H as (zi & Hname & Hin).
  unfold getinfo.
  destruct (List.find (fun zi => String.eqb (filename zi) name) (List.rev (filelist zf)))
    as [zi'|] eqn:Hfind.
  - exists zi'. split; [reflexivity|].
    apply List.find_some in Hfind as [_ Heq]. now apply String.eqb_eq in Heq.
  - exfalso. pose proof (List.find_none _ _ Hfind zi) as Hnone.
    rewrite <- List.in_rev in Hnone. specialize (Hnone Hin). simpl in Hnone.
    rewrite Hname, String.eqb_refl in Hnone. discriminate.
Qed.

Lemma extract_file_run (p name out : string) (w : world) (zf : zipfile) (zi : zipinfo) :
  open_zips w !! p = Some zf ->
  mem name (namelist zf) = true ->
  getinfo zf name = Ok zi ->
  writable w (Path.join out (Path.basename name)) = true ->
  extract_file p name out w
  = (Ok (Path.join out (Path.basename name)),
     extracted (Path.join out (Path.basename name)) (entry_bytes zi) w).
Proof.
  intros Hz Hmem Hinfo Hw. unfold extract_file.
  unfold bind at 1. rewrite (ensure_open_already _ _ _ Hz).
  unfold bind at 1. rewrite (handle_open _ _ _ Hz). rewrite Hmem. cbn [negb].
  unfold try_except. unfold bind at 1. rewrite (handle_open _ _ _ Hz).
  unfold bind at 1. unfold lift at 1. rewrite Hinfo.
  unfold bind at 1. unfold write_file. unfold bind at 1. unfold gets at 1.
  rewrite Hw. unfold modify at 1.
  unfold bind at 1. unfold gets at 1. cbn [user_files set_user_files].
  rewrite lookup_insert_eq. rewrite bool_decide_eq_true_2 by eauto. cbn [negb].
  reflexivity.
Qed.

Lemma bind_ok {A B : Type} (m : M A) (k : A -> M B) (w : world) (a : A) (w' : world) :
  m w = (Ok a, w') -> bind m k w = k a w'.
Proof. intros H. unfold bind. now rewrite H. Qed.

(** An extraction that first has to open the archive goes on as one on
    the open archive. *)
Lemma extract_file_opening (p name out : string) (w w0 : world) (zf : zipfile) :
  _ensure_zip_open p w = (Ok tt, w0) -> open_zips w0 !! p = Some zf ->
  extract_file p name out w = extract_file p name out w0.
Proof.
  intros Hopen Hz. unfold extract_file.
  rewrite (bind_ok _ _ w tt w0 Hopen).
  rewrite (bind_ok _ _ w0 tt w0 (ensure_open_already _ _ _ Hz)).
  reflexivity.
Qed.

(** Whatever the state, a path that [extract_file] returns is the
    output directory joined with the base name of the entry. *)
Lemma extract_file_path (p name out : string) (w w' : world) (r : string) :
  extract_file p name out w = (Ok r, w') ->
  r = Path.join out (Path.basename name) /\ is_Some (user_files w' !! r).
Proof.
  unfold extract_file, write_file. unfold_monad. intros H.
  repeat (case_match; simplify_eq); try discriminate.
  all: split; [reflexivity|].
  all: match goal with Hb : negb (bool_decide _) = false |- _ =>
         apply negb_false_iff, bool_decide_eq_true in Hb; exact Hb end.
Qed.

End WithUnicode.

End ZipFacts.

(** ** The index file and [clear_cache] *)

Module IndexFacts.
Import CacheManager CacheIndex Lookup CacheSpec IndexSpec.

Lemma load_cache_index_run (w : world) :
  _load_cache_index w = (Ok (stored_index w), w).
Proof.
  unfold _load_cache_index, stored_index, loaded. unfold_monad.
  destruct (cache_files w !! cache_index_file (cache_dir w)) as [c|]; [|reflexivity].
  destruct (Json.load c); reflexivity.
Qed.

Lemma index_fields_value (l : list (string * string)) :
  index_fields (List.map (fun kv => (fst kv, Json.normalize (PStr (snd kv)))) l) = Some l.
Proof.
  induction l as [|[k f] l IH]; [reflexivity|].
  simpl. simpl in IH. rewrite IH. reflexivity.
Qed.

(** The index written by [_save_cache_index] is read back as it was. *)
Lemma as_index_value (idx : gmap string string) :
  as_index (Json.normalize (index_value idx)) = Some idx.
Proof.
  unfold index_value, as_index. simpl. rewrite List.map_map. simpl.
  rewrite (index_fields_value (map_to_list idx)). simpl.
  now rewrite list_to_map_to_list.
Qed.

Lemma stored_index_saved (w : world) (idx : gmap string string)
    (fs : gmap string Json.content) :
  cache_files w = <[cache_index_file (cache_dir w) := Json.dump (index_value idx)]> fs ->
  stored_index w = Json.normalize (index_value idx).
Proof.
  intros H. unfold stored_index. rewrite H, lookup_insert_eq.
  apply CacheFacts.loaded_dump.
Qed.


Lemma after_store_synced (p : string) (md : pyval) (f : archive) (w : world) :
  synced (after_store p md f w).
Proof.
  unfold synced.
  erewrite stored_index_saved by reflexivity.
  apply as_index_value.
Qed.


Lemma remove_files_run (files : list string) (w : world) :
  remove_files files w = (Ok tt, set_cache_files (without files) w).
Proof.
  revert w. induction files as [|f files IH]; intros w.
  - destruct w; reflexivity.
  - simpl. unfold_monad. fold (remove_files files). rewrite IH. reflexivity.
Qed.

Lemma clear_cache_run (w : world) : clear_cache w = (Ok tt, cleared w).
Proof.
  unfold clear_cache, _save_cache_index. unfold bind at 1. unfold gets at 1.
  unfold bind at 1. rewrite remove_files_run. reflexivity.
Qed.


Lemma without_not_In (files : list string) (fs : gmap string Json.content) (k : string) :
  ~ In k files -> without files fs !! k = fs !! k.
Proof.
  revert fs. induction files as [|f files IH]; intros fs Hin; [reflexivity|].
  unfold without. simpl. fold (without files (delete f fs)).
  rewrite IH by (intros H; apply Hin; now right).
  apply lookup_delete_ne. intros ->. apply Hin. now left.
Qed.

Lemma without_In (files : list string) (fs : gmap string Json.content) (k : string) :
  In k files -> without files fs !! k = None.
Proof.
  revert fs. induction files as [|f files IH]; intros fs Hin; [destruct Hin|].
  unfold without. simpl. fold (without files (delete f fs)).
  destruct (List.in_dec string_dec k files) as [Hk|Hk]; [now apply IH|].
  destruct Hin as [->|Hin]; [|contradiction].
  rewrite without_not_In by exact Hk. apply lookup_delete_eq.
Qed.

Lemma registered_file (idx : gmap string string) (p cache_file : string) :
  idx !! p = Some cache_file -> In cache_file (List.map snd (map_to_list idx)).
Proof.
  intros H. apply List.in_map_iff. exists (p, cache_file). split; [reflexivity|].
  apply list_elem_of_In. now apply elem_of_map_to_list.
Qed.

Lemma file_registered (idx : gmap string string) (cache_file : string) :
  In cache_file (List.map snd (map_to_list idx)) ->
  exists p, idx !! p = Some cache_file.
Proof.
  intros H. apply List.in_map_iff in H as [[p f] [Hf Hin]]. simpl in Hf. subst f.
  exists p. apply elem_of_map_to_list. now apply list_elem_of_In.
Qed.

End IndexFacts.

(** ** What every call keeps true of the cache *)

Module SessionFacts.
Import CacheManager CacheIndex ZipManager ZipAccess Lookup CacheSpec IndexSpec Session.

Section WithUnicode.
Context `{U : Str.Unicode}.

Section Combinators.
Context (I : world -> Prop).

Lemma preserves_ret {A : Type} (a : A) : preserves I (ret a).
Proof. intros w H. exact H. Qed.

Lemma preserves_raise {A : Type} (e : exn) : preserves I (@raise A e).
Proof. intros w H. exact H. Qed.

Lemma preserves_lift {A : Type} (r : result A) : preserves I (lift r).
Proof. intros w H. exact H. Qed.

Lemma preserves_gets {A : Type} (f : world -> A) : preserves I (gets f).
Proof. intros w H. exact H. Qed.

Lemma preserves_bind {A B : Type} (m : M A) (k : A -> M B) :
  preserves I m -> (forall a, preserves I (k a)) -> preserves I (bind m k).
Proof.
  intros Hm Hk w H. unfold after, bind. specialize (Hm w H). unfold after in Hm.
  destruct (m w) as [[a|e] w']; simpl in Hm; [|exact Hm].
  exact (Hk a w' Hm).
Qed.

Lemma preserves_try_except {A : Type} (m : M A) (handler : exn -> M A) :
  preserves I m -> (forall e, preserves I (handler e)) ->
  preserves I (try_except m handler).
Proof.
  intros Hm Hh w H. unfold after, try_except. specialize (Hm w H). unfold after in Hm.
  destruct (m w) as [[a|e] w']; simpl in Hm; [exact Hm|].
  exact (Hh e w' Hm).
Qed.

End Combinators.

(** An invariant of the cache: a property of the cache directory and
    the index that the four writers of the cache keep. *)
Section Invariant.
Context (I : world -> Prop).
Hypothesis I_cache : forall w w',
  cache_dir w' = cache_dir w -> cache_files w' = cache_files w ->
  cache_index w' = cache_index w -> I w -> I w'.
Hypothesis I_save : forall p doc, preserves I (_save_cache p doc).
Hypothesis I_remove : forall p, preserves I (remove_from_cache p).
Hypothesis I_store : forall p md, preserves I (cache_metadata p md).
Hypothesis I_clear : preserves I clear_cache.

Lemma preserves_modify (f : world -> world) :
  (forall w, cache_dir (f w) = cache_dir w) ->
  (forall w, cache_files (f w) = cache_files w) ->
  (forall w, cache_index (f w) = cache_index w) ->
  preserves I (modify f).
Proof. intros H1 H2 H3 w H. exact (I_cache w (f w) (H1 w) (H2 w) (H3 w) H). Qed.

Ltac preserve_step :=
  match goal with
  | |- preserves _ (bind _ _) => apply preserves_bind; [|intros ?]
  | |- preserves _ (ret _) => apply preserves_ret
  | |- preserves _ (raise _) => apply preserves_raise
  | |- preserves _ (lift _) => apply preserves_lift
  | |- preserves _ (gets _) => apply preserves_gets
  | |- preserves _ (try_except _ _) => apply preserves_try_except; [|intros ?]
  | |- preserves _ (modify _) => apply preserves_modify; reflexivity
  | |- preserves _ (_save_cache _ _) => apply I_save
  | |- preserves _ (remove_from_cache _) => apply I_remove
  | |- preserves _ (cache_metadata _ _) => apply I_store
  | |- preserves _ clear_cache => apply I_clear
  | |- preserves _ (if ?b then _ else _) => destruct b
  | |- preserves _ (match ?x with _ => _ end) => destruct x
  | |- preserves _ (let _ := _ in _) => cbv zeta
  end.

Ltac preserve := repeat first [ solve [auto] | preserve_step ].

Lemma preserves_get (p : string) : preserves I (get_cached_metadata p).
Proof.
  intros w H. unfold after. rewrite LookupFacts.get_cached_metadata_decide. simpl.
  destruct (snd (decision w p)); simpl.
  - exact H.
  - exact (I_remove p w H).
  - exact (I_save p cache_data w H).
Qed.

Lemma preserves_ZipFile_open (p : string) : preserves I (ZipFile_open p).
Proof. unfold ZipFile_open. preserve. Qed.

Lemma preserves_ensure (p : string) : preserves I (_ensure_zip_open p).
Proof.
  unfold _ensure_zip_open, archive_exists.
  pose proof (preserves_ZipFile_open p). preserve.
Qed.

Lemma preserves_handle (p : string) : preserves I (handle p).
Proof. unfold handle. preserve. Qed.

Lemma preserves_validate (p : string) : preserves I (_validate_zip p).
Proof.
  unfold _validate_zip. pose proof (preserves_ZipFile_open p). preserve.
Qed.

Lemma preserves_list (p : string) : preserves I (list_audio_files p).
Proof.
  unfold list_audio_files, scan_open_archive.
  pose proof (preserves_get p). pose proof (preserves_ensure p).
  pose proof (preserves_handle p). preserve.
Qed.

Lemma preserves_duration (p name : string) : preserves I (get_audio_duration p name).
Proof.
  unfold get_audio_duration.
  pose proof (preserves_get p). pose proof (preserves_ensure p).
  pose proof (preserves_handle p). preserve.
Qed.

Lemma preserves_load_file (p : string) (fm : list (string * pyval)) (item : pyval) :
  preserves I (load_file_metadata p fm item).
Proof.
  unfold load_file_metadata.
  pose proof (preserves_handle p).
  pose proof (fun n => preserves_duration p n). preserve.
Qed.

Lemma preserves_load_all (p : string) (items : list pyval) (fm : list (string * pyval)) :
  preserves I (load_all_metadata p fm items).
Proof.
  revert fm. induction items as [|item items IH]; intros fm; simpl.
  - apply preserves_ret.
  - apply preserves_bind; [apply preserves_load_file|]. intros fm'. apply IH.
Qed.

Lemma preserves_load_zip (p : string) : preserves I (load_zip p).
Proof.
  unfold load_zip, archive_exists.
  pose proof (preserves_get p). pose proof (preserves_validate p).
  pose proof (preserves_list p). pose proof (preserves_handle p).
  pose proof (fun items fm => preserves_load_all p items fm). preserve.
Qed.

Lemma preserves_extract (p name out : string) : preserves I (extract_file p name out).
Proof.
  unfold extract_file, write_file.
  pose proof (preserves_ensure p). pose proof (preserves_handle p). preserve.
Qed.

Lemma preserves_extract_loop (p out : string) (names acc : list string) :
  preserves I (extract_loop p names out acc).
Proof.
  revert acc. induction names as [|name names IH]; intros acc; simpl.
  - apply preserves_ret.
  - apply preserves_bind.
    + apply preserves_try_except; [apply preserves_extract|].
      intros e. apply preserves_raise.
    + intros path. apply IH.
Qed.

Lemma preserves_read (p name : string) : preserves I (read_file p name).
Proof.
  unfold read_file.
  pose proof (preserves_ensure p). pose proof (preserves_handle p). preserve.
Qed.

Lemma preserves_stream (p name : string) (size : Z) : preserves I (stream_file p name size).
Proof.
  unfold stream_file.
  pose proof (preserves_ensure p). pose proof (preserves_handle p). preserve.
Qed.

Lemma preserves_remove_extracted (can_remove : string -> bool) (files : list string) :
  preserves I (remove_extracted can_remove files).
Proof.
  induction files as [|f files IH]; simpl.
  - apply preserves_ret.
  - preserve.
Qed.

Lemma preserves_cleanup (can_remove : string -> bool) : preserves I (cleanup can_remove).
Proof.
  unfold cleanup.
  pose proof (fun files => preserves_remove_extracted can_remove files). preserve.
Qed.

Lemma preserves_close (p : string) : preserves I (close_zip p).
Proof. unfold close_zip. preserve. Qed.

Lemma preserves_file_duration (p name : string) : preserves I (get_file_duration p name).
Proof.
  unfold get_file_duration.
  pose proof (preserves_get p). pose proof (preserves_duration p name).
  pose proof (preserves_list p). pose proof (preserves_handle p). preserve.
Qed.

Lemma preserves_run (c : call) (w : world) : I w -> I (run c w).
Proof.
  destruct c; simpl.
  - apply preserves_load_zip.
  - apply preserves_list.
  - apply preserves_duration.
  - apply preserves_file_duration.
  - apply preserves_read.
  - apply preserves_stream.
  - apply preserves_extract.
  - apply preserves_extract_loop.
  - apply preserves_close.
  - apply preserves_cleanup.
  - apply preserves_get.
  - apply I_store.
  - apply I_remove.
  - apply I_clear.
  - apply I_cache; reflexivity.
Qed.

Lemma preserves_session (calls : list call) (w : world) : I w -> I (session calls w).
Proof.
  revert w. induction calls as [|c calls IH]; intros w H; [exact H|].
  simpl. apply IH. now apply preserves_run.
Qed.

End Invariant.

End WithUnicode.

End SessionFacts.

(** ** The two invariants of the index *)

Module InvariantFacts.
Import CacheManager CacheIndex Lookup CacheSpec IndexSpec Session.

Section WithUnicode.
Context `{U : Str.Unicode}.







Lemma consistent_cache (w w' : world) :
  cache_dir w' = cache_dir w -> cache_files w' = cache_files w ->
  cache_index w' = cache_index w -> consistent w -> consistent w'.
Proof.
  unfold consistent. intros -> _ ->. trivial.
Qed.

Lemma consistent_save (p : string) (doc : pyval) : preserves consistent (_save_cache p doc).
Proof. intros w H. exact H. Qed.

Lemma consistent_remove (p : string) : preserves consistent (remove_from_cache p).
Proof.
  intros w H. unfold after.
  destruct (cache_index w !! p) as [cache_file|] eqn:Hp.
  - rewrite (CacheFacts.remove_from_cache_run p cache_file w Hp).
    intros q cf. unfold after_remove. simpl.
    intros Hq. apply lookup_delete_Some in Hq as [_ Hq]. now apply H.
  - rewrite (CacheFacts.remove_from_cache_absent p w Hp). exact H.
Qed.

Lemma consistent_store (p : string) (md : pyval) : preserves consistent (cache_metadata p md).
Proof.
  intros w H. unfold after.
  destruct (archives w !! p) as [f|] eqn:Hp.
  - rewrite (CacheFacts.cache_metadata_run p md f w Hp).
    intros q cf. unfold after_store. simpl.
    intros Hq. apply lookup_insert_Some in Hq as [[<- <-]|[_ Hq]]; [reflexivity|].
    now apply H.
  - rewrite (CacheFacts.cache_metadata_missing p md w Hp). exact H.
Qed.

Lemma consistent_clear : preserves consistent clear_cache.
Proof.
  intros w H. unfold after. rewrite IndexFacts.clear_cache_run.
  intros q cf. unfold cleared. simpl. intros Hq. now rewrite lookup_empty in Hq.
Qed.

Lemma consistent_session (calls : list call) (w : world) :
  consistent w -> consistent (session calls w).
Proof.
  apply SessionFacts.preserves_session.
  - exact consistent_cache.
  - exact consistent_save.
  - exact consistent_remove.
  - exact consistent_store.
  - exact consistent_clear.
Qed.



End WithUnicode.

End InvariantFacts.

(** ** Reading and streaming an entry *)

Module AccessFacts.
Import ZipManager ZipAccess ZipSpec.

(** The four ways [_ensure_zip_open] ends. *)
Lemma ensure_open_cases (p : string) (w : world) :
  _ensure_zip_open p w
  = match open_zips w !! p with
    | Some _ => (Ok tt, w)
    | None =>
        match archives w !! p with
        | None => (Raise FileNotFoundError, w)
        | Some f =>
            match central_directory f with
            | None => (Raise (ValueError "Invalid ZIP file"), count_zip_read w)
            | Some entries => (Ok tt, opened p (ZipFile entries) w)
            end
        end
    end.
Proof.
  destruct (open_zips w !! p) as [zf|] eqn:Hz.
  - apply (ZipFacts.ensure_open_already _ _ _ Hz).
  - destruct (archives w !! p) as [f|] eqn:Hf.
    + destruct (central_directory f) as [entries|] eqn:Hcd.
      * apply (ZipFacts.ensure_open_fresh _ _ _ _ Hz Hf Hcd).
      * unfold _ensure_zip_open, archive_exists, ZipFile_open. unfold_monad.
        repeat (rewrite ?Hz, ?Hf, ?Hcd; simpl). reflexivity.
    + unfold _ensure_zip_open, archive_exists. unfold_monad.
      repeat (rewrite ?Hz, ?Hf; simpl). reflexivity.
Qed.

(** After a successful [_ensure_zip_open] the archive is open, and
    only [open_zips] and the count of reads can differ. *)
Lemma ensure_open_ok (p : string) (w w0 : world) :
  _ensure_zip_open p w = (Ok tt, w0) ->
  exists zf, open_zips w0 !! p = Some zf /\
    (forall zf0, open_zips w !! p = Some zf0 -> w0 = w) /\
    archives w0 = archives w /\ cache_dir w0 = cache_dir w /\
    cache_files w0 = cache_files w /\ cache_index w0 = cache_index w /\
    extracted_files w0 = extracted_files w /\ user_files w0 = user_files w /\
    writable w0 = writable w /\ clock w0 = clock w.
Proof.
  rewrite ensure_open_cases. intros H.
  destruct (open_zips w !! p) as [zf|] eqn:Hz.
  - injection H as <-. exists zf. repeat split; auto.
  - destruct (archives w !! p) as [f|]; [|discriminate].
    destruct (central_directory f) as [entries|]; [|discriminate].
    injection H as <-. exists (ZipFile entries).
    split; [simpl; apply lookup_insert_eq|]. split; [intros ? ?; discriminate|].
    repeat split.
Qed.

(** A failed [_ensure_zip_open] registers no handle. *)
Lemma ensure_open_raise (p : string) (w w0 : world) (e : exn) :
  _ensure_zip_open p w = (Raise e, w0) ->
  open_zips w !! p = None /\ open_zips w0 = open_zips w /\
  extracted_files w0 = extracted_files w /\ user_files w0 = user_files w /\
  (e = FileNotFoundError /\ archives w !! p = None \/
   e = ValueError "Invalid ZIP file" /\
   exists f, archives w !! p = Some f /\ central_directory f = None).
Proof.
  rewrite ensure_open_cases. intros H.
  destruct (open_zips w !! p) as [zf|] eqn:Hz; [discriminate|].
  destruct (archives w !! p) as [f|] eqn:Hf.
  - destruct (central_directory f) as [entries|] eqn:Hcd; [discriminate|].
    injection H as <- <-. repeat split. right. split; [reflexivity|]. eauto.
  - injection H as <- <-. repeat split. now left.
Qed.

(** [read_file] once the archive is open. *)
Lemma read_file_open (p name : string) (w : world) (zf : zipfile) :
  open_zips w !! p = Some zf ->
  read_file p name w
  = if mem name (namelist zf)
    then match getinfo zf name with
         | Ok zi => (Ok (entry_bytes zi), w)
         | Raise _ => (Raise OSError, w)
         end
    else (Raise KeyError, w).
Proof.
  intros Hz. unfold read_file.
  rewrite (ZipFacts.bind_ok _ _ w tt w (ZipFacts.ensure_open_already _ _ _ Hz)).
  rewrite (ZipFacts.bind_ok _ _ w zf w (ZipFacts.handle_open _ _ _ Hz)).
  destruct (mem name (namelist zf)); [|reflexivity]. cbn [negb].
  unfold try_except.
  rewrite (ZipFacts.bind_ok _ _ w zf w (ZipFacts.handle_open _ _ _ Hz)).
  unfold_monad. destruct (getinfo zf name); reflexivity.
Qed.

Lemma read_file_opening (p name : string) (w w0 : world) (zf : zipfile) :
  _ensure_zip_open p w = (Ok tt, w0) -> open_zips w0 !! p = Some zf ->
  read_file p name w = read_file p name w0.
Proof.
  intros Hopen Hz. unfold read_file.
  rewrite (ZipFacts.bind_ok _ _ w tt w0 Hopen).
  rewrite (ZipFacts.bind_ok _ _ w0 tt w0 (ZipFacts.ensure_open_already _ _ _ Hz)).
  reflexivity.
Qed.

Lemma read_file_failed_open (p name : string) (w w0 : world) (e : exn) :
  _ensure_zip_open p w = (Raise e, w0) -> read_file p name w = (Raise e, w0).
Proof. intros H. unfold read_file. unfold bind at 1. now rewrite H. Qed.

(** A successful [read_file]: the archive is open afterwards and the
    bytes are those of the entry [getinfo] finds. *)
Lemma read_file_inv (p name : string) (w w0 : world) (data : string) :
  read_file p name w = (Ok data, w0) ->
  _ensure_zip_open p w = (Ok tt, w0) /\
  exists zf zi, open_zips w0 !! p = Some zf /\ mem name (namelist zf) = true /\
                getinfo zf name = Ok zi /\ data = entry_bytes zi.
Proof.
  intros H.
  destruct (_ensure_zip_open p w) as [[[]|e] w1] eqn:Hopen.
  2:{ rewrite (read_file_failed_open _ _ _ _ _ Hopen) in H. discriminate. }
  destruct (ensure_open_ok _ _ _ Hopen) as (zf & Hz & _).
  rewrite (read_file_opening _ _ _ _ _ Hopen Hz), (read_file_open _ _ _ _ Hz) in H.
  destruct (mem name (namelist zf)) eqn:Hmem; [|discriminate].
  destruct (getinfo zf name) as [zi|] eqn:Hinfo; [|discriminate].
  injection H as <- <-. split; [reflexivity|]. exists zf, zi. auto.
Qed.

(** [stream_file] once the archive is open. *)
Lemma stream_file_open (p name : string) (size : Z) (w : world) (zf : zipfile) :
  open_zips w !! p = Some zf ->
  stream_file p name size w
  = if mem name (namelist zf)
    then match getinfo zf name with
         | Ok zi => (Ok (stream_loop (S (String.length (entry_bytes zi))) size
                           (entry_bytes zi)), w)
         | Raise e => (Raise e, w)
         end
    else (Raise KeyError, w).
Proof.
  intros Hz. unfold stream_file.
  rewrite (ZipFacts.bind_ok _ _ w tt w (ZipFacts.ensure_open_already _ _ _ Hz)).
  rewrite (ZipFacts.bind_ok _ _ w zf w (ZipFacts.handle_open _ _ _ Hz)).
  destruct (mem name (namelist zf)); [|reflexivity]. cbn [negb].
  rewrite (ZipFacts.bind_ok _ _ w zf w (ZipFacts.handle_open _ _ _ Hz)).
  unfold_monad. destruct (getinfo zf name); reflexivity.
Qed.

Lemma stream_file_opening (p name : string) (size : Z) (w w0 : world) (zf : zipfile) :
  _ensure_zip_open p w = (Ok tt, w0) -> open_zips w0 !! p = Some zf ->
  stream_file p name size w = stream_file p name size w0.
Proof.
  intros Hopen Hz. unfold stream_file.
  rewrite (ZipFacts.bind_ok _ _ w tt w0 Hopen).
  rewrite (ZipFacts.bind_ok _ _ w0 tt w0 (ZipFacts.ensure_open_already _ _ _ Hz)).
  reflexivity.
Qed.

(** When [read_file] returns the bytes of an entry, [stream_file]
    yields the chunks of these bytes. *)
Lemma stream_file_read (p name : string) (size : Z) (w w0 : world) (data : string) :
  read_file p name w = (Ok data, w0) ->
  stream_file p name size w
  = (Ok (stream_loop (S (String.length data)) size data), w0).
Proof.
  intros H. apply read_file_inv in H as (Hopen & zf & zi & Hz & Hmem & Hinfo & ->).
  rewrite (stream_file_opening _ _ _ _ _ _ Hopen Hz), (stream_file_open _ _ _ _ _ Hz).
  now rewrite Hmem, Hinfo.
Qed.

Lemma append_nil_r (s : string) : (s ++ "")%string = s.
Proof.
  induction s as [|c s IH]; [reflexivity|].
  rewrite PathFacts.append_cons. now rewrite IH.
Qed.

Lemma take_drop (n : nat) (data : string) : (take n data ++ drop n data)%string = data.
Proof.
  revert data. induction n as [|n IH]; intros [|c r]; try reflexivity.
  simpl. rewrite PathFacts.append_cons. now rewrite IH.
Qed.

Lemma length_take (n : nat) (data : string) :
  String.length (take n data) = Nat.min n (String.length data).
Proof.
  revert data. induction n as [|n IH]; intros [|c r]; try reflexivity.
  simpl. now rewrite IH.
Qed.

Lemma length_drop (n : nat) (data : string) :
  String.length (drop n data) = (String.length data - n)%nat.
Proof.
  revert data. induction n as [|n IH]; intros [|c r]; try reflexivity.
  simpl. now rewrite IH.
Qed.

Lemma take_empty (n : nat) (data : string) :
  take n data = EmptyString -> n = O \/ data = EmptyString.
Proof. destruct n, data; auto. discriminate. Qed.

(** The chunks put together are the bytes that were left to read. *)
Lemma stream_loop_concat (size : Z) (turns : nat) (rest : string) :
  size <> 0%Z -> (String.length rest < turns)%nat ->
  String.concat "" (stream_loop turns size rest) = rest.
Proof.
  intros Hsize. revert rest. induction turns as [|turns IH]; intros rest Hlen; [lia|].
  simpl. unfold file_read. destruct (size <? 0)%Z eqn:Hneg.
  - destruct rest as [|c r]; [reflexivity|].
    destruct turns as [|turns']; [simpl in Hlen; lia|].
    simpl. unfold file_read. rewrite Hneg. reflexivity.
  - apply Z.ltb_ge in Hneg.
    destruct (take (Z.to_nat size) rest) as [|c chunk] eqn:Htake.
    + apply take_empty in Htake as [H0| ->]; [lia|reflexivity].
    + assert (Hdrop : (String.length (drop (Z.to_nat size) rest) < turns)%nat).
      { rewrite length_drop. destruct (Z.to_nat size) eqn:Hn; [lia|].
        destruct rest; [discriminate|]. simpl in *. lia. }
      specialize (IH _ Hdrop).
      rewrite <- (take_drop (Z.to_nat size) rest) at 2. rewrite Htake.
      destruct (stream_loop turns size (drop (Z.to_nat size) rest)) as [|c2 l] eqn:Hl.
      * simpl in IH. rewrite <- IH. simpl. symmetry. apply append_nil_r.
      * simpl. simpl in IH. rewrite IH. rewrite PathFacts.append_nil_l. reflexivity.
Qed.

(** With no chunk size the loop stops at the first read. *)
Lemma stream_loop_zero (turns : nat) (rest : string) : stream_loop turns 0 rest = [].
Proof. destruct turns; [reflexivity|]. simpl. now destruct rest. Qed.

(** More turns than bytes make no difference: the loop has stopped. *)
Lemma stream_loop_turns (size : Z) (turns turns' : nat) (rest : string) :
  (String.length rest < turns)%nat -> (String.length rest < turns')%nat ->
  stream_loop turns size rest = stream_loop turns' size rest.
Proof.
  revert turns' rest. induction turns as [|turns IH]; intros turns' rest H H'; [lia|].
  destruct turns' as [|turns']; [lia|].
  simpl. unfold file_read. destruct (size <? 0)%Z eqn:Hneg.
  - destruct rest as [|c r]; [reflexivity|]. f_equal.
    destruct turns; [simpl in H; lia|]. destruct turns'; [simpl in H'; lia|].
    simpl. unfold file_read. rewrite Hneg. reflexivity.
  - destruct (take (Z.to_nat size) rest) as [|c chunk] eqn:Htake; [reflexivity|].
    f_equal. assert (Hn : Z.to_nat size <> O) by (intros Hn; now rewrite Hn in Htake).
    apply IH; rewrite length_drop; destruct rest; try discriminate; simpl in *; try lia.
    all: destruct (Z.to_nat size); [easy|discriminate].
Qed.

(** Every chunk holds at least one byte and at most [size]. *)
Lemma stream_loop_bounds (size : Z) (turns : nat) (rest : string) :
  (0 < size)%Z ->
  List.Forall (fun chunk => (1 <= String.length chunk <= Z.to_nat size)%nat)
    (stream_loop turns size rest).
Proof.
  intros Hsize. revert rest. induction turns as [|turns IH]; intros rest; [constructor|].
  simpl. unfold file_read. rewrite (proj2 (Z.ltb_ge size 0)) by lia.
  destruct (take (Z.to_nat size) rest) as [|c chunk] eqn:Htake; constructor.
  - rewrite <- Htake, length_take. split; [|lia].
    destruct (Z.to_nat size) eqn:Hn; [lia|]. destruct rest; [discriminate|]. simpl. lia.
  - apply IH.
Qed.

(** Every chunk but the last holds [size] bytes. *)
Lemma stream_loop_full (size : Z) (turns : nat) (rest : string) :
  (0 < size)%Z ->
  List.Forall (fun chunk => String.length chunk = Z.to_nat size)
    (List.removelast (stream_loop turns size rest)).
Proof.
  intros Hsize. revert rest. induction turns as [|turns IH]; intros rest; [constructor|].
  simpl. unfold file_read. rewrite (proj2 (Z.ltb_ge size 0)) by lia.
  destruct (take (Z.to_nat size) rest) as [|c chunk] eqn:Htake; [constructor|].
  specialize (IH (drop (Z.to_nat size) rest)).
  destruct (stream_loop turns size (drop (Z.to_nat size) rest)) as [|c2 l] eqn:Hl.
  - constructor.
  - change (List.removelast (String c chunk :: c2 :: l))
      with (String c chunk :: List.removelast (c2 :: l)).
    constructor; [|exact IH].
    rewrite <- Htake, length_take.
    destruct (Nat.le_gt_cases (Z.to_nat size) (String.length rest)) as [Hle|Hgt]; [lia|].
    exfalso. destruct turns; [discriminate|].
    simpl in Hl. unfold file_read in Hl. rewrite (proj2 (Z.ltb_ge size 0)) in Hl by lia.
    assert (Hd : drop (Z.to_nat size) rest = EmptyString).
    { pose proof (length_drop (Z.to_nat size) rest) as Hlen.
      destruct (drop (Z.to_nat size) rest); [reflexivity|]. simpl in Hlen. lia. }
    rewrite Hd in Hl. destruct (Z.to_nat size); discriminate.
Qed.

(** [extract_file] once the archive is open. *)
Lemma extract_file_open (p name out : string) (w : world) (zf : zipfile) :
  open_zips w !! p = Some zf ->
  extract_file p name out w
  = if mem name (namelist zf)
    then match getinfo zf name with
         | Ok zi =>
             if writable w (Path.join out (Path.basename name))
             then (Ok (Path.join out (Path.basename name)),
                   extracted (Path.join out (Path.basename name)) (entry_bytes zi) w)
             else (Raise OSError, w)
         | Raise _ => (Raise OSError, w)
         end
    else (Raise KeyError, w).
Proof.
  intros Hz.
  destruct (mem name (namelist zf)) eqn:Hmem.
  - destruct (getinfo zf name) as [zi|e] eqn:Hinfo.
    + destruct (writable w (Path.join out (Path.basename name))) eqn:Hw.
      * now apply ZipFacts.extract_file_run with zf.
      * unfold extract_file.
        rewrite (ZipFacts.bind_ok _ _ w tt w (ZipFacts.ensure_open_already _ _ _ Hz)).
        rewrite (ZipFacts.bind_ok _ _ w zf w (ZipFacts.handle_open _ _ _ Hz)).
        rewrite Hmem. cbn [negb]. unfold try_except.
        rewrite (ZipFacts.bind_ok _ _ w zf w (ZipFacts.handle_open _ _ _ Hz)).
        unfold bind at 1. unfold lift at 1. rewrite Hinfo.
        unfold bind at 1. unfold write_file. unfold bind at 1. unfold gets at 1.
        rewrite Hw. reflexivity.
    + apply ZipFacts.getinfo_mem in Hmem as (zi & Hzi & _). congruence.
  - unfold extract_file.
    rewrite (ZipFacts.bind_ok _ _ w tt w (ZipFacts.ensure_open_already _ _ _ Hz)).
    rewrite (ZipFacts.bind_ok _ _ w zf w (ZipFacts.handle_open _ _ _ Hz)).
    rewrite Hmem. reflexivity.
Qed.

Lemma extract_file_failed_open (p name out : string) (w w0 : world) (e : exn) :
  _ensure_zip_open p w = (Raise e, w0) -> extract_file p name out w = (Raise e, w0).
Proof. intros H. unfold extract_file. unfold bind at 1. now rewrite H. Qed.

(** A successful extraction: the archive is open afterwards, the file
    holds the bytes of the entry [getinfo] finds and is tracked. *)
Lemma extract_file_inv (p name out : string) (w w1 : world) (r : string) :
  extract_file p name out w = (Ok r, w1) ->
  exists w0 zf zi,
    _ensure_zip_open p w = (Ok tt, w0) /\ open_zips w0 !! p = Some zf /\
    mem name (namelist zf) = true /\ getinfo zf name = Ok zi /\
    r = Path.join out (Path.basename name) /\
    w1 = extracted r (entry_bytes zi) w0.
Proof.
  intros H.
  destruct (_ensure_zip_open p w) as [[[]|e] w0] eqn:Hopen.
  2:{ rewrite (extract_file_failed_open _ _ _ _ _ _ Hopen) in H. discriminate. }
  destruct (ensure_open_ok _ _ _ Hopen) as (zf & Hz & _).
  rewrite (ZipFacts.extract_file_opening _ _ _ _ _ _ Hopen Hz),
    (extract_file_open _ _ _ _ _ Hz) in H.
  destruct (mem name (namelist zf)) eqn:Hmem; [|discriminate].
  destruct (getinfo zf name) as [zi|] eqn:Hinfo; [|discriminate].
  destruct (writable w0 _); [|discriminate].
  injection H as <- <-. exists w0, zf, zi. repeat split; auto.
Qed.

(** A failed extraction writes nothing and tracks nothing. *)
Lemma extract_file_raise (p name out : string) (w w1 : world) (e : exn) :
  extract_file p name out w = (Raise e, w1) ->
  user_files w1 = user_files w /\ extracted_files w1 = extracted_files w.
Proof.
  intros H.
  destruct (_ensure_zip_open p w) as [[[]|e0] w0] eqn:Hopen.
  2:{ rewrite (extract_file_failed_open _ _ _ _ _ _ Hopen) in H. injection H as <- <-.
      apply ensure_open_raise in Hopen as (_ & _ & H1 & H2 & _). auto. }
  destruct (ensure_open_ok _ _ _ Hopen) as (zf & Hz & _ & _ & _ & _ & _ & He & Hu & _).
  rewrite (ZipFacts.extract_file_opening _ _ _ _ _ _ Hopen Hz),
    (extract_file_open _ _ _ _ _ Hz) in H.
  destruct (mem name (namelist zf)); [|injection H as <- <-; auto].
  destruct (getinfo zf name); [|injection H as <- <-; auto].
  destruct (writable w0 _); [discriminate|]. injection H as <- <-; auto.
Qed.

End AccessFacts.

(** ** Batches of extractions, cleanup, closing *)

Module BatchFacts.
Import ZipManager ZipAccess ZipSpec BatchSpec.

Lemma extracted_user_files (path data : string) (w : world) (k : string) :
  is_Some (user_files w !! k) -> is_Some (user_files (extracted path data w) !! k).
Proof.
  intros H. unfold extracted. simpl.
  destruct (decide (path = k)) as [->|Hne].
  - rewrite lookup_insert_eq. eauto.
  - now rewrite lookup_insert_ne.
Qed.

(** A batch that returns: one path for each name, in the order of the
    names; all of them written and tracked. *)
Lemma extract_loop_ok (p out : string) (names acc paths : list string) (w w1 : world) :
  extract_loop p names out acc w = (Ok paths, w1) ->
  paths = acc ++ List.map (destination out) names /\
  extracted_files w1 = extracted_files w ++ List.map (destination out) names /\
  (forall k, is_Some (user_files w !! k) -> is_Some (user_files w1 !! k)) /\
  (forall path, In path (List.map (destination out) names) ->
                is_Some (user_files w1 !! path)).
Proof.
  revert acc w. induction names as [|name names IH]; intros acc w H.
  - injection H as <- <-. rewrite !List.app_nil_r. repeat split; auto. intros ? [].
  - simpl in H. unfold bind at 1 in H. unfold try_except in H.
    destruct (extract_file p name out w) as [[r|e] w0] eqn:Hx; [|discriminate].
    apply AccessFacts.extract_file_inv in Hx as (w' & zf & zi & Hopen & _ & _ & _ & -> & ->).
    apply AccessFacts.ensure_open_ok in Hopen
      as (_ & _ & _ & _ & _ & _ & _ & He & Hu & _).
    apply IH in H as (-> & Hext & Hmono & Hall).
    fold (destination out name) in *.
    split; [simpl; now rewrite <- List.app_assoc|].
    split; [rewrite Hext; simpl; rewrite He; now rewrite <- List.app_assoc|].
    split.
    + intros k Hk. apply Hmono, extracted_user_files. now rewrite Hu.
    + intros path [<-|Hin]; [|now apply Hall].
      apply Hmono. unfold extracted. simpl. rewrite lookup_insert_eq. eauto.
Qed.

(** A batch that raises stopped at one name: what was extracted before
    stays written and tracked, and nothing else was. *)
Lemma extract_loop_raise (p out : string) (names acc : list string) (w w1 : world)
    (e : exn) :
  extract_loop p names out acc w = (Raise e, w1) ->
  exists done name rest w0,
    names = done ++ name :: rest /\
    extract_file p name out w0 = (Raise e, w1) /\
    extracted_files w1 = extracted_files w ++ List.map (destination out) done /\
    (forall k, is_Some (user_files w !! k) -> is_Some (user_files w1 !! k)) /\
    (forall path, In path (List.map (destination out) done) ->
                  is_Some (user_files w1 !! path)).
Proof.
  revert acc w. induction names as [|name names IH]; intros acc w H; [discriminate|].
  simpl in H. unfold bind at 1 in H. unfold try_except in H.
  destruct (extract_file p name out w) as [[r|e0] w0] eqn:Hx.
  - pose proof Hx as Hinv.
    apply AccessFacts.extract_file_inv in Hinv
      as (w' & zf & zi & Hopen & _ & _ & _ & -> & ->).
    apply AccessFacts.ensure_open_ok in Hopen
      as (_ & _ & _ & _ & _ & _ & _ & He & Hu & _).
    apply IH in H as (done & name' & rest & w2 & -> & Hfail & Hext & Hmono & Hall).
    fold (destination out name) in *.
    exists (name :: done), name', rest, w2.
    split; [reflexivity|]. split; [exact Hfail|].
    split; [rewrite Hext; simpl; rewrite He; now rewrite <- List.app_assoc|].
    split.
    + intros k Hk. apply Hmono, extracted_user_files. now rewrite Hu.
    + intros path [<-|Hin]; [|now apply Hall].
      apply Hmono. unfold extracted. simpl. rewrite lookup_insert_eq. eauto.
  - unfold raise in H. injection H as <- <-.
    exists [], name, names, w. split; [reflexivity|]. split; [exact Hx|].
    apply AccessFacts.extract_file_raise in Hx as [Hu He].
    split; [rewrite He; simpl; now rewrite List.app_nil_r|].
    split; [intros k; now rewrite Hu|]. intros ? [].
Qed.

Lemma remove_extracted_run (can_remove : string -> bool) (files : list string) (w : world) :
  remove_extracted can_remove files w
  = (Ok tt, set_user_files (removed can_remove files) w).
Proof.
  revert w. induction files as [|f files IH]; intros w.
  - destruct w; reflexivity.
  - simpl. unfold bind at 1. unfold try_except. unfold bind at 1. unfold gets at 1.
    destruct (bool_decide (is_Some (user_files w !! f))) eqn:Hex.
    + destruct (can_remove f) eqn:Hc.
      * unfold modify. rewrite IH. unfold removed. simpl. rewrite Hc. reflexivity.
      * unfold raise, ret. rewrite IH. unfold removed. simpl. rewrite Hc. reflexivity.
    + unfold ret. rewrite IH. unfold removed. simpl.
      apply bool_decide_eq_false in Hex.
      assert (Hnone : user_files w !! f = None).
      { destruct (user_files w !! f); [exfalso; apply Hex; eauto|reflexivity]. }
      destruct (can_remove f); [|reflexivity].
      unfold set_user_files. cbv beta. now rewrite (delete_id (user_files w) f Hnone).
Qed.

Lemma cleanup_run (can_remove : string -> bool) (w : world) :
  cleanup can_remove w = (Ok tt, cleaned can_remove w).
Proof.
  unfold cleanup. unfold bind at 1. unfold gets at 1.
  unfold bind at 1. rewrite remove_extracted_run. reflexivity.
Qed.

Lemma removed_cons (can_remove : string -> bool) (f : string) (files : list string)
    (fs : gmap string string) :
  removed can_remove (f :: files) fs
  = removed can_remove files (if can_remove f then delete f fs else fs).
Proof. reflexivity. Qed.

Lemma removed_not_In (can_remove : string -> bool) (files : list string)
    (fs : gmap string string) (k : string) :
  ~ In k files -> removed can_remove files fs !! k = fs !! k.
Proof.
  revert fs. induction files as [|f files IH]; intros fs Hin; [reflexivity|].
  rewrite removed_cons, IH by (intros H; apply Hin; now right).
  destruct (can_remove f); [|reflexivity].
  apply lookup_delete_ne. intros ->. apply Hin. now left.
Qed.

Lemma removed_In (can_remove : string -> bool) (files : list string)
    (fs : gmap string string) (k : string) :
  In k files -> can_remove k = true -> removed can_remove files fs !! k = None.
Proof.
  revert fs. induction files as [|f files IH]; intros fs Hin Hc; [destruct Hin|].
  rewrite removed_cons.
  destruct (List.in_dec string_dec k files) as [Hk|Hk]; [now apply IH|].
  destruct Hin as [->|Hin]; [|contradiction].
  rewrite removed_not_In by exact Hk. rewrite Hc. apply lookup_delete_eq.
Qed.

(** What [cleanup] cannot remove stays as it is. *)
Lemma removed_kept (can_remove : string -> bool) (files : list string)
    (fs : gmap string string) (k : string) :
  can_remove k = false -> removed can_remove files fs !! k = fs !! k.
Proof.
  intros Hc. revert fs. induction files as [|f files IH]; intros fs; [reflexivity|].
  rewrite removed_cons, IH.
  destruct (can_remove f) eqn:Hf; [|reflexivity].
  apply lookup_delete_ne. intros ->. congruence.
Qed.

Lemma close_zip_run (p : string) (w : world) : close_zip p w = (Ok tt, closed p w).
Proof.
  unfold close_zip, closed. unfold_monad.
  destruct (bool_decide (is_Some (open_zips w !! p))) eqn:Hz; [reflexivity|].
  apply bool_decide_eq_false in Hz.
  assert (Hnone : open_zips w !! p = None).
  { destruct (open_zips w !! p); [exfalso; apply Hz; eauto|reflexivity]. }
  unfold set_open_zips. rewrite (delete_id (open_zips w) p Hnone). now destruct w.
Qed.

End BatchFacts.

(** ** Durations: from the cache, from the entry *)

Module DurationFacts.
Import ZipManager ZipAccess ZipSpec DurationSpec.

Section WithUnicode.
Context `{U : Str.Unicode}.

Lemma contains_some (k : string) (d : list (string * pyval)) (x : pyval) :
  Py.dict_get k d = Some x -> Py.contains k (PDict d) = Ok true.
Proof. intros H. simpl. rewrite H. now rewrite bool_decide_eq_true_2 by eauto. Qed.

Lemma contains_none (k : string) (d : list (string * pyval)) :
  Py.dict_get k d = None -> Py.contains k (PDict d) = Ok false.
Proof.
  intros H. simpl. rewrite H.
  now rewrite bool_decide_eq_false_2 by (intros [? ?]; discriminate).
Qed.

Lemma getitem_some (k : string) (d : list (string * pyval)) (x : pyval) :
  Py.dict_get k d = Some x -> Py.getitem (PDict d) k = Ok x.
Proof. intros H. simpl. now rewrite H. Qed.

Lemma dict_set_set (k : string) (x y : pyval) (d : list (string * pyval)) :
  Py.dict_set k x (Py.dict_set k y d) = Py.dict_set k x d.
Proof.
  induction d as [|[k' z] d IH]; simpl.
  - now rewrite String.eqb_refl.
  - destruct (String.eqb k' k) eqn:E; simpl; rewrite E; [reflexivity|now rewrite IH].
Qed.

Lemma getinfo_ok_mem (zf : zipfile) (name : string) (zi : zipinfo) :
  getinfo zf name = Ok zi -> mem name (namelist zf) = true.
Proof.
  unfold getinfo. intros H.
  destruct (List.find _ _) as [zi'|] eqn:Hfind; [|discriminate].
  apply List.find_some in Hfind as [Hin Heq]. apply String.eqb_eq in Heq.
  apply ZipFacts.mem_In. unfold namelist. apply List.in_map_iff.
  exists zi'. split; [exact Heq|]. now apply List.in_rev.
Qed.

(** The part [get_audio_duration] and [get_file_duration] share: what
    the payload says about the duration of a file. *)
Lemma known_duration (d fm record : list (string * pyval)) (name : string) (x : pyval)
    {A : Type} (k : option pyval -> M A) (w : world) :
  Py.dict_get "file_metadata" d = Some (PDict fm) ->
  Py.dict_get name fm = Some (PDict record) ->
  Py.dict_get "duration_ms" record = Some x ->
  bind (if Py.truthy (PDict d)
        then lift (Py.contains "file_metadata" (PDict d))
        else ret false)
    (fun has_records =>
       bind (if has_records then
               bind (lift (Py.getitem (PDict d) "file_metadata")) (fun records =>
               bind (lift (Py.get records name (PDict []))) (fun file_metadata =>
               bind (lift (Py.contains "duration_ms" file_metadata)) (fun known =>
               if known
               then bind (lift (Py.getitem file_metadata "duration_ms"))
                         (fun d0 => ret (Some d0))
               else ret None)))
             else ret None) k) w
  = k (Some x) w.
Proof.
  intros Hfm Hrec Hd.
  rewrite (CacheFacts.truthy_dict _ _ _ Hfm), (contains_some _ _ _ Hfm),
    (getitem_some _ _ _ Hfm).
  unfold_monad. simpl. rewrite Hrec. simpl. rewrite Hd.
  rewrite bool_decide_eq_true_2 by eauto. reflexivity.
Qed.

Lemma unknown_duration (d fm : list (string * pyval)) (name : string)
    {A : Type} (k : option pyval -> M A) (w : world) :
  Py.dict_get "file_metadata" d = Some (PDict fm) ->
  unknown fm name ->
  bind (if Py.truthy (PDict d)
        then lift (Py.contains "file_metadata" (PDict d))
        else ret false)
    (fun has_records =>
       bind (if has_records then
               bind (lift (Py.getitem (PDict d) "file_metadata")) (fun records =>
               bind (lift (Py.get records name (PDict []))) (fun file_metadata =>
               bind (lift (Py.contains "duration_ms" file_metadata)) (fun known =>
               if known
               then bind (lift (Py.getitem file_metadata "duration_ms"))
                         (fun d0 => ret (Some d0))
               else ret None)))
             else ret None) k) w
  = k None w.
Proof.
  intros Hfm Hun.
  rewrite (CacheFacts.truthy_dict _ _ _ Hfm), (contains_some _ _ _ Hfm),
    (getitem_some _ _ _ Hfm).
  unfold_monad. simpl.
  destruct (Py.dict_get name fm) as [x|] eqn:Hrec; simpl.
  - destruct (Hun x Hrec) as (record & -> & Hd). simpl. rewrite Hd.
    rewrite bool_decide_eq_false_2 by (intros [? ?]; discriminate). reflexivity.
  - reflexivity.
Qed.

(** A duration the payload holds is returned as it is; the archive is
    not touched. *)
Lemma get_file_duration_known (p name : string) (w w1 : world)
    (d fm record : list (string * pyval)) (x : pyval) :
  CacheManager.get_cached_metadata p w = (Ok (PDict d), w1) ->
  Py.dict_get "file_metadata" d = Some (PDict fm) ->
  Py.dict_get name fm = Some (PDict record) ->
  Py.dict_get "duration_ms" record = Some x ->
  get_file_duration p name w = (Ok x, w1).
Proof.
  intros Hget Hfm Hrec Hd. unfold get_file_duration.
  rewrite (ZipFacts.bind_ok _ _ w (PDict d) w1 Hget).
  now rewrite (known_duration d fm record name x _ w1 Hfm Hrec Hd).
Qed.

Lemma get_audio_duration_known (p name : string) (w w1 : world)
    (d fm record : list (string * pyval)) (x : pyval) :
  CacheManager.get_cached_metadata p w = (Ok (PDict d), w1) ->
  Py.dict_get "file_metadata" d = Some (PDict fm) ->
  Py.dict_get name fm = Some (PDict record) ->
  Py.dict_get "duration_ms" record = Some x ->
  get_audio_duration p name w = (Ok x, w1).
Proof.
  intros Hget Hfm Hrec Hd. unfold get_audio_duration.
  rewrite (ZipFacts.bind_ok _ _ w (PDict d) w1 Hget).
  now rewrite (known_duration d fm record name x _ w1 Hfm Hrec Hd).
Qed.

(** Without a duration in the payload, [get_audio_duration] opens the
    archive if it has to and probes the entry. *)
Lemma get_audio_duration_probe (p name : string) (w w1 w2 : world)
    (d fm : list (string * pyval)) (zf : zipfile) (zi : zipinfo) :
  CacheManager.get_cached_metadata p w = (Ok (PDict d), w1) ->
  Py.dict_get "file_metadata" d = Some (PDict fm) ->
  unknown fm name ->
  _ensure_zip_open p w1 = (Ok tt, w2) ->
  open_zips w2 !! p = Some zf ->
  getinfo zf name = Ok zi ->
  get_audio_duration p name w = (Ok (probe_duration zi), w2).
Proof.
  intros Hget Hfm Hun Hopen Hz Hinfo. unfold get_audio_duration.
  rewrite (ZipFacts.bind_ok _ _ w (PDict d) w1 Hget).
  rewrite (unknown_duration d fm name _ w1 Hfm Hun).
  rewrite (ZipFacts.bind_ok _ _ w1 tt w2 Hopen).
  rewrite (ZipFacts.bind_ok _ _ w2 zf w2 (ZipFacts.handle_open _ _ _ Hz)).
  rewrite (getinfo_ok_mem _ _ _ Hinfo). cbn [negb].
  unfold try_except.
  rewrite (ZipFacts.bind_ok _ _ w2 zf w2 (ZipFacts.handle_open _ _ _ Hz)).
  unfold_monad. now rewrite Hinfo.
Qed.


Lemma probe_duration_cases (zi : zipinfo) :
  probe_duration zi = PNone \/ exists n, probe_duration zi = PInt n.
Proof.
  unfold probe_duration.
  destruct (file_size zi <=? max_header_size)%Z, (full_duration zi), (header_duration zi),
    (max_header_size <? file_size zi)%Z; eauto.
Qed.

(** Without a duration in the payload, [get_file_duration] probes the
    entry and, when the probe finds a duration, stores the payload with
    the duration added to the record of the file. *)
Lemma get_file_duration_probe (p name : string) (w w1 w2 : world)
    (d fm : list (string * pyval)) (zf : zipfile) (zi : zipinfo) (f : archive) :
  CacheManager.get_cached_metadata p w = (Ok (PDict d), w1) ->
  Py.dict_get "file_metadata" d = Some (PDict fm) ->
  unknown fm name ->
  _ensure_zip_open p w1 = (Ok tt, w2) ->
  open_zips w2 !! p = Some zf ->
  getinfo zf name = Ok zi ->
  archives w2 !! p = Some f ->
  get_file_duration p name w
  = match probe_duration zi with
    | PNone => (Ok PNone, w2)
    | duration =>
        (Ok duration, CacheSpec.after_store p (merged d fm name zi duration) f w2)
    end.
Proof.
  intros Hget Hfm Hun Hopen Hz Hinfo Hf. unfold get_file_duration.
  rewrite (ZipFacts.bind_ok _ _ w (PDict d) w1 Hget).
  rewrite (unknown_duration d fm name _ w1 Hfm Hun).
  pose proof (CacheFacts.get_stable _ _ _ _ Hget) as Hget1.
  rewrite (ZipFacts.bind_ok _ _ w1 _ w2
             (get_audio_duration_probe _ _ _ _ _ _ _ _ _ Hget1 Hfm Hun Hopen Hz Hinfo)).
  destruct (probe_duration_cases zi) as [->|[n ->]]; [reflexivity|].
  unfold bind at 1. unfold ret at 1.
  unfold bind at 1. unfold lift at 1. rewrite (contains_some _ _ _ Hfm).
  unfold bind at 1. cbn [negb]. unfold ret at 1.
  unfold bind at 1. unfold lift at 1. rewrite (getitem_some _ _ _ Hfm).
  unfold merged, base_record.
  destruct (Py.dict_get name fm) as [x|] eqn:Hrec.
  - destruct (Hun x Hrec) as (record & -> & Hd).
    unfold bind at 1. unfold lift at 1. rewrite (contains_some _ _ _ Hrec).
    unfold bind at 1. cbn [negb]. unfold ret at 1.
    unfold bind at 1. unfold lift at 1. rewrite (getitem_some _ _ _ Hfm).
    unfold bind at 1. unfold lift at 1. rewrite (getitem_some _ _ _ Hrec).
    unfold bind at 1. unfold lift at 1. cbn [Py.setitem].
    unfold bind at 1. unfold lift at 1.
    unfold bind at 1. unfold lift at 1.
    unfold bind at 1. rewrite (CacheFacts.cache_metadata_run _ _ _ _ Hf). reflexivity.
  - unfold bind at 1. unfold lift at 1. rewrite (contains_none _ _ Hrec).
    unfold bind at 1. cbn [negb].
    rewrite (ZipFacts.bind_ok _ _ w2 zf w2 (ZipFacts.handle_open _ _ _ Hz)).
    unfold bind at 1. unfold lift at 1. rewrite Hinfo.
    unfold bind, lift, ret. cbn [Py.setitem Py.getitem].
    rewrite !PyFacts.dict_get_set_eq. cbn [Py.setitem Py.getitem].
    rewrite !PyFacts.dict_get_set_eq. cbn [Py.setitem Py.getitem].
    rewrite (CacheFacts.cache_metadata_run _ _ _ _ Hf).
    rewrite !dict_set_set. reflexivity.
Qed.

End WithUnicode.

End DurationFacts.

(** ** What a lookup returns *)

Module PayloadFacts.
Import CacheManager Lookup CacheSpec DurationSpec.

Lemma field_normal (d : list (string * pyval)) (k : string) :
  Json.normalize (PDict d) = PDict d ->
  Json.normalize <$> Py.dict_get k d = Py.dict_get k d.
Proof.
  intros Hn. simpl in Hn. injection Hn as Hn.
  rewrite <- (JsonFacts.dict_get_normalize k d). now rewrite Hn.
Qed.

Lemma getitem_normal (c : pyval) (k : string) (v : pyval) :
  Json.normalize c = c -> Py.getitem c k = Ok v -> Json.normalize v = v.
Proof.
  destruct c as [| | | | | | |d]; try discriminate. intros Hn Hv. simpl in Hv.
  pose proof (field_normal d k Hn) as Hk.
  destruct (Py.dict_get k d) as [x|]; [|discriminate].
  injection Hv as <-. simpl in Hk. congruence.
Qed.

Lemma setitem_normal (c : pyval) (k : string) (x up : pyval) :
  Json.normalize c = c -> Json.normalize x = x -> Py.setitem c k x = Ok up ->
  Json.normalize up = up.
Proof.
  destruct c as [| | | | | | |d]; try discriminate. intros Hn Hx Hup.
  injection Hup as <-. simpl in *. injection Hn as Hn. f_equal.
  now rewrite JsonFacts.dict_set_normalize, Hn, Hx.
Qed.

Lemma decide_normal (i : bool) (c : pyval) (s : option (Z * Z)) (v : pyval) (e : effect) :
  Json.normalize c = c -> decide i c s = (Ok v, e) -> Json.normalize v = v.
Proof.
  intros Hn. unfold decide, on_error. intros H.
  repeat (case_match; try discriminate); simplify_eq; try reflexivity.
  - eapply getitem_normal; eauto.
  - eapply getitem_normal; [|eauto]. eapply setitem_normal; [exact Hn| |eauto].
    reflexivity.
Qed.

(** A payload comes back as [json.load] reads it. *)
Lemma get_normal (p : string) (w w1 : world) (v : pyval) :
  get_cached_metadata p w = (Ok v, w1) -> Json.normalize v = v.
Proof.
  rewrite LookupFacts.get_cached_metadata_decide. intros H. injection H as Hv _.
  unfold decision in Hv.
  destruct (decide _ _ _) as [r e] eqn:Hdec. simpl in Hv. subst r.
  eapply decide_normal; [|exact Hdec]. apply CacheFacts.loaded_normal.
Qed.

Lemma decide_hit (i : bool) (c : pyval) (s : option (Z * Z)) (v : pyval) (e : effect) :
  decide i c s = (Ok v, e) -> v <> PNone -> is_Some s.
Proof.
  unfold decide. intros H Hv.
  destruct (negb i); [injection H as <-; contradiction|].
  destruct (negb (Py.truthy c)); [injection H as <-; contradiction|].
  destruct s; [eauto|]. injection H as <-. contradiction.
Qed.

(** Only an archive that is there is served. *)
Lemma get_hit_archive (p : string) (w w1 : world) (v : pyval) :
  get_cached_metadata p w = (Ok v, w1) -> v <> PNone -> is_Some (archives w !! p).
Proof.
  rewrite LookupFacts.get_cached_metadata_decide. intros H Hv. injection H as Hr _.
  unfold decision in Hr.
  destruct (decide _ _ _) as [r e] eqn:Hdec. simpl in Hr. subst r.
  apply decide_hit in Hdec; [|exact Hv]. unfold observed in Hdec.
  destruct (archives w !! p); [eauto|]. destruct Hdec; discriminate.
Qed.

(** The payload with a duration added, as the next lookup returns it:
    the record of the file holds the duration, and everything else is
    as it was. *)
Lemma merged_fields (d fm : list (string * pyval)) (name : string) (zi : zipinfo)
    (duration : pyval) :
  exists d' fm' record',
    Json.normalize (merged d fm name zi duration) = PDict d' /\
    Py.dict_get "file_metadata" d' = Some (PDict fm') /\
    Py.dict_get name fm' = Some (PDict record') /\
    Py.dict_get "duration_ms" record' = Some (Json.normalize duration) /\
    (forall k, k <> "file_metadata" ->
               Py.dict_get k d' = Json.normalize <$> Py.dict_get k d) /\
    (forall n, n <> name -> Py.dict_get n fm' = Json.normalize <$> Py.dict_get n fm) /\
    (forall k, k <> "duration_ms" ->
               Py.dict_get k record'
               = Json.normalize <$> Py.dict_get k (base_record fm name zi)).
Proof.
  unfold merged. simpl. rewrite !JsonFacts.dict_set_normalize. simpl.
  rewrite !JsonFacts.dict_set_normalize. simpl.
  rewrite !JsonFacts.dict_set_normalize.
  eexists _, _, _. split; [reflexivity|].
  split; [apply PyFacts.dict_get_set_eq|].
  split; [apply PyFacts.dict_get_set_eq|].
  split; [apply PyFacts.dict_get_set_eq|].
  split; [|split].
  - intros k Hk. rewrite PyFacts.dict_get_set_ne by congruence.
    apply JsonFacts.dict_get_normalize.
  - intros n Hn. rewrite PyFacts.dict_get_set_ne by congruence.
    apply JsonFacts.dict_get_normalize.
  - intros k Hk. rewrite PyFacts.dict_get_set_ne by congruence.
    apply JsonFacts.dict_get_normalize.
Qed.

End PayloadFacts.

(* ===================================================================== *)
(** * The claims                                                           *)
(* ===================================================================== *)

(** The closed examples are run with [Str.ascii_only]: their names are
    ASCII text, which every [Str.Unicode] lowers alike. *)
#[global] Existing Instance Str.ascii_only.

(** ** C1: the second open *)

(** C1: after a successful [load_zip] of an archive, and a
    [list_audio_files] that returned a list, let the environment replace
    archive files and let time pass, the size and the modification time
    (in whole seconds) of the archive staying as they were.  Then a second
    [load_zip] reports [used_cache], and leaves the whole world as it is:
    no archive is read ([zip_reads] does not move), none is opened,
    nothing is written; and [list_audio_files] returns the very list it
    returned after the first open, again without touching anything.
    Unless the archive was already open before the first [load_zip], the
    second one is answered by a cache entry; when the first one did the
    scan, that entry is the one it stored and holds the list. *)
Theorem second_open_is_a_cache_hit `{U : Str.Unicode} (w w1 w1' : world) (p : string)
    (t1 : ZipManager.timing_info) (L : pyval)
    (a' : gmap string archive) (now' : Z * positive) :
  ZipManager.load_zip p w = (Ok t1, w1) ->
  ZipManager.list_audio_files p w1 = (Ok L, w1') ->
  (forall f, archives w1' !! p = Some f ->
             exists f', a' !! p = Some f' /\ st_size f' = st_size f /\
                        CacheManager.mtime_seconds f' = CacheManager.mtime_seconds f) ->
  let w2 := set_archives a' now' w1' in
  ZipManager.load_zip p w2 = (Ok (ZipManager.TimingInfo true), w2) /\
  ZipManager.list_audio_files p w2 = (Ok L, w2) /\
  (open_zips w !! p = None ->
   exists payload,
     CacheManager.get_cached_metadata p w2 = (Ok payload, w2) /\
     payload <> PNone /\
     (ZipManager.used_cache t1 = false -> Py.getitem payload "audio_files" = Ok L)).
Proof.
  intros Hload Hlist Henv w2.
  destruct (ZipFacts.load_zip_settled _ _ _ _ Hload) as (v & Hs1 & Hhit & Hscan).
  destruct (ZipFacts.list_settled _ _ _ _ _ Hs1 Hlist) as (Hs1' & Hserved).
  pose proof (ZipFacts.settled_env p w1' v a' now' Hs1' Henv) as Hs2.
  assert (Hserved2 : ZipSpec.served p w2 v L) by exact Hserved.
  split; [exact (ZipFacts.load_zip_again _ _ _ Hs2)|].
  split; [exact (ZipFacts.list_again _ _ _ _ Hs2 Hserved2)|].
  intros Hclosed.
  exists v. split; [exact (ZipFacts.settled_get _ _ _ Hs2)|].
  split; [exact (Hhit Hclosed)|].
  intros Ht. unfold ZipSpec.served in Hserved. now rewrite (Hscan Ht) in Hserved.
Qed.

Lemma second_open_is_a_cache_hit_witness :
  let w1 := snd (ZipManager.load_zip Sample.pack_path Sample.initial) in
  let L := PList [PStr "amb/room.ogg"; PStr "drums/kick.wav"; PStr "drums/Snare.wav"] in
  let w2 := set_archives {[Sample.pack_path := Sample.pack_touched]} (1716009999%Z, 1%positive) w1 in
  ZipManager.load_zip Sample.pack_path w2 = (Ok (ZipManager.TimingInfo true), w2) /\
  ZipManager.list_audio_files Sample.pack_path w2 = (Ok L, w2) /\
  (open_zips Sample.initial !! Sample.pack_path = None ->
   exists payload,
     CacheManager.get_cached_metadata Sample.pack_path w2 = (Ok payload, w2) /\
     payload <> PNone /\
     (ZipManager.used_cache (ZipManager.TimingInfo false) = false ->
      Py.getitem payload "audio_files" = Ok L)).
Proof.
  intros w1 L w2.
  apply (second_open_is_a_cache_hit Sample.initial w1 w1 Sample.pack_path
           (ZipManager.TimingInfo false) L).
  - vm_compute. reflexivity.
  - vm_compute. reflexivity.
  - intros f Hf. exists Sample.pack_touched. vm_compute in Hf. injection Hf as <-.
    repeat split; reflexivity.
Defined.

(** ** C2: the order of the list *)

(** C2: for an archive without a valid cache entry that is not open yet,
    the list [list_audio_files] returns from the live scan is sorted by
    lower-cased folder name; within every folder its entries are sorted
    by lower-cased base name; it holds exactly the kept names of the
    archive.  After a [load_zip] that scans, [list_audio_files] is served
    from the cache entry and returns the same list in the same order.
    Lower case is that of [str.lower], whatever it does to text that is
    not ASCII.  For the entries drums/kick.wav, drums/Snare.wav,
    amb/room.ogg the list is amb/room.ogg, drums/kick.wav,
    drums/Snare.wav; entries at the root come first, and a folder comes
    before the folders inside it: for b.wav, a/z.wav, a/b/c.wav, A/y.wav
    the list is b.wav, a/z.wav, A/y.wav, a/b/c.wav. *)
Theorem audio_files_order `{U : Str.Unicode} (w w0 : world) (p : string) (f : archive)
    (entries : list zipinfo) :
  archives w !! p = Some f ->
  central_directory f = Some entries ->
  CacheManager.get_cached_metadata p w = (Ok PNone, w0) ->
  open_zips w !! p = None ->
  let L := Scan.scan_audio_files (List.map filename entries) in
  StronglySorted ScanSpec.folder_le L /\
  (forall folder, StronglySorted ScanSpec.file_le (List.filter (ScanSpec.in_folder folder) L)) /\
  Permutation L (List.filter ScanSpec.kept (List.map filename entries)) /\
  (exists w', ZipManager.list_audio_files p w = (Ok (PList (List.map PStr L)), w')) /\
  (ZipSpec.audio_entries entries <> [] ->
   exists w1 payload,
     ZipManager.load_zip p w = (Ok (ZipManager.TimingInfo false), w1) /\
     CacheManager.get_cached_metadata p w1 = (Ok payload, w1) /\
     Py.getitem payload "audio_files" = Ok (PList (List.map PStr L)) /\
     ZipManager.list_audio_files p w1 = (Ok (PList (List.map PStr L)), w1)) /\
  Scan.scan_audio_files ["drums/kick.wav"; "drums/Snare.wav"; "amb/room.ogg"]
    = ["amb/room.ogg"; "drums/kick.wav"; "drums/Snare.wav"] /\
  Scan.scan_audio_files ["b.wav"; "a/z.wav"; "a/b/c.wav"; "A/y.wav"]
    = ["b.wav"; "a/z.wav"; "A/y.wav"; "a/b/c.wav"].
Proof.
  intros Hf Hcd Hget Hz L.
  split; [apply ScanFacts.scan_folder_sorted|].
  split; [intros folder; apply ScanFacts.scan_within_folder_sorted|].
  split; [apply ScanFacts.scan_perm|].
  split; [eexists; exact (ZipFacts.list_live p w w0 f entries Hf Hcd Hget Hz)|].
  split; [|split; lower_text].
  intros Haudio.
  destruct (ZipFacts.list_after_load p w w0 f entries Hf Hcd Hget Hz Haudio)
    as (w1 & payload & Hload & Hget1 & _ & Hitem & Hlist).
  exists w1, payload. auto.
Qed.

Lemma audio_files_order_witness :
  let L := ["b.wav"; "a/z.wav"; "A/y.wav"; "a/b/c.wav"] in
  StronglySorted ScanSpec.folder_le L /\
  (forall folder, StronglySorted ScanSpec.file_le (List.filter (ScanSpec.in_folder folder) L)) /\
  Permutation L
    (List.filter ScanSpec.kept ["b.wav"; "a/z.wav"; "notes.txt"; "a/b/c.wav"; "A/y.wav"]) /\
  (exists w', ZipManager.list_audio_files Sample.nested_path Sample.nested_world
              = (Ok (PList (List.map PStr L)), w')) /\
  (ZipSpec.audio_entries
     [Sample.entry "b.wav" 16 None; Sample.entry "a/z.wav" 16 None;
      Sample.entry "notes.txt" 5 None; Sample.entry "a/b/c.wav" 16 None;
      Sample.entry "A/y.wav" 16 None] <> [] ->
   exists w1 payload,
     ZipManager.load_zip Sample.nested_path Sample.nested_world
       = (Ok (ZipManager.TimingInfo false), w1) /\
     CacheManager.get_cached_metadata Sample.nested_path w1 = (Ok payload, w1) /\
     Py.getitem payload "audio_files" = Ok (PList (List.map PStr L)) /\
     ZipManager.list_audio_files Sample.nested_path w1 = (Ok (PList (List.map PStr L)), w1)) /\
  Scan.scan_audio_files ["drums/kick.wav"; "drums/Snare.wav"; "amb/room.ogg"]
    = ["amb/room.ogg"; "drums/kick.wav"; "drums/Snare.wav"] /\
  Scan.scan_audio_files ["b.wav"; "a/z.wav"; "a/b/c.wav"; "A/y.wav"]
    = ["b.wav"; "a/z.wav"; "A/y.wav"; "a/b/c.wav"].
Proof.
  exact (audio_files_order Sample.nested_world Sample.nested_world Sample.nested_path
           Sample.nested
           [Sample.entry "b.wav" 16 None; Sample.entry "a/z.wav" 16 None;
            Sample.entry "notes.txt" 5 None; Sample.entry "a/b/c.wav" 16 None;
            Sample.entry "A/y.wav" 16 None]
           eq_refl eq_refl eq_refl eq_refl).
Defined.

(** ** C3: store, then look up *)

(** C3, as the claim states it, fails on a payload of the kind [load_zip]
    stores: the entry's time stamp is a tuple, the lookup returns it as a
    list, and a list is not equal to a tuple. *)
Lemma store_lookup_tuple_counterexample :
  exists w1 r,
    CacheManager.cache_metadata Sample.pack_path Sample.payload Sample.initial = (Ok tt, w1) /\
    CacheManager.get_cached_metadata Sample.pack_path w1 = (Ok r, w1) /\
    r = Sample.payload_lists /\
    Py.eq r Sample.payload = false.
Proof.
  eexists _, _. split; [|split; [|split]].
  - apply (CacheFacts.cache_metadata_run _ _ Sample.pack). reflexivity.
  - apply (CacheFacts.get_after_store _ _ Sample.pack). reflexivity.
  - reflexivity.
  - reflexivity.
Qed.

(** C3, amended: for an archive that exists, [cache_metadata] followed by
    [get_cached_metadata] for the same path returns the stored payload as
    [json.load] reads it back, that is with every tuple turned into the
    list of the same elements, and leaves the cache unchanged; a payload
    without tuples comes back equal to what was stored. *)
Theorem store_lookup_roundtrip (w : world) (p : string) (payload : pyval) (f : archive) :
  archives w !! p = Some f ->
  exists w1,
    CacheManager.cache_metadata p payload w = (Ok tt, w1) /\
    CacheManager.get_cached_metadata p w1 = (Ok (Json.normalize payload), w1) /\
    (Json.native payload = true ->
     CacheManager.get_cached_metadata p w1 = (Ok payload, w1)).
Proof.
  intros Hf. exists (CacheSpec.after_store p payload f w).
  split; [now apply CacheFacts.cache_metadata_run|].
  split; [now apply CacheFacts.get_after_store|].
  intros Hn. rewrite <- (JsonFacts.normalize_native payload Hn) at 2.
  now apply CacheFacts.get_after_store.
Qed.

Lemma store_lookup_roundtrip_witness :
  archives Sample.initial !! Sample.pack_path = Some Sample.pack /\
  exists w1,
    CacheManager.cache_metadata Sample.pack_path Sample.payload_lists Sample.initial = (Ok tt, w1) /\
    CacheManager.get_cached_metadata Sample.pack_path w1
      = (Ok (Json.normalize Sample.payload_lists), w1) /\
    (Json.native Sample.payload_lists = true ->
     CacheManager.get_cached_metadata Sample.pack_path w1 = (Ok Sample.payload_lists, w1)).
Proof.
  split; [reflexivity|].
  apply (store_lookup_roundtrip Sample.initial Sample.pack_path Sample.payload_lists Sample.pack).
  reflexivity.
Defined.

(** ** C4: a legacy entry *)

(** C4: for a registered entry in the legacy format (a [checksum] and a
    [size], no [file_stats]) whose stored size is the current size of the
    archive, [get_cached_metadata] returns the payload and rewrites the
    entry file with [file_stats] set to the current size and modification
    time; the next lookup returns the payload again, and so does a lookup
    of the rewritten entry with its [checksum] field taken away. *)
Theorem legacy_entry_upgraded (w : world) (p cf : string) (c : Json.content)
    (d : list (string * pyval)) (checksum metadata : pyval) (f : archive) :
  cache_index w !! p = Some cf ->
  cache_files w !! CacheManager.cache_file_path (cache_dir w) p = Some c ->
  Json.load c = Ok (PDict d) ->
  Py.dict_get "file_stats" d = None ->
  Py.dict_get "checksum" d = Some checksum ->
  Py.dict_get "size" d = Some (PInt (st_size f)) ->
  Py.dict_get "metadata" d = Some metadata ->
  archives w !! p = Some f ->
  let entry := CacheManager.cache_file_path (cache_dir w) p in
  let upgraded := Py.dict_set "file_stats" (CacheManager.file_stats f) d in
  exists w1,
    CacheManager.get_cached_metadata p w = (Ok metadata, w1) /\
    cache_files w1 !! entry = Some (Json.dump (PDict upgraded)) /\
    Py.dict_get "file_stats" upgraded = Some (CacheManager.file_stats f) /\
    CacheManager.get_cached_metadata p w1 = (Ok metadata, w1) /\
    let w2 := set_cache_files
                (fun fs => <[entry :=
                    Json.dump (PDict (CacheSpec.dict_without "checksum" upgraded))]> fs) w1 in
    Py.dict_get "checksum" (CacheSpec.dict_without "checksum" upgraded) = None /\
    CacheManager.get_cached_metadata p w2 = (Ok metadata, w2).
Proof.
  intros Hidx Hfile Hload Hnofs Hck Hsize Hmd Hf entry upgraded.
  assert (Hget : CacheManager.get_cached_metadata p w
                 = (Ok metadata,
                    set_cache_files (fun fs => <[entry := Json.dump (PDict upgraded)]> fs) w)).
  { rewrite LookupFacts.get_cached_metadata_decide.
    unfold Lookup.decision, Lookup.indexed, Lookup.observed, Lookup.entry_file.
    rewrite Hidx, Hfile, Hf, (CacheFacts.loaded_of_load c _ Hload).
    rewrite bool_decide_eq_true_2 by eauto.
    change (Lookup.fingerprint <$> Some f) with (Some (Lookup.fingerprint f)).
    rewrite (CacheFacts.decide_legacy d (Lookup.fingerprint f) checksum Hnofs Hck Hsize).
    change (Lookup.stats_value (Lookup.fingerprint f)) with (CacheManager.file_stats f).
    fold upgraded. unfold Py.getitem. unfold upgraded at 1.
    rewrite PyFacts.dict_get_set_ne by discriminate. rewrite Hmd. reflexivity. }
  eexists. split; [exact Hget|].
  split; [simpl; apply lookup_insert_eq|].
  split; [apply PyFacts.dict_get_set_eq|].
  split; [exact (CacheFacts.get_stable _ _ _ _ Hget)|].
  split; [apply CacheFacts.dict_get_without_eq|].
  apply CacheFacts.get_keep.
  unfold Lookup.decision, Lookup.indexed, Lookup.observed, Lookup.entry_file.
  simpl cache_index. simpl archives. simpl cache_dir. simpl cache_files.
  fold entry. rewrite lookup_insert_eq, Hidx, Hf, CacheFacts.loaded_dump.
  rewrite bool_decide_eq_true_2 by eauto.
  assert (Hmdn : Json.normalize metadata = metadata).
  { eapply (CacheFacts.loaded_field (Some c)); [|exact Hmd].
    now apply CacheFacts.loaded_of_load. }
  change (Lookup.fingerprint <$> Some f) with (Some (Lookup.fingerprint f)).
  change (Json.normalize (PDict (CacheSpec.dict_without "checksum" upgraded)))
    with (PDict (List.map (fun kv => (fst kv, Json.normalize (snd kv)))
                   (CacheSpec.dict_without "checksum" upgraded))).
  rewrite CacheFacts.decide_fingerprint_hit.
  - unfold Py.getitem. rewrite JsonFacts.dict_get_normalize.
    rewrite CacheFacts.dict_get_without by discriminate.
    unfold upgraded. rewrite PyFacts.dict_get_set_ne by discriminate.
    rewrite Hmd. simpl. now rewrite Hmdn.
  - rewrite JsonFacts.dict_get_normalize.
    rewrite CacheFacts.dict_get_without by discriminate.
    unfold upgraded. rewrite PyFacts.dict_get_set_eq. reflexivity.
Qed.

Lemma legacy_entry_upgraded_witness :
  let entry := CacheManager.cache_file_path Sample.cache_root Sample.pack_path in
  let upgraded :=
    Py.dict_set "file_stats" (CacheManager.file_stats Sample.pack) Sample.legacy_document in
  exists w1,
    CacheManager.get_cached_metadata Sample.pack_path Sample.legacy_world
      = (Ok Sample.payload_lists, w1) /\
    cache_files w1 !! entry = Some (Json.dump (PDict upgraded)) /\
    Py.dict_get "file_stats" upgraded = Some (CacheManager.file_stats Sample.pack) /\
    CacheManager.get_cached_metadata Sample.pack_path w1 = (Ok Sample.payload_lists, w1) /\
    let w2 := set_cache_files
                (fun fs => <[entry :=
                    Json.dump (PDict (CacheSpec.dict_without "checksum" upgraded))]> fs) w1 in
    Py.dict_get "checksum" (CacheSpec.dict_without "checksum" upgraded) = None /\
    CacheManager.get_cached_metadata Sample.pack_path w2 = (Ok Sample.payload_lists, w2).
Proof.
  apply (legacy_entry_upgraded Sample.legacy_world Sample.pack_path
           (CacheManager.cache_file_path Sample.cache_root Sample.pack_path)
           (Json.Document (PDict Sample.legacy_document)) Sample.legacy_document
           (PStr "9f86d081884c7d659a2feaa0c55ad015a3bf4f1b2b0b822cd15d6c15b0f00a08")
           Sample.payload_lists Sample.pack); reflexivity.
Defined.

(** ** C5: a changed archive that is still open *)

(** C5: the file of an archive is written anew, to the same size, at a
    later time and with other entries, while the session that opened it
    goes on.  The lookup finds the fingerprint changed, returns [None]
    and drops the entry.  But the second [load_zip] then finds the
    archive among the open ones and returns at once: it reports
    [used_cache], reads no archive and stores nothing, and
    [list_audio_files] scans the directory that the first open read.
    It returns the list of the first open, not the entries the archive
    holds now; a session in which the archive is not open lists
    those. *)
Theorem reopen_after_change_lists_stale_entries :
  let first_list := PList [PStr "amb/room.ogg"; PStr "drums/kick.wav"; PStr "drums/Snare.wav"] in
  let w1 := snd (ZipManager.load_zip Sample.pack_path Sample.initial) in
  let w2 := set_archives {[Sample.pack_path := Sample.pack_rewritten]}
              (1716000600%Z, 1%positive) w1 in
  let w3 := snd (ZipManager.load_zip Sample.pack_path w2) in
  st_size Sample.pack_rewritten = st_size Sample.pack /\
  CacheManager.mtime_seconds Sample.pack_rewritten
    <> CacheManager.mtime_seconds Sample.pack /\
  fst (ZipManager.load_zip Sample.pack_path Sample.initial)
    = Ok (ZipManager.TimingInfo false) /\
  fst (ZipManager.list_audio_files Sample.pack_path w1) = Ok first_list /\
  fst (CacheManager.get_cached_metadata Sample.pack_path w2) = Ok PNone /\
  ZipManager.load_zip Sample.pack_path w2 = (Ok (ZipManager.TimingInfo true), w3) /\
  cache_index w3 !! Sample.pack_path = None /\
  zip_reads w3 = zip_reads w2 /\
  fst (ZipManager.list_audio_files Sample.pack_path w3) = Ok first_list /\
  fst (ZipManager.list_audio_files Sample.pack_path (set_open_zips (fun _ => ∅) w3))
    = Ok (PList [PStr "drums/kick.wav"]).
Proof.
  vm_compute. repeat split; first [reflexivity | discriminate].
Qed.

(** ** C6: system files inside a folder *)

(** C6: [list_audio_files] skips the entries whose name begins with
    [__MACOSX] or with [._], and looks at the start of the whole entry
    name only.  In an archive that holds a folder packed on a Mac, the
    resource fork pack/__MACOSX/._kick.wav lies under a metadata folder
    and the file name of pack/._snare.wav begins with the marker of
    hidden files: both are listed next to pack/kick.wav, by the live
    scan and, after [load_zip], from the cache. *)
Theorem nested_system_entries_are_listed `{U : Str.Unicode} :
  let L := PList [PStr "pack/._snare.wav"; PStr "pack/kick.wav";
                  PStr "pack/__MACOSX/._kick.wav"] in
  (exists w', ZipManager.list_audio_files Sample.repacked_path Sample.repacked_world
              = (Ok L, w')) /\
  (exists w1, ZipManager.load_zip Sample.repacked_path Sample.repacked_world
              = (Ok (ZipManager.TimingInfo false), w1) /\
              ZipManager.list_audio_files Sample.repacked_path w1 = (Ok L, w1)).
Proof.
  intros L.
  set (entries := [Sample.entry "pack/kick.wav" 16 (Some 1200%Z);
                   Sample.entry "pack/__MACOSX/._kick.wav" 4 None;
                   Sample.entry "pack/._snare.wav" 4 None]).
  assert (Hlisting : ZipSpec.listing entries
                     = ["pack/._snare.wav"; "pack/kick.wav"; "pack/__MACOSX/._kick.wav"])
    by (subst entries; lower_text).
  assert (Haudio : ZipSpec.audio_entries entries <> [])
    by (subst entries; lower_text; discriminate).
  split.
  - eexists.
    rewrite (ZipFacts.list_live Sample.repacked_path Sample.repacked_world
               Sample.repacked_world Sample.repacked entries
               eq_refl eq_refl eq_refl eq_refl).
    rewrite Hlisting. reflexivity.
  - destruct (ZipFacts.list_after_load Sample.repacked_path Sample.repacked_world
                Sample.repacked_world Sample.repacked entries
                eq_refl eq_refl eq_refl eq_refl Haudio)
      as (w1 & payload & Hload & _ & _ & _ & Hlist).
    exists w1. split; [exact Hload|]. rewrite Hlist, Hlisting. reflexivity.
Qed.

(** ** C7: a corrupt entry file *)

(** C7: when the entry file of an archive holds text that cannot be
    parsed, [get_cached_metadata] returns [None] without raising and
    leaves everything as it is; for an archive that exists, a following
    [cache_metadata] succeeds and replaces the corrupt text, and the next
    lookup serves the stored payload. *)
Theorem corrupt_entry_is_a_miss (w : world) (p raw : string) (f : archive) (payload : pyval) :
  cache_files w !! CacheManager.cache_file_path (cache_dir w) p = Some (Json.Malformed raw) ->
  archives w !! p = Some f ->
  CacheManager.get_cached_metadata p w = (Ok PNone, w) /\
  exists w1,
    CacheManager.cache_metadata p payload w = (Ok tt, w1) /\
    cache_files w1 !! CacheManager.cache_file_path (cache_dir w1) p
      = Some (Json.dump (CacheSpec.entry_document f payload (clock w))) /\
    CacheManager.get_cached_metadata p w1 = (Ok (Json.normalize payload), w1).
Proof.
  intros Hfile Hf. split.
  - apply CacheFacts.get_keep, CacheFacts.decision_empty.
    unfold Lookup.entry_file. now rewrite Hfile.
  - exists (CacheSpec.after_store p payload f w).
    split; [now apply CacheFacts.cache_metadata_run|].
    split; [apply CacheFacts.after_store_entry_file|].
    now apply CacheFacts.get_after_store.
Qed.

Lemma corrupt_entry_is_a_miss_witness :
  CacheManager.get_cached_metadata Sample.pack_path Sample.corrupt_world = (Ok PNone, Sample.corrupt_world) /\
  exists w1,
    CacheManager.cache_metadata Sample.pack_path Sample.payload_lists Sample.corrupt_world = (Ok tt, w1) /\
    cache_files w1 !! CacheManager.cache_file_path (cache_dir w1) Sample.pack_path
      = Some (Json.dump (CacheSpec.entry_document Sample.pack Sample.payload_lists
                           (clock Sample.corrupt_world))) /\
    CacheManager.get_cached_metadata Sample.pack_path w1
      = (Ok (Json.normalize Sample.payload_lists), w1).
Proof.
  apply (corrupt_entry_is_a_miss Sample.corrupt_world Sample.pack_path "{file_stats: {size: 40"
           Sample.pack Sample.payload_lists); reflexivity.
Defined.

(** ** C8: one entry file per archive file name *)

(** C8: the index registers an archive under its whole path, and the
    entry file is named after the file name of the archive alone.  Two
    archives of the same file name in different directories share one
    entry file: storing the second writes over the entry of the first,
    and the lookup for the first, which returned its payload before,
    finds a foreign fingerprint and misses. *)
Lemma store_same_name_counterexample :
  Sample.pack_path <> Sample.backup_path /\
  exists w0 w1,
    CacheManager.cache_metadata Sample.backup_path Sample.backup_payload Sample.two_archives = (Ok tt, w0) /\
    CacheManager.cache_metadata Sample.pack_path Sample.payload_lists w0 = (Ok tt, w1) /\
    cache_files w1 !! CacheManager.cache_file_path (cache_dir w1) Sample.backup_path
      <> cache_files w0 !! CacheManager.cache_file_path (cache_dir w0) Sample.backup_path /\
    fst (CacheManager.get_cached_metadata Sample.backup_path w0) = Ok Sample.backup_payload /\
    fst (CacheManager.get_cached_metadata Sample.backup_path w1) = Ok PNone.
Proof.
  split; [discriminate|].
  eexists _, _. split; [|split; [|split; [|split]]].
  - apply (CacheFacts.cache_metadata_run _ _ Sample.pack_modified). reflexivity.
  - apply (CacheFacts.cache_metadata_run _ _ Sample.pack). reflexivity.
  - vm_compute. discriminate.
  - vm_compute. reflexivity.
  - vm_compute. reflexivity.
Qed.

(** ** C9: extraction drops the folders *)

(** C9: a path [extract_file] returns is always the output directory
    joined with the base name of the entry, and a file is there.  With
    the archive open (or opened by the call), the entry in its directory
    and the destination writable, the call succeeds, writes the bytes of
    the entry there and records the path.  So two entries with the same
    base name, extracted to the same directory, give the same path, and
    the file holds the bytes of the second. *)
Theorem extract_drops_folders (w w0 : world) (p out n1 n2 : string) (zf : zipfile) :
  (forall w w' name r,
      ZipManager.extract_file p name out w = (Ok r, w') ->
      r = Path.join out (Path.basename name) /\ is_Some (user_files w' !! r)) /\
  (ZipManager._ensure_zip_open p w = (Ok tt, w0) ->
   open_zips w0 !! p = Some zf ->
   ZipManager.mem n1 (ZipManager.namelist zf) = true ->
   ZipManager.mem n2 (ZipManager.namelist zf) = true ->
   Path.basename n1 = Path.basename n2 ->
   writable w0 (Path.join out (Path.basename n1)) = true ->
   let path := Path.join out (Path.basename n1) in
   exists z1 z2 w1 w2,
     ZipManager.getinfo zf n1 = Ok z1 /\ filename z1 = n1 /\
     ZipManager.getinfo zf n2 = Ok z2 /\ filename z2 = n2 /\
     ZipManager.extract_file p n1 out w = (Ok path, w1) /\
     user_files w1 !! path = Some (entry_bytes z1) /\
     ZipManager.extract_file p n2 out w1 = (Ok path, w2) /\
     user_files w2 !! path = Some (entry_bytes z2) /\
     extracted_files w2 = extracted_files w0 ++ [path; path]).
Proof.
  split; [intros wa wb name r; apply ZipFacts.extract_file_path|].
  intros Hopen Hz Hm1 Hm2 Hbase Hw path.
  destruct (ZipFacts.getinfo_mem zf n1 Hm1) as (z1 & Hi1 & Hn1).
  destruct (ZipFacts.getinfo_mem zf n2 Hm2) as (z2 & Hi2 & Hn2).
  pose proof (ZipFacts.extract_file_run p n1 out w0 zf z1 Hz Hm1 Hi1 Hw) as H1.
  fold path in H1.
  assert (H1' : ZipManager.extract_file p n1 out w
                = (Ok path, ZipSpec.extracted path (entry_bytes z1) w0)).
  { now rewrite (ZipFacts.extract_file_opening p n1 out w w0 zf Hopen Hz). }
  set (w1 := ZipSpec.extracted path (entry_bytes z1) w0) in *.
  assert (Hz1 : open_zips w1 !! p = Some zf) by exact Hz.
  assert (Hw1 : writable w1 (Path.join out (Path.basename n2)) = true)
    by (rewrite <- Hbase; exact Hw).
  pose proof (ZipFacts.extract_file_run p n2 out w1 zf z2 Hz1 Hm2 Hi2 Hw1) as H2.
  rewrite <- Hbase in H2. fold path in H2.
  exists z1, z2, w1, (ZipSpec.extracted path (entry_bytes z2) w1).
  repeat (split; [assumption|]).
  split; [simpl; apply lookup_insert_eq|].
  split; [exact H2|].
  split; [simpl; apply lookup_insert_eq|].
  simpl. now rewrite <- List.app_assoc.
Qed.

Lemma extract_drops_folders_witness :
  let w0 := snd (ZipManager._ensure_zip_open Sample.kicks_path Sample.kicks_world) in
  exists z1 z2 w1 w2,
    ZipManager.getinfo (ZipFile [ZipInfo "drums/kick.wav" 9 [2024; 5; 17; 10; 30; 0]%Z "drum kick" None None;
                                 ZipInfo "perc/kick.wav" 9 [2024; 5; 17; 10; 31; 0]%Z "perc kick" None None])
       "drums/kick.wav" = Ok z1 /\ filename z1 = "drums/kick.wav" /\
    ZipManager.getinfo (ZipFile [ZipInfo "drums/kick.wav" 9 [2024; 5; 17; 10; 30; 0]%Z "drum kick" None None;
                                 ZipInfo "perc/kick.wav" 9 [2024; 5; 17; 10; 31; 0]%Z "perc kick" None None])
       "perc/kick.wav" = Ok z2 /\ filename z2 = "perc/kick.wav" /\
    ZipManager.extract_file Sample.kicks_path "drums/kick.wav" "/tmp/out" Sample.kicks_world
      = (Ok "/tmp/out/kick.wav", w1) /\
    user_files w1 !! "/tmp/out/kick.wav" = Some (entry_bytes z1) /\
    ZipManager.extract_file Sample.kicks_path "perc/kick.wav" "/tmp/out" w1
      = (Ok "/tmp/out/kick.wav", w2) /\
    user_files w2 !! "/tmp/out/kick.wav" = Some (entry_bytes z2) /\
    extracted_files w2 = extracted_files w0 ++ ["/tmp/out/kick.wav"; "/tmp/out/kick.wav"].
Proof.
  intros w0.
  apply (proj2 (extract_drops_folders Sample.kicks_world w0 Sample.kicks_path "/tmp/out"
                  "drums/kick.wav" "perc/kick.wav"
                  (ZipFile [ZipInfo "drums/kick.wav" 9 [2024; 5; 17; 10; 30; 0]%Z "drum kick" None None;
                            ZipInfo "perc/kick.wav" 9 [2024; 5; 17; 10; 31; 0]%Z "perc kick" None None])));
    reflexivity.
Defined.

(** ** C10: validation counts system files *)



(* ===================================================================== *)
(** * Further properties of the cache and of the archive accessor         *)
(* ===================================================================== *)

(** ** The fingerprint, the names the scan keeps, the frame of a store *)

Lemma list_audio_files_miss `{U : Str.Unicode} (p : string) (w : world) :
  CacheManager.get_cached_metadata p w = (Ok PNone, w) ->
  ZipManager.list_audio_files p w = ZipManager.scan_open_archive p w.
Proof.
  intros H. unfold ZipManager.list_audio_files. unfold bind at 1. rewrite H.
  reflexivity.
Qed.

(** X1 ([get_cached_metadata], lines 155-164; [_calculate_file_stats]):
    for a registered entry whose document carries the fingerprint
    [file_stats] written when the archive was [f0], and an archive that is
    now [f]: [get_cached_metadata] serves a payload only when the size
    and the modification time (in whole seconds) of [f] are those of
    [f0]; when either differs it returns [None], deletes the entry file
    and the registration, and afterwards lookups miss and
    [list_audio_files] takes the live scan instead of the cached list. *)
Theorem fingerprint_decides `{U : Str.Unicode} (w : world) (p : string) (c : Json.content)
    (d : list (string * pyval)) (f0 f : archive) :
  cache_index w !! p = Some (CacheManager.cache_file_path (cache_dir w) p) ->
  cache_files w !! CacheManager.cache_file_path (cache_dir w) p = Some c ->
  Json.load c = Ok (PDict d) ->
  Py.dict_get "file_stats" d = Some (CacheManager.file_stats f0) ->
  archives w !! p = Some f ->
  (forall v w1,
      CacheManager.get_cached_metadata p w = (Ok v, w1) -> v <> PNone ->
      st_size f = st_size f0 /\
      CacheManager.mtime_seconds f = CacheManager.mtime_seconds f0) /\
  (st_size f <> st_size f0 \/
   CacheManager.mtime_seconds f <> CacheManager.mtime_seconds f0 ->
   exists w1,
     CacheManager.get_cached_metadata p w = (Ok PNone, w1) /\
     cache_index w1 !! p = None /\
     cache_files w1 !! CacheManager.cache_file_path (cache_dir w1) p = None /\
     CacheManager.get_cached_metadata p w1 = (Ok PNone, w1) /\
     ZipManager.list_audio_files p w1 = ZipManager.scan_open_archive p w1).
Proof.
  intros Hidx Hfile Hload Hfs Hf.
  assert (Hdec : Lookup.decision w p
                 = if Z.eqb (st_size f) (st_size f0)
                      && Z.eqb (CacheManager.mtime_seconds f) (CacheManager.mtime_seconds f0)
                   then (Py.getitem (PDict d) "metadata", Lookup.Keep)
                   else (Ok PNone, Lookup.Remove)).
  { unfold Lookup.decision, Lookup.indexed, Lookup.observed, Lookup.entry_file.
    rewrite Hidx, Hfile, Hf, (CacheFacts.loaded_of_load c _ Hload).
    rewrite bool_decide_eq_true_2 by eauto.
    change (Lookup.fingerprint <$> Some f) with (Some (Lookup.fingerprint f)).
    unfold Lookup.decide. rewrite (CacheFacts.truthy_dict _ _ _ Hfs).
    change (negb true) with false. cbv iota.
    unfold Lookup.on_error, Py.contains. unfold Py.getitem at 1. rewrite Hfs.
    rewrite bool_decide_eq_true_2 by eauto.
    unfold CacheManager.file_stats. simpl Py.getitem at 1 2.
    unfold Lookup.fingerprint. simpl fst. simpl snd.
    rewrite !PyFacts.ne_int.
    destruct (Z.eqb (st_size f) (st_size f0)); simpl; [|reflexivity].
    destruct (Z.eqb (CacheManager.mtime_seconds f) (CacheManager.mtime_seconds f0));
      reflexivity. }
  split.
  - intros v w1 Hget Hv. rewrite LookupFacts.get_cached_metadata_decide, Hdec in Hget.
    destruct (Z.eqb_spec (st_size f) (st_size f0)) as [Hs|Hs]; simpl in Hget.
    + destruct (Z.eqb_spec (CacheManager.mtime_seconds f) (CacheManager.mtime_seconds f0))
        as [Hm|Hm]; [auto|].
      simpl in Hget. rewrite (CacheFacts.remove_from_cache_run _ _ _ Hidx) in Hget.
      simpl in Hget. congruence.
    + rewrite (CacheFacts.remove_from_cache_run _ _ _ Hidx) in Hget.
      simpl in Hget. congruence.
  - intros Hdiff.
    assert (Hget : CacheManager.get_cached_metadata p w
                   = (Ok PNone,
                      CacheSpec.after_remove p
                        (CacheManager.cache_file_path (cache_dir w) p) w)).
    { rewrite LookupFacts.get_cached_metadata_decide, Hdec.
      assert (Hb : Z.eqb (st_size f) (st_size f0)
                   && Z.eqb (CacheManager.mtime_seconds f) (CacheManager.mtime_seconds f0)
                   = false).
      { apply andb_false_iff. destruct Hdiff as [H|H]; [left|right];
          now apply Z.eqb_neq. }
      rewrite Hb. simpl. now rewrite (CacheFacts.remove_from_cache_run _ _ _ Hidx). }
    eexists. split; [exact Hget|].
    pose proof (CacheFacts.get_stable _ _ _ _ Hget) as Hagain.
    split; [simpl; apply lookup_delete_eq|].
    split.
    { simpl. rewrite lookup_insert_ne
        by (apply not_eq_sym, PathFacts.entry_not_index).
      apply lookup_delete_eq. }
    split; [exact Hagain|].
    now apply list_audio_files_miss.
Qed.

Lemma fingerprint_decides_witness :
  (forall v w1,
      CacheManager.get_cached_metadata Sample.pack_path Sample.stale_world = (Ok v, w1) ->
      v <> PNone ->
      st_size Sample.pack_modified = st_size Sample.pack /\
      CacheManager.mtime_seconds Sample.pack_modified = CacheManager.mtime_seconds Sample.pack) /\
  (st_size Sample.pack_modified <> st_size Sample.pack \/
   CacheManager.mtime_seconds Sample.pack_modified <> CacheManager.mtime_seconds Sample.pack ->
   exists w1,
     CacheManager.get_cached_metadata Sample.pack_path Sample.stale_world = (Ok PNone, w1) /\
     cache_index w1 !! Sample.pack_path = None /\
     cache_files w1 !! CacheManager.cache_file_path (cache_dir w1) Sample.pack_path = None /\
     CacheManager.get_cached_metadata Sample.pack_path w1 = (Ok PNone, w1) /\
     ZipManager.list_audio_files Sample.pack_path w1
       = ZipManager.scan_open_archive Sample.pack_path w1).
Proof.
  apply (fingerprint_decides Sample.stale_world Sample.pack_path
           (Json.dump (PDict Sample.stored_document)) Sample.stored_document
           Sample.pack Sample.pack_modified); reflexivity.
Defined.

(** X2 ([list_audio_files], lines 249-259): for an archive without a
    valid cache entry that is not open yet,
    [list_audio_files] lists exactly the names of the archive that carry
    an audio extension and do not begin with [__MACOSX] or with [._]; a
    name that begins with one of the two is never listed, whatever its
    extension, neither by the live scan nor, after [load_zip], from the
    cache.  An archive with the entries __MACOSX/._audio1.wav and
    audio1.wav lists audio1.wav alone, before and after [load_zip]. *)
Theorem system_files_not_listed `{U : Str.Unicode} (w w0 : world) (p : string) (f : archive)
    (entries : list zipinfo) :
  archives w !! p = Some f ->
  central_directory f = Some entries ->
  CacheManager.get_cached_metadata p w = (Ok PNone, w0) ->
  open_zips w !! p = None ->
  exists L,
    (exists w', ZipManager.list_audio_files p w = (Ok (PList (List.map PStr L)), w')) /\
    (ZipSpec.audio_entries entries <> [] ->
     exists w1, ZipManager.load_zip p w = (Ok (ZipManager.TimingInfo false), w1) /\
                ZipManager.list_audio_files p w1 = (Ok (PList (List.map PStr L)), w1)) /\
    (forall n, In n L <->
               In n (List.map filename entries) /\
               Scan.is_system_file n = false /\ Scan.has_audio_extension n = true) /\
    (forall n, Scan.is_system_file n = true -> ~ In n L) /\
    fst (ZipManager.list_audio_files Sample.mac_path Sample.mac_world) = Ok (PList [PStr "audio1.wav"]) /\
    fst (ZipManager.list_audio_files Sample.mac_path (snd (ZipManager.load_zip Sample.mac_path Sample.mac_world)))
      = Ok (PList [PStr "audio1.wav"]).
Proof.
  intros Hf Hcd Hget Hz. exists (ZipSpec.listing entries).
  assert (Hin : forall n, In n (ZipSpec.listing entries) <->
                          In n (List.map filename entries) /\
                          Scan.is_system_file n = false /\
                          Scan.has_audio_extension n = true).
  { intros n. unfold ZipSpec.listing. rewrite ScanFacts.scan_In. unfold ScanSpec.kept.
    rewrite andb_true_iff, negb_true_iff. tauto. }
  split; [eexists; exact (ZipFacts.list_live p w w0 f entries Hf Hcd Hget Hz)|].
  split.
  { intros Haudio.
    destruct (ZipFacts.list_after_load p w w0 f entries Hf Hcd Hget Hz Haudio)
      as (w1 & payload & Hload & _ & _ & _ & Hlist).
    exists w1. auto. }
  split; [exact Hin|].
  split.
  { intros n Hsys Hn. apply Hin in Hn as (_ & Hno & _). congruence. }
  set (mac_entries := [Sample.entry "__MACOSX/._audio1.wav" 4 None;
                       Sample.entry "audio1.wav" 16 (Some 300%Z)]).
  assert (Hlisting : ZipSpec.listing mac_entries = ["audio1.wav"])
    by (subst mac_entries; lower_text).
  assert (Haudio : ZipSpec.audio_entries mac_entries <> [])
    by (subst mac_entries; lower_text; discriminate).
  split.
  - rewrite (ZipFacts.list_live Sample.mac_path Sample.mac_world Sample.mac_world
               Sample.mac mac_entries eq_refl eq_refl eq_refl eq_refl).
    now rewrite Hlisting.
  - destruct (ZipFacts.list_after_load Sample.mac_path Sample.mac_world Sample.mac_world
                Sample.mac mac_entries eq_refl eq_refl eq_refl eq_refl Haudio)
      as (w1 & payload & Hload & _ & _ & _ & Hlist).
    rewrite Hload. cbn [snd]. now rewrite Hlist, Hlisting.
Qed.

Lemma system_files_not_listed_witness :
  exists L,
    (exists w', ZipManager.list_audio_files Sample.mac_path Sample.mac_world
                = (Ok (PList (List.map PStr L)), w')) /\
    (ZipSpec.audio_entries
       [Sample.entry "__MACOSX/._audio1.wav" 4 None;
        Sample.entry "audio1.wav" 16 (Some 300%Z)] <> [] ->
     exists w1, ZipManager.load_zip Sample.mac_path Sample.mac_world = (Ok (ZipManager.TimingInfo false), w1) /\
                ZipManager.list_audio_files Sample.mac_path w1 = (Ok (PList (List.map PStr L)), w1)) /\
    (forall n, In n L <->
               In n ["__MACOSX/._audio1.wav"; "audio1.wav"] /\
               Scan.is_system_file n = false /\ Scan.has_audio_extension n = true) /\
    (forall n, Scan.is_system_file n = true -> ~ In n L) /\
    fst (ZipManager.list_audio_files Sample.mac_path Sample.mac_world) = Ok (PList [PStr "audio1.wav"]) /\
    fst (ZipManager.list_audio_files Sample.mac_path (snd (ZipManager.load_zip Sample.mac_path Sample.mac_world)))
      = Ok (PList [PStr "audio1.wav"]).
Proof.
  exact (system_files_not_listed Sample.mac_world Sample.mac_world Sample.mac_path Sample.mac
           [Sample.entry "__MACOSX/._audio1.wav" 4 None;
            Sample.entry "audio1.wav" 16 (Some 300%Z)]
           eq_refl eq_refl eq_refl eq_refl).
Defined.

(** X3 ([cache_metadata], [_get_cache_file_path]): for two archive
    paths with different base file names,
    [cache_metadata] for one leaves the other's entry file, its
    registration in the index and the value [get_cached_metadata] returns
    for it unchanged. *)
Theorem store_frame (w : world) (p q : string) (payload : pyval) :
  Path.basename p <> Path.basename q ->
  let w1 := snd (CacheManager.cache_metadata p payload w) in
  cache_files w1 !! CacheManager.cache_file_path (cache_dir w1) q
    = cache_files w !! CacheManager.cache_file_path (cache_dir w) q /\
  cache_index w1 !! q = cache_index w !! q /\
  fst (CacheManager.get_cached_metadata q w1) = fst (CacheManager.get_cached_metadata q w).
Proof.
  intros Hne w1. subst w1.
  destruct (archives w !! p) as [f|] eqn:Hf.
  2:{ rewrite (CacheFacts.cache_metadata_missing _ _ _ Hf). auto. }
  rewrite (CacheFacts.cache_metadata_run _ _ _ _ Hf). cbn [snd].
  assert (Hpq : p <> q) by (intros ->; now apply Hne).
  assert (Hfile : cache_files (CacheSpec.after_store p payload f w)
                    !! CacheManager.cache_file_path
                         (cache_dir (CacheSpec.after_store p payload f w)) q
                  = cache_files w !! CacheManager.cache_file_path (cache_dir w) q).
  { simpl. rewrite lookup_insert_ne
      by (apply not_eq_sym, PathFacts.entry_not_index).
    apply lookup_insert_ne. now apply PathFacts.entry_files_differ. }
  assert (Hidx : cache_index (CacheSpec.after_store p payload f w) !! q
                 = cache_index w !! q).
  { simpl. now apply lookup_insert_ne. }
  split; [exact Hfile|]. split; [exact Hidx|].
  rewrite !LookupFacts.get_cached_metadata_decide. cbn [fst].
  unfold Lookup.decision, Lookup.indexed, Lookup.entry_file, Lookup.observed.
  rewrite Hfile, Hidx. reflexivity.
Qed.

Lemma store_frame_witness :
  let w1 := snd (CacheManager.cache_metadata Sample.pack_path Sample.payload_lists
                   Sample.other_cached) in
  cache_files w1 !! CacheManager.cache_file_path (cache_dir w1) Sample.other_path
    = cache_files Sample.other_cached
        !! CacheManager.cache_file_path (cache_dir Sample.other_cached) Sample.other_path /\
  cache_index w1 !! Sample.other_path = cache_index Sample.other_cached !! Sample.other_path /\
  fst (CacheManager.get_cached_metadata Sample.other_path w1)
    = fst (CacheManager.get_cached_metadata Sample.other_path Sample.other_cached).
Proof.
  apply (store_frame Sample.other_cached Sample.pack_path Sample.other_path
           Sample.payload_lists).
  vm_compute. discriminate.
Defined.

(** ** Removing an entry, losing an archive *)

(** X4 ([remove_from_cache]): removing an entry never raises and leaves
    the path unregistered; removing it once more changes nothing, and
    the lookup that follows misses without touching the cache. *)
Theorem remove_from_cache_idempotent (p : string) (w : world) :
  let w1 := Session.after (CacheManager.remove_from_cache p) w in
  fst (CacheManager.remove_from_cache p w) = Ok tt /\
  cache_index w1 !! p = None /\
  CacheManager.remove_from_cache p w1 = (Ok tt, w1) /\
  CacheManager.get_cached_metadata p w1 = (Ok PNone, w1).
Proof.
  intros w1.
  assert (H : fst (CacheManager.remove_from_cache p w) = Ok tt /\ cache_index w1 !! p = None).
  { unfold w1, Session.after. destruct (cache_index w !! p) as [cache_file|] eqn:Hp.
    - rewrite (CacheFacts.remove_from_cache_run p cache_file w Hp).
      split; [reflexivity|]. simpl. apply lookup_delete_eq.
    - rewrite (CacheFacts.remove_from_cache_absent p w Hp). now split. }
  destruct H as [Hok Hnone]. repeat split; [exact Hok|exact Hnone| |].
  - now apply CacheFacts.remove_from_cache_absent.
  - apply CacheFacts.get_keep. now apply CacheFacts.decision_not_indexed.
Qed.

(** X5 ([get_cached_metadata], lines 159-162): the lookup of an archive
    that is no longer on disk misses and drops the entry, that is, the
    registration and the entry file; the other registrations stay.
    [load_zip] of such a path raises before it looks anything up, and
    leaves the entry where it is. *)
Theorem lookup_drops_entry_of_missing_archive `{U : Str.Unicode} (p : string) (w : world) :
  cache_index w !! p = Some (CacheManager.cache_file_path (cache_dir w) p) ->
  Py.truthy (Lookup.loaded (Lookup.entry_file w p)) = true ->
  archives w !! p = None ->
  let w1 := Session.after (CacheManager.get_cached_metadata p) w in
  CacheManager.get_cached_metadata p w = (Ok PNone, w1) /\
  cache_index w1 !! p = None /\
  Lookup.entry_file w1 p = None /\
  (forall q, q <> p -> cache_index w1 !! q = cache_index w !! q) /\
  ZipManager.load_zip p w = (Raise FileNotFoundError, w).
Proof.
  intros Hidx Htruthy Hgone w1.
  assert (Hget : CacheManager.get_cached_metadata p w
                 = (Ok PNone, CacheSpec.after_remove p
                                (CacheManager.cache_file_path (cache_dir w) p) w)).
  { rewrite LookupFacts.get_cached_metadata_decide.
    unfold Lookup.decision, Lookup.decide, Lookup.indexed, Lookup.observed.
    rewrite Hidx, Htruthy, Hgone.
    rewrite bool_decide_eq_true_2 by eauto. simpl.
    now rewrite (CacheFacts.remove_from_cache_run _ _ _ Hidx). }
  unfold w1, Session.after. rewrite Hget. simpl.
  split; [reflexivity|]. split; [apply lookup_delete_eq|].
  split.
  - unfold Lookup.entry_file, CacheSpec.after_remove. simpl.
    rewrite lookup_insert_ne by (apply not_eq_sym, PathFacts.entry_not_index).
    apply lookup_delete_eq.
  - split; [intros q Hq; now apply lookup_delete_ne|].
    unfold ZipManager.load_zip. unfold bind at 1. rewrite ZipFacts.archive_exists_run.
    rewrite Hgone. rewrite bool_decide_eq_false_2 by (intros [? ?]; discriminate).
    reflexivity.
Qed.

Lemma lookup_drops_entry_of_missing_archive_witness :
  CacheManager.get_cached_metadata Sample.pack_path Scenario.vanished_world
  = (Ok PNone,
     Session.after (CacheManager.get_cached_metadata Sample.pack_path)
       Scenario.vanished_world) /\
  cache_index (Session.after (CacheManager.get_cached_metadata Sample.pack_path)
                 Scenario.vanished_world) !! Sample.pack_path = None.
Proof.
  pose proof (lookup_drops_entry_of_missing_archive Sample.pack_path
                Scenario.vanished_world eq_refl eq_refl eq_refl) as H.
  exact (conj (proj1 H) (proj1 (proj2 H))).
Defined.

(** X6 ([get_cached_metadata], line 178): an entry file that carries the
    fingerprint of the archive but no payload makes the lookup raise
    [KeyError]; [load_zip] and [list_audio_files] pass the exception on,
    and the entry stays as it is. *)
Theorem lookup_without_payload_raises `{U : Str.Unicode} (p : string) (w : world) (cache_file : string)
    (f : archive) (d : list (string * pyval)) :
  cache_index w !! p = Some cache_file ->
  Lookup.loaded (Lookup.entry_file w p) = PDict d ->
  archives w !! p = Some f ->
  Py.dict_get "file_stats" d = Some (CacheManager.file_stats f) ->
  Py.dict_get "metadata" d = None ->
  CacheManager.get_cached_metadata p w = (Raise KeyError, w) /\
  ZipManager.load_zip p w = (Raise KeyError, w) /\
  ZipManager.list_audio_files p w = (Raise KeyError, w).
Proof.
  intros Hidx Hdoc Hf Hstats Hmd.
  assert (Hget : CacheManager.get_cached_metadata p w = (Raise KeyError, w)).
  { apply CacheFacts.get_keep.
    unfold Lookup.decision, Lookup.indexed, Lookup.observed.
    rewrite Hidx, Hdoc, Hf. rewrite bool_decide_eq_true_2 by eauto.
    change (Lookup.fingerprint <$> Some f) with (Some (Lookup.fingerprint f)).
    rewrite (CacheFacts.decide_fingerprint_hit d (Lookup.fingerprint f) Hstats).
    simpl. now rewrite Hmd. }
  split; [exact Hget|]. split.
  - unfold ZipManager.load_zip. unfold bind at 1. rewrite ZipFacts.archive_exists_run.
    rewrite Hf. rewrite bool_decide_eq_true_2 by eauto. cbn [negb].
    unfold try_except. unfold bind at 1. now rewrite Hget.
  - unfold ZipManager.list_audio_files. unfold bind at 1. now rewrite Hget.
Qed.

Lemma lookup_without_payload_raises_witness :
  CacheManager.get_cached_metadata Sample.pack_path Scenario.bare_entry_world
  = (Raise KeyError, Scenario.bare_entry_world) /\
  ZipManager.load_zip Sample.pack_path Scenario.bare_entry_world
  = (Raise KeyError, Scenario.bare_entry_world) /\
  ZipManager.list_audio_files Sample.pack_path Scenario.bare_entry_world
  = (Raise KeyError, Scenario.bare_entry_world).
Proof.
  exact (lookup_without_payload_raises Sample.pack_path Scenario.bare_entry_world
           (CacheManager.cache_file_path Sample.cache_root Sample.pack_path)
           Sample.pack [("file_stats", CacheManager.file_stats Sample.pack)]
           eq_refl eq_refl eq_refl eq_refl eq_refl).
Defined.

(** X7 ([get_cached_metadata]): a lookup touches nothing but the cache
    directory and the index; a payload comes back as [json.load] reads
    it, an exception leaves every registration in place; and a second
    lookup right after it returns the same and changes nothing. *)
Theorem lookup_settles (p : string) (w : world) :
  let r := fst (CacheManager.get_cached_metadata p w) in
  let w1 := Session.after (CacheManager.get_cached_metadata p) w in
  CacheManager.get_cached_metadata p w1 = (r, w1) /\
  CacheSpec.same_outside_cache w w1 /\
  match r with
  | Ok v => Json.normalize v = v
  | Raise _ => cache_index w1 = cache_index w
  end.
Proof.
  intros r w1.
  destruct (CacheManager.get_cached_metadata p w) as [r0 w0] eqn:Hget.
  unfold r, w1, Session.after. rewrite Hget. simpl.
  split; [exact (CacheFacts.get_stable _ _ _ _ Hget)|].
  split; [exact (CacheFacts.get_outside_cache _ _ _ _ Hget)|].
  destruct r0 as [v|e].
  - exact (PayloadFacts.get_normal _ _ _ _ Hget).
  - rewrite LookupFacts.get_cached_metadata_decide in Hget. injection Hget as Hr Hw.
    destruct (Lookup.decision w p) as [r1 eff] eqn:Hdec. simpl in *. subst r1 w0.
    unfold Lookup.decision in Hdec.
    destruct eff as [| |up]; [reflexivity| |reflexivity].
    apply CacheFacts.decide_remove in Hdec as [Hdec _]. discriminate.
Qed.

(** ** Clearing the cache *)

(** X8 ([clear_cache]): clearing never raises; afterwards no archive is
    registered, every file that was registered is deleted, the index
    file holds the empty index, every lookup misses without touching
    the cache, and nothing outside the cache has changed. *)
Theorem clear_cache_empties (w : world) :
  let w1 := Session.after CacheIndex.clear_cache w in
  CacheIndex.clear_cache w = (Ok tt, w1) /\
  cache_index w1 = ∅ /\
  CacheIndex.list_cached_zips w1 = (Ok [], w1) /\
  IndexSpec.stored_index w1 = PDict [] /\
  (forall p cache_file,
      cache_index w !! p = Some cache_file ->
      cache_file <> CacheManager.cache_index_file (cache_dir w) ->
      cache_files w1 !! cache_file = None) /\
  (forall p, CacheManager.get_cached_metadata p w1 = (Ok PNone, w1)) /\
  CacheSpec.same_outside_cache w w1.
Proof.
  intros w1. unfold w1, Session.after. rewrite IndexFacts.clear_cache_run. simpl.
  split; [reflexivity|]. split; [reflexivity|].
  split; [unfold CacheIndex.list_cached_zips; unfold_monad; simpl;
          now rewrite map_to_list_empty|].
  split.
  { erewrite IndexFacts.stored_index_saved by reflexivity.
    unfold CacheManager.index_value. now rewrite map_to_list_empty. }
  split.
  { intros p cache_file Hp Hne. rewrite lookup_insert_ne by congruence.
    apply IndexFacts.without_In. exact (IndexFacts.registered_file _ _ _ Hp). }
  split; [|repeat split].
  intros p. apply CacheFacts.get_keep. now apply CacheFacts.decision_not_indexed.
Qed.

(** X9 ([clear_cache], lines 209-214): clearing goes by the index: a
    file of the cache directory that no archive is registered with, such
    as the entry file of an archive whose registration was lost, is
    left where it is. *)
Theorem clear_cache_keeps_unregistered (w : world) (path : string) :
  (forall p, cache_index w !! p <> Some path) ->
  path <> CacheManager.cache_index_file (cache_dir w) ->
  cache_files (Session.after CacheIndex.clear_cache w) !! path = cache_files w !! path.
Proof.
  intros Hfree Hne. unfold Session.after. rewrite IndexFacts.clear_cache_run. simpl.
  rewrite lookup_insert_ne by congruence.
  apply IndexFacts.without_not_In. intros Hin.
  apply IndexFacts.file_registered in Hin as [p Hp]. exact (Hfree p Hp).
Qed.

Lemma clear_cache_keeps_unregistered_witness :
  cache_files (Session.after CacheIndex.clear_cache Scenario.orphan_world)
    !! Scenario.orphan_file
  = Some (Json.Document (PDict [("checksum", PStr "00")])).
Proof.
  assert (Hfree : forall p, cache_index Scenario.orphan_world !! p
                            <> Some Scenario.orphan_file).
  { intros p Hp. unfold Scenario.orphan_world, CacheSpec.after_store in Hp.
    cbn [cache_index set_cache_files set_cache_index Sample.initial Sample.fresh] in Hp.
    apply lookup_insert_Some in Hp as [[_ Hp]|[_ Hp]].
    - vm_compute in Hp. discriminate Hp.
    - rewrite lookup_empty in Hp. discriminate Hp. }
  assert (Hne : Scenario.orphan_file
                <> CacheManager.cache_index_file (cache_dir Scenario.orphan_world))
    by (vm_compute; intros H; discriminate H).
  pose proof (clear_cache_keeps_unregistered Scenario.orphan_world Scenario.orphan_file
                Hfree Hne) as H.
  rewrite H. vm_compute. reflexivity.
Defined.

(** ** The index across sessions *)



(** X11 ([cache_metadata], line 203): in a session that starts with
    every archive registered under the entry file of its name, this
    stays so after any sequence of calls, returned or raised. *)
Theorem registrations_name_entry_files `{U : Str.Unicode} (w : world) (calls : list Session.call) :
  IndexSpec.consistent w -> IndexSpec.consistent (Session.session calls w).
Proof. apply InvariantFacts.consistent_session. Qed.

Lemma registrations_name_entry_files_witness :
  IndexSpec.consistent
    (Session.session
       [Session.LoadZip Sample.pack_path;
        Session.CacheMetadata Sample.backup_path Sample.backup_payload;
        Session.RemoveFromCache Sample.pack_path]
       Sample.two_archives).
Proof.
  apply registrations_name_entry_files.
  intros p cache_file H.
  change (cache_index Sample.two_archives) with (∅ : gmap string string) in H.
  rewrite lookup_empty in H. discriminate H.
Defined.

(** X12 ([cache_metadata], [__init__]): what one session stores the next
    one finds: after a store, new managers start with no archive open
    and nothing extracted, their lookup returns the stored payload as
    [json.load] reads it, and [load_zip] is a cache hit that does not
    read the archive. *)
Theorem next_session_finds_entry `{U : Str.Unicode} (p : string) (md : pyval) (f : archive) (w : world) :
  archives w !! p = Some f ->
  Json.normalize md <> PNone ->
  let w1 := Session.after (CacheManager.cache_metadata p md) w in
  exists w2,
    ZipAccess.__init__ w1 = Some w2 /\
    open_zips w2 = ∅ /\ extracted_files w2 = [] /\
    CacheManager.get_cached_metadata p w2 = (Ok (Json.normalize md), w2) /\
    ZipManager.load_zip p w2 = (Ok (ZipManager.TimingInfo true), w2).
Proof.
  intros Hf Hmd w1. unfold w1, Session.after.
  rewrite (CacheFacts.cache_metadata_run p md f w Hf). simpl.
  set (w1' := CacheSpec.after_store p md f w).
  exists (IndexSpec.restarted (cache_index w1') w1').
  assert (Hinit : ZipAccess.__init__ w1'
                  = Some (IndexSpec.restarted (cache_index w1') w1')).
  { unfold ZipAccess.__init__, CacheIndex.__init__.
    rewrite IndexFacts.load_cache_index_run.
    pose proof (IndexFacts.after_store_synced p md f w) as Hs.
    unfold IndexSpec.synced in Hs. fold w1' in Hs.
    replace (IndexSpec.stored_index
               (set_extracted_files (fun _ => []) (set_open_zips (fun _ => ∅) w1')))
      with (IndexSpec.stored_index w1') by reflexivity.
    rewrite Hs. reflexivity. }
  assert (Hget : CacheManager.get_cached_metadata p
                   (IndexSpec.restarted (cache_index w1') w1')
                 = (Ok (Json.normalize md), IndexSpec.restarted (cache_index w1') w1')).
  { apply CacheFacts.get_keep.
    rewrite (CacheFacts.decision_ext p w1' (IndexSpec.restarted (cache_index w1') w1'))
      by reflexivity.
    now apply CacheFacts.decision_after_store. }
  repeat split; try assumption.
  apply (ZipFacts.load_zip_hit p _ _ f (Json.normalize md)); [exact Hf|exact Hget|exact Hmd].
Qed.

Lemma next_session_finds_entry_witness :
  exists w2,
    ZipAccess.__init__
      (Session.after (CacheManager.cache_metadata Sample.pack_path Sample.payload)
         Sample.initial) = Some w2 /\
    open_zips w2 = ∅ /\ extracted_files w2 = [] /\
    CacheManager.get_cached_metadata Sample.pack_path w2
    = (Ok (Json.normalize Sample.payload), w2) /\
    ZipManager.load_zip Sample.pack_path w2 = (Ok (ZipManager.TimingInfo true), w2).
Proof.
  refine (next_session_finds_entry Sample.pack_path Sample.payload Sample.pack
            Sample.initial eq_refl _).
  discriminate.
Defined.

(** X13 ([_load_cache_index], lines 54-62): when the index file is
    missing or cannot be parsed, new managers start with an empty
    index: every lookup misses, whatever entry files the cache directory
    holds, and these files are left as they are. *)
Theorem damaged_index_hides_entries `{U : Str.Unicode} (w : world) :
  (cache_files w !! CacheManager.cache_index_file (cache_dir w) = None \/
   exists raw, cache_files w !! CacheManager.cache_index_file (cache_dir w)
               = Some (Json.Malformed raw)) ->
  let w1 := IndexSpec.restarted ∅ w in
  ZipAccess.__init__ w = Some w1 /\
  cache_files w1 = cache_files w /\
  forall p, CacheManager.get_cached_metadata p w1 = (Ok PNone, w1).
Proof.
  intros Hbad w1.
  assert (Hempty : IndexSpec.stored_index w = PDict []).
  { unfold IndexSpec.stored_index.
    destruct Hbad as [->|[raw ->]]; reflexivity. }
  split.
  - unfold ZipAccess.__init__, CacheIndex.__init__.
    rewrite IndexFacts.load_cache_index_run.
    replace (IndexSpec.stored_index
               (set_extracted_files (fun _ => []) (set_open_zips (fun _ => ∅) w)))
      with (IndexSpec.stored_index w) by reflexivity.
    rewrite Hempty. reflexivity.
  - split; [reflexivity|]. intros p.
    apply CacheFacts.get_keep. now apply CacheFacts.decision_not_indexed.
Qed.

Lemma damaged_index_hides_entries_witness :
  ZipAccess.__init__ Scenario.damaged_index_world
  = Some (IndexSpec.restarted ∅ Scenario.damaged_index_world) /\
  Lookup.entry_file (IndexSpec.restarted ∅ Scenario.damaged_index_world) Sample.pack_path
  = Some (Json.dump (CacheSpec.entry_document Sample.pack Sample.payload_lists
                       (1716000100%Z, 1%positive))) /\
  CacheManager.get_cached_metadata Sample.pack_path
    (IndexSpec.restarted ∅ Scenario.damaged_index_world)
  = (Ok PNone, IndexSpec.restarted ∅ Scenario.damaged_index_world).
Proof.
  assert (Hbad : cache_files Scenario.damaged_index_world
                   !! CacheManager.cache_index_file (cache_dir Scenario.damaged_index_world)
                 = None \/
                 exists raw,
                   cache_files Scenario.damaged_index_world
                     !! CacheManager.cache_index_file (cache_dir Scenario.damaged_index_world)
                   = Some (Json.Malformed raw))
    by (right; exists "{"; vm_compute; reflexivity).
  pose proof (damaged_index_hides_entries Scenario.damaged_index_world Hbad) as H.
  split; [exact (proj1 H)|]. split; [vm_compute; reflexivity|].
  exact (proj2 (proj2 H) Sample.pack_path).
Defined.

(** ** Reading an entry *)

(** X14 ([read_file], [extract_file]): the file an extraction writes
    holds exactly the bytes [read_file] returns for the entry; both
    leave the archive open. *)
Theorem read_file_matches_extraction (p name out : string) (w w1 : world) (path : string) :
  ZipManager.extract_file p name out w = (Ok path, w1) ->
  exists data w0,
    ZipAccess.read_file p name w = (Ok data, w0) /\
    user_files w1 !! path = Some data /\
    open_zips w1 = open_zips w0 /\
    is_Some (open_zips w0 !! p).
Proof.
  intros H.
  apply AccessFacts.extract_file_inv in H
    as (w0 & zf & zi & Hopen & Hz & Hmem & Hinfo & -> & ->).
  exists (entry_bytes zi), w0.
  rewrite (AccessFacts.read_file_opening _ _ _ _ _ Hopen Hz),
    (AccessFacts.read_file_open _ _ _ _ Hz), Hmem, Hinfo.
  split; [reflexivity|]. split; [simpl; apply lookup_insert_eq|].
  split; [reflexivity|]. eauto.
Qed.

Lemma read_file_matches_extraction_witness :
  exists data w0,
    ZipAccess.read_file Sample.kicks_path "perc/kick.wav" Sample.kicks_world = (Ok data, w0) /\
    user_files (snd (ZipManager.extract_file Sample.kicks_path "perc/kick.wav" "/tmp/out"
                       Sample.kicks_world)) !! "/tmp/out/kick.wav" = Some data /\
    open_zips (snd (ZipManager.extract_file Sample.kicks_path "perc/kick.wav" "/tmp/out"
                      Sample.kicks_world)) = open_zips w0 /\
    is_Some (open_zips w0 !! Sample.kicks_path).
Proof.
  refine (read_file_matches_extraction Sample.kicks_path "perc/kick.wav" "/tmp/out"
            Sample.kicks_world _ "/tmp/out/kick.wav" _).
  vm_compute. reflexivity.
Defined.

(** X15 ([read_file], [stream_file], [extract_file]): for a name that
    the directory of the open archive does not hold, each of the three
    raises [KeyError] and changes nothing; no file is written. *)
Theorem missing_entry_raises_KeyError (p name out : string) (size : Z) (w : world)
    (zf : zipfile) :
  open_zips w !! p = Some zf ->
  ZipManager.mem name (ZipManager.namelist zf) = false ->
  ZipAccess.read_file p name w = (Raise KeyError, w) /\
  ZipAccess.stream_file p name size w = (Raise KeyError, w) /\
  ZipManager.extract_file p name out w = (Raise KeyError, w).
Proof.
  intros Hz Hmem.
  rewrite (AccessFacts.read_file_open _ _ _ _ Hz),
    (AccessFacts.stream_file_open _ _ _ _ _ Hz),
    (AccessFacts.extract_file_open _ _ _ _ _ Hz), Hmem.
  auto.
Qed.

Lemma missing_entry_raises_KeyError_witness :
  let w := snd (ZipManager._ensure_zip_open Sample.kicks_path Sample.kicks_world) in
  ZipAccess.read_file Sample.kicks_path "kick.wav" w = (Raise KeyError, w) /\
  ZipAccess.stream_file Sample.kicks_path "kick.wav" 8192 w = (Raise KeyError, w) /\
  ZipManager.extract_file Sample.kicks_path "kick.wav" "/tmp/out" w = (Raise KeyError, w).
Proof.
  intros w.
  refine (missing_entry_raises_KeyError Sample.kicks_path "kick.wav" "/tmp/out" 8192 w
            (ZipFile [ZipInfo "drums/kick.wav" 9 [2024; 5; 17; 10; 30; 0]%Z "drum kick" None None;
                      ZipInfo "perc/kick.wav" 9 [2024; 5; 17; 10; 31; 0]%Z "perc kick" None None])
            _ _); vm_compute; reflexivity.
Defined.

(** X16 ([load_zip] lines 104-105, [_ensure_zip_open] lines 284-286):
    for a path at which there is no file and which is not open,
    [load_zip], [read_file], [stream_file] and [extract_file] raise
    [FileNotFoundError] and change nothing: no handle, no file, and the
    cache is not looked at. *)
Theorem missing_archive_raises `{U : Str.Unicode} (p name out : string) (size : Z)
    (w : world) :
  archives w !! p = None ->
  open_zips w !! p = None ->
  ZipManager.load_zip p w = (Raise FileNotFoundError, w) /\
  ZipAccess.read_file p name w = (Raise FileNotFoundError, w) /\
  ZipAccess.stream_file p name size w = (Raise FileNotFoundError, w) /\
  ZipManager.extract_file p name out w = (Raise FileNotFoundError, w).
Proof.
  intros Hf Hz.
  assert (Hopen : ZipManager._ensure_zip_open p w = (Raise FileNotFoundError, w))
    by (rewrite AccessFacts.ensure_open_cases, Hz, Hf; reflexivity).
  split.
  { unfold ZipManager.load_zip. unfold bind at 1. rewrite ZipFacts.archive_exists_run.
    rewrite Hf. rewrite bool_decide_eq_false_2 by (intros [? ?]; discriminate).
    reflexivity. }
  split; [exact (AccessFacts.read_file_failed_open _ _ _ _ _ Hopen)|].
  split; [|exact (AccessFacts.extract_file_failed_open _ _ _ _ _ _ Hopen)].
  unfold ZipAccess.stream_file. unfold bind at 1. now rewrite Hopen.
Qed.

Lemma missing_archive_raises_witness :
  ZipManager.load_zip "/music/gone.zip" Sample.initial
    = (Raise FileNotFoundError, Sample.initial) /\
  ZipAccess.read_file "/music/gone.zip" "a.wav" Sample.initial
    = (Raise FileNotFoundError, Sample.initial) /\
  ZipAccess.stream_file "/music/gone.zip" "a.wav" 8192 Sample.initial
    = (Raise FileNotFoundError, Sample.initial) /\
  ZipManager.extract_file "/music/gone.zip" "a.wav" "/tmp/out" Sample.initial
    = (Raise FileNotFoundError, Sample.initial).
Proof.
  exact (missing_archive_raises "/music/gone.zip" "a.wav" "/tmp/out" 8192 Sample.initial
           eq_refl eq_refl).
Defined.

(** X17 ([_ensure_zip_open] lines 288-291): for a file that is no ZIP
    archive and is not open, [read_file], [stream_file] and
    [extract_file] raise the [ValueError] of [_ensure_zip_open], whose
    text begins with "Invalid ZIP file"; the attempt to read the archive
    is all that happened: no handle is registered and no file is
    written. *)
Theorem invalid_archive_raises (p name out : string) (size : Z) (w : world) (f : archive) :
  archives w !! p = Some f ->
  central_directory f = None ->
  open_zips w !! p = None ->
  let w1 := count_zip_read w in
  ZipAccess.read_file p name w = (Raise (ValueError "Invalid ZIP file"), w1) /\
  ZipAccess.stream_file p name size w = (Raise (ValueError "Invalid ZIP file"), w1) /\
  ZipManager.extract_file p name out w = (Raise (ValueError "Invalid ZIP file"), w1) /\
  open_zips w1 = open_zips w /\ user_files w1 = user_files w /\
  extracted_files w1 = extracted_files w.
Proof.
  intros Hf Hcd Hz w1.
  assert (Hopen : ZipManager._ensure_zip_open p w
                  = (Raise (ValueError "Invalid ZIP file"), w1))
    by (rewrite AccessFacts.ensure_open_cases, Hz, Hf, Hcd; reflexivity).
  split; [exact (AccessFacts.read_file_failed_open _ _ _ _ _ Hopen)|].
  split; [unfold ZipAccess.stream_file; unfold bind at 1; now rewrite Hopen|].
  split; [exact (AccessFacts.extract_file_failed_open _ _ _ _ _ _ Hopen)|].
  repeat split.
Qed.

Lemma invalid_archive_raises_witness :
  let w1 := count_zip_read Scenario.notes_world in
  ZipAccess.read_file Scenario.notes_path "a.wav" Scenario.notes_world
    = (Raise (ValueError "Invalid ZIP file"), w1) /\
  ZipAccess.stream_file Scenario.notes_path "a.wav" 8192 Scenario.notes_world
    = (Raise (ValueError "Invalid ZIP file"), w1) /\
  ZipManager.extract_file Scenario.notes_path "a.wav" "/tmp/out" Scenario.notes_world
    = (Raise (ValueError "Invalid ZIP file"), w1) /\
  open_zips w1 = open_zips Scenario.notes_world /\
  user_files w1 = user_files Scenario.notes_world /\
  extracted_files w1 = extracted_files Scenario.notes_world.
Proof.
  exact (invalid_archive_raises Scenario.notes_path "a.wav" "/tmp/out" 8192
           Scenario.notes_world _ eq_refl eq_refl eq_refl).
Defined.

(** X18 ([load_zip] lines 137-141, [_validate_zip]): [load_zip] of a
    file that is no ZIP archive, or of an archive without an entry that
    carries an audio extension, raises [ValueError] with the text that
    [_validate_zip] returned.  The archive was read once; it is not
    left open and nothing is stored: the next lookup misses as
    before. *)
Theorem load_zip_rejects `{U : Str.Unicode} (p : string) (w : world) (f : archive) :
  archives w !! p = Some f ->
  CacheManager.get_cached_metadata p w = (Ok PNone, w) ->
  open_zips w !! p = None ->
  match central_directory f with
  | Some entries => ZipSpec.audio_entries entries = []
  | None => True
  end ->
  let w1 := count_zip_read w in
  ZipManager.load_zip p w
  = (Raise (ValueError match central_directory f with
                       | Some _ => "No audio files found"
                       | None => "ZIP file is invalid"
                       end), w1) /\
  open_zips w1 !! p = None /\
  CacheManager.get_cached_metadata p w1 = (Ok PNone, w1).
Proof.
  intros Hf Hget Hz Hbad w1.
  split; [|split; [exact Hz|]].
  - unfold ZipManager.load_zip. unfold bind at 1. rewrite ZipFacts.archive_exists_run.
    rewrite bool_decide_eq_true_2 by eauto. cbn [negb].
    unfold try_except. unfold bind at 1. rewrite Hget.
    unfold bind at 1. unfold gets at 1. rewrite Hz.
    rewrite bool_decide_eq_false_2 by (intros [? ?]; discriminate).
    unfold bind at 1.
    destruct (central_directory f) as [entries|] eqn:Hcd.
    + rewrite (ZipFacts.validate_zip_run _ _ _ _ Hf Hcd), Hbad. reflexivity.
    + rewrite (ZipFacts.validate_zip_unreadable _ _ _ Hf Hcd). reflexivity.
  - apply CacheFacts.get_keep.
    rewrite (CacheFacts.decision_ext p w w1) by reflexivity.
    exact (CacheFacts.decision_after_get _ _ _ _ Hget).
Qed.

Lemma load_zip_rejects_witness :
  ZipManager.load_zip Scenario.notes_path Scenario.notes_world
  = (Raise (ValueError "ZIP file is invalid"), count_zip_read Scenario.notes_world) /\
  open_zips (count_zip_read Scenario.notes_world) !! Scenario.notes_path = None /\
  CacheManager.get_cached_metadata Scenario.notes_path (count_zip_read Scenario.notes_world)
  = (Ok PNone, count_zip_read Scenario.notes_world).
Proof.
  exact (load_zip_rejects Scenario.notes_path Scenario.notes_world _
           eq_refl eq_refl eq_refl I).
Defined.

(** ** Streaming an entry *)

(** X19 ([stream_file]): for a chunk size other than 0 the chunks of
    [stream_file], put together, are the bytes [read_file] returns; the
    loop has ended within [len(data) + 1] turns.  With a positive chunk
    size no chunk is empty or longer than the chunk size, and every
    chunk but the last has exactly that size; with a negative one the
    entry comes as one chunk. *)
Theorem stream_file_chunks (p name : string) (size : Z) (w w0 : world) (data : string) :
  ZipAccess.read_file p name w = (Ok data, w0) ->
  size <> 0%Z ->
  exists chunks,
    ZipAccess.stream_file p name size w = (Ok chunks, w0) /\
    String.concat "" chunks = data /\
    (forall turns, (String.length data < turns)%nat ->
                   ZipAccess.stream_loop turns size data = chunks) /\
    ((0 < size)%Z ->
     List.Forall (fun chunk => (1 <= String.length chunk <= Z.to_nat size)%nat) chunks /\
     List.Forall (fun chunk => String.length chunk = Z.to_nat size)
       (List.removelast chunks)) /\
    ((size < 0)%Z -> data <> "" -> chunks = [data]).
Proof.
  intros Hread Hsize.
  exists (ZipAccess.stream_loop (S (String.length data)) size data).
  split; [exact (AccessFacts.stream_file_read _ _ _ _ _ _ Hread)|].
  split; [apply AccessFacts.stream_loop_concat; [exact Hsize|lia]|].
  split; [intros turns Hturns; apply AccessFacts.stream_loop_turns; lia|].
  split.
  - intros Hpos. split.
    + now apply AccessFacts.stream_loop_bounds.
    + now apply AccessFacts.stream_loop_full.
  - intros Hneg Hdata. simpl. unfold ZipAccess.file_read.
    rewrite (proj2 (Z.ltb_lt size 0) Hneg).
    destruct data as [|c r]; [contradiction|].
    destruct (String.length (String c r)) eqn:Hlen; [discriminate|].
    simpl. unfold ZipAccess.file_read. now rewrite (proj2 (Z.ltb_lt size 0) Hneg).
Qed.

Lemma stream_file_chunks_witness :
  exists w0,
    ZipAccess.stream_file Sample.kicks_path "drums/kick.wav" 4 Sample.kicks_world
    = (Ok ["drum"; " kic"; "k"], w0) /\
    ZipAccess.read_file Sample.kicks_path "drums/kick.wav" Sample.kicks_world
    = (Ok "drum kick", w0).
Proof.
  destruct (stream_file_chunks Sample.kicks_path "drums/kick.wav" 4 Sample.kicks_world
              (snd (ZipAccess.read_file Sample.kicks_path "drums/kick.wav"
                      Sample.kicks_world))
              "drum kick" eq_refl ltac:(discriminate))
    as (chunks & Hstream & _ & Hturns & _).
  eexists. split; [|reflexivity].
  rewrite Hstream. rewrite <- (Hturns 10%nat ltac:(simpl; lia)). reflexivity.
Defined.

(** X20 ([stream_file], lines 341-346): with the chunk size 0 the first
    read returns no byte and the loop ends: no chunk is yielded,
    whatever the entry holds. *)
Theorem stream_file_without_chunk_size (p name : string) (w w0 : world) (data : string) :
  ZipAccess.read_file p name w = (Ok data, w0) ->
  ZipAccess.stream_file p name 0 w = (Ok [], w0).
Proof.
  intros Hread. rewrite (AccessFacts.stream_file_read _ _ 0 _ _ _ Hread).
  now rewrite AccessFacts.stream_loop_zero.
Qed.

Lemma stream_file_without_chunk_size_witness :
  ZipAccess.stream_file Sample.kicks_path "drums/kick.wav" 0 Sample.kicks_world
  = (Ok [], snd (ZipAccess.read_file Sample.kicks_path "drums/kick.wav" Sample.kicks_world)).
Proof.
  exact (stream_file_without_chunk_size Sample.kicks_path "drums/kick.wav"
           Sample.kicks_world _ "drum kick" eq_refl).
Defined.

(** ** Batches of extractions *)

(** X21 ([extract_files]): a batch that returns gives one path for each
    requested name, in the order of the names, each the output directory
    joined with the base name of the entry; every one of them is a file
    afterwards and is tracked, in that order, behind what was tracked
    before; no file that was there is gone. *)
Theorem extract_files_paths (p out : string) (names paths : list string) (w w1 : world) :
  ZipAccess.extract_files p names out w = (Ok paths, w1) ->
  paths = List.map (BatchSpec.destination out) names /\
  extracted_files w1 = extracted_files w ++ paths /\
  (forall path, In path paths -> is_Some (user_files w1 !! path)) /\
  (forall path, is_Some (user_files w !! path) -> is_Some (user_files w1 !! path)).
Proof.
  intros H. apply BatchFacts.extract_loop_ok in H as (-> & Hext & Hmono & Hall).
  simpl. repeat split; auto.
Qed.

Lemma extract_files_paths_witness :
  let r := ZipAccess.extract_files Sample.kicks_path ["drums/kick.wav"; "perc/kick.wav"]
             "/tmp/out" Sample.kicks_world in
  fst r = Ok ["/tmp/out/kick.wav"; "/tmp/out/kick.wav"] /\
  extracted_files (snd r) = ["/tmp/out/kick.wav"; "/tmp/out/kick.wav"] /\
  user_files (snd r) !! "/tmp/out/kick.wav" = Some "perc kick".
Proof.
  intros r.
  pose proof (extract_files_paths Sample.kicks_path "/tmp/out"
                ["drums/kick.wav"; "perc/kick.wav"]
                ["/tmp/out/kick.wav"; "/tmp/out/kick.wav"] Sample.kicks_world (snd r)
                ltac:(vm_compute; reflexivity)) as (_ & Hext & _).
  split; [vm_compute; reflexivity|]. split; [exact Hext|]. vm_compute. reflexivity.
Defined.

(** X22 ([extract_files], lines 414-422): a batch that raises has
    stopped at the first name whose extraction raised, with that
    exception.  Nothing is rolled back: the entries before it are
    extracted, their files are there and are tracked; the names after it
    are not touched. *)
Theorem extract_files_stops_at_failure (p out : string) (names : list string)
    (w w1 : world) (e : exn) :
  ZipAccess.extract_files p names out w = (Raise e, w1) ->
  exists done name rest w0,
    names = done ++ name :: rest /\
    ZipManager.extract_file p name out w0 = (Raise e, w1) /\
    extracted_files w1 = extracted_files w ++ List.map (BatchSpec.destination out) done /\
    (forall path, In path (List.map (BatchSpec.destination out) done) ->
                  is_Some (user_files w1 !! path)) /\
    (forall path, is_Some (user_files w !! path) -> is_Some (user_files w1 !! path)).
Proof.
  intros H. apply BatchFacts.extract_loop_raise in H
    as (done & name & rest & w0 & Hnames & Hfail & Hext & Hmono & Hall).
  exists done, name, rest, w0. auto.
Qed.

Lemma extract_files_stops_at_failure_witness :
  let r := ZipAccess.extract_files Sample.kicks_path
             ["drums/kick.wav"; "snare.wav"; "perc/kick.wav"] "/tmp/out"
             Sample.kicks_world in
  fst r = Raise KeyError /\
  extracted_files (snd r) = ["/tmp/out/kick.wav"] /\
  user_files (snd r) !! "/tmp/out/kick.wav" = Some "drum kick".
Proof.
  intros r.
  destruct (extract_files_stops_at_failure Sample.kicks_path "/tmp/out"
              ["drums/kick.wav"; "snare.wav"; "perc/kick.wav"] Sample.kicks_world (snd r)
              KeyError ltac:(vm_compute; reflexivity))
    as (done & name & rest & w0 & _).
  vm_compute. repeat split; reflexivity.
Defined.

(** ** Cleaning up, closing *)

(** X23 ([cleanup]): [cleanup] never raises, whatever [os.remove] does.
    Afterwards no archive is open and no file is tracked; every tracked
    file that could be removed is gone; the files that were not tracked
    or could not be removed, the archives and the cache are as they
    were; and a second [cleanup] changes nothing. *)
Theorem cleanup_ends_session (can_remove can_remove' : string -> bool) (w : world) :
  let w1 := Session.after (ZipAccess.cleanup can_remove) w in
  ZipAccess.cleanup can_remove w = (Ok tt, w1) /\
  open_zips w1 = ∅ /\ ZipAccess.get_open_zips w1 = (Ok [], w1) /\
  extracted_files w1 = [] /\
  (forall path, In path (extracted_files w) -> can_remove path = true ->
                user_files w1 !! path = None) /\
  (forall path, ~ In path (extracted_files w) \/ can_remove path = false ->
                user_files w1 !! path = user_files w !! path) /\
  archives w1 = archives w /\ cache_files w1 = cache_files w /\
  cache_index w1 = cache_index w /\
  ZipAccess.cleanup can_remove' w1 = (Ok tt, w1).
Proof.
  intros w1. unfold w1, Session.after. rewrite BatchFacts.cleanup_run. simpl.
  split; [reflexivity|]. split; [reflexivity|].
  split; [unfold ZipAccess.get_open_zips; unfold_monad; simpl;
          now rewrite map_to_list_empty|].
  split; [reflexivity|].
  split; [intros path Hin Hc; now apply BatchFacts.removed_In|].
  split.
  { intros path [Hout|Hkeep].
    - now apply BatchFacts.removed_not_In.
    - now apply BatchFacts.removed_kept. }
  repeat (split; [reflexivity|]).
  rewrite BatchFacts.cleanup_run. reflexivity.
Qed.

(** X24 ([extract_file] lines 377-388, [cleanup] lines 430-435): a file
    that was at the output path before the extraction is written over
    by the entry, tracked like a file of the session, and deleted by
    [cleanup]. *)
Theorem cleanup_deletes_overwritten_file (p name out : string) (w w1 : world)
    (path previous : string) (can_remove : string -> bool) :
  user_files w !! BatchSpec.destination out name = Some previous ->
  ZipManager.extract_file p name out w = (Ok path, w1) ->
  can_remove path = true ->
  path = BatchSpec.destination out name /\
  In path (extracted_files w1) /\
  user_files (Session.after (ZipAccess.cleanup can_remove) w1) !! path = None.
Proof.
  intros Hprev Hx Hc.
  apply AccessFacts.extract_file_inv in Hx as (w0 & zf & zi & _ & _ & _ & _ & -> & ->).
  split; [reflexivity|].
  assert (Hin : In (Path.join out (Path.basename name))
                  (extracted_files
                     (ZipSpec.extracted (Path.join out (Path.basename name))
                        (entry_bytes zi) w0))).
  { simpl. apply List.in_or_app. right. now left. }
  split; [exact Hin|].
  unfold Session.after. rewrite BatchFacts.cleanup_run.
  cbn [BatchSpec.cleaned user_files set_open_zips set_extracted_files set_user_files].
  now apply BatchFacts.removed_In.
Qed.

Lemma cleanup_deletes_overwritten_file_witness :
  let w1 := snd (ZipManager.extract_file Sample.kicks_path "drums/kick.wav" "/tmp/out"
                   Scenario.with_user_file) in
  user_files Scenario.with_user_file !! "/tmp/out/kick.wav" = Some "my own recording" /\
  user_files w1 !! "/tmp/out/kick.wav" = Some "drum kick" /\
  user_files (Session.after (ZipAccess.cleanup (fun _ => true)) w1) !! "/tmp/out/kick.wav"
  = None.
Proof.
  intros w1.
  pose proof (cleanup_deletes_overwritten_file Sample.kicks_path "drums/kick.wav" "/tmp/out"
                Scenario.with_user_file w1 "/tmp/out/kick.wav" "my own recording"
                (fun _ => true) ltac:(vm_compute; reflexivity)
                ltac:(vm_compute; reflexivity) eq_refl) as (_ & _ & H).
  split; [vm_compute; reflexivity|]. split; [vm_compute; reflexivity|]. exact H.
Defined.

(** X25 ([close_zip]): closing never raises, also for a path that is
    not open; afterwards the path is not open, the other handles and
    everything else are as they were, and closing once more changes
    nothing. *)
Theorem close_zip_forgets_handle (p : string) (w : world) :
  let w1 := Session.after (ZipAccess.close_zip p) w in
  ZipAccess.close_zip p w = (Ok tt, w1) /\
  open_zips w1 !! p = None /\
  (forall q, q <> p -> open_zips w1 !! q = open_zips w !! q) /\
  archives w1 = archives w /\ cache_files w1 = cache_files w /\
  cache_index w1 = cache_index w /\ user_files w1 = user_files w /\
  extracted_files w1 = extracted_files w /\ zip_reads w1 = zip_reads w /\
  ZipAccess.close_zip p w1 = (Ok tt, w1).
Proof.
  intros w1. unfold w1, Session.after. rewrite BatchFacts.close_zip_run. simpl.
  split; [reflexivity|]. split; [apply lookup_delete_eq|].
  split; [intros q Hq; now apply lookup_delete_ne|].
  repeat (split; [reflexivity|]).
  rewrite BatchFacts.close_zip_run. unfold BatchSpec.closed, set_open_zips. simpl.
  now rewrite delete_delete_eq.
Qed.

(** X26 ([close_zip], [_ensure_zip_open], [list_audio_files]): once the
    handle of an archive is closed, a listing that the cache does not
    answer reads the archive from disk again and returns the scan of
    the entries the archive holds now. *)
Theorem listing_after_close_reads_archive `{U : Str.Unicode} (p : string) (w : world)
    (f : archive) (entries : list zipinfo) :
  CacheManager.get_cached_metadata p w = (Ok PNone, w) ->
  archives w !! p = Some f ->
  central_directory f = Some entries ->
  let w1 := Session.after (ZipAccess.close_zip p) w in
  ZipManager.list_audio_files p w1
  = (Ok (PList (List.map PStr (ZipSpec.listing entries))),
     ZipSpec.opened p (ZipFile entries) w1) /\
  zip_reads (ZipSpec.opened p (ZipFile entries) w1) = S (zip_reads w).
Proof.
  intros Hget Hf Hcd w1. unfold w1, Session.after. rewrite BatchFacts.close_zip_run.
  simpl. split; [|reflexivity].
  assert (Hget1 : CacheManager.get_cached_metadata p (BatchSpec.closed p w)
                  = (Ok PNone, BatchSpec.closed p w)).
  { apply CacheFacts.get_keep.
    rewrite (CacheFacts.decision_ext p w (BatchSpec.closed p w)) by reflexivity.
    exact (CacheFacts.decision_after_get _ _ _ _ Hget). }
  apply (ZipFacts.list_live p _ _ f entries); [exact Hf|exact Hcd|exact Hget1|].
  simpl. apply lookup_delete_eq.
Qed.

Lemma listing_after_close_reads_archive_witness :
  fst (ZipManager.list_audio_files Sample.pack_path Scenario.stale_handle_world)
  = Ok (PList [PStr "amb/room.ogg"; PStr "drums/kick.wav"; PStr "drums/Snare.wav"]) /\
  fst (ZipManager.list_audio_files Sample.pack_path
         (Session.after (ZipAccess.close_zip Sample.pack_path) Scenario.stale_handle_world))
  = Ok (PList [PStr "drums/kick.wav"]).
Proof.
  assert (Hget : CacheManager.get_cached_metadata Sample.pack_path Scenario.stale_handle_world
                 = (Ok PNone, Scenario.stale_handle_world)) by (vm_compute; reflexivity).
  assert (Hf : archives Scenario.stale_handle_world !! Sample.pack_path
               = Some Sample.pack_modified) by (vm_compute; reflexivity).
  pose proof (listing_after_close_reads_archive Sample.pack_path
                Scenario.stale_handle_world Sample.pack_modified
                [Sample.entry "drums/kick.wav" 16 (Some 1200%Z)] Hget Hf eq_refl)
    as [H _].
  split; [vm_compute; reflexivity|]. rewrite H. vm_compute. reflexivity.
Defined.

(** ** Durations *)

(** X27 ([get_file_duration] lines 492-497, [get_audio_duration] lines
    700-706): a duration that the payload of the cache holds for the
    file is returned as it is, by both functions; no archive is opened
    or read for it. *)
Theorem duration_served_from_cache `{U : Str.Unicode} (p name : string) (w w1 : world)
    (d fm record : list (string * pyval)) (x : pyval) :
  CacheManager.get_cached_metadata p w = (Ok (PDict d), w1) ->
  Py.dict_get "file_metadata" d = Some (PDict fm) ->
  Py.dict_get name fm = Some (PDict record) ->
  Py.dict_get "duration_ms" record = Some x ->
  ZipAccess.get_file_duration p name w = (Ok x, w1) /\
  ZipManager.get_audio_duration p name w = (Ok x, w1) /\
  open_zips w1 = open_zips w /\ zip_reads w1 = zip_reads w.
Proof.
  intros Hget Hfm Hrec Hd.
  split; [exact (DurationFacts.get_file_duration_known _ _ _ _ _ _ _ _ Hget Hfm Hrec Hd)|].
  split; [exact (DurationFacts.get_audio_duration_known _ _ _ _ _ _ _ _ Hget Hfm Hrec Hd)|].
  destruct (CacheFacts.get_outside_cache _ _ _ _ Hget) as (_ & _ & Hz & _ & _ & _ & _ & Hr).
  auto.
Qed.

Lemma duration_served_from_cache_witness :
  ZipAccess.get_file_duration Sample.pack_path "drums/kick.wav" Scenario.loaded_world
  = (Ok (PInt 1200), Scenario.loaded_world) /\
  ZipManager.get_audio_duration Sample.pack_path "drums/kick.wav" Scenario.loaded_world
  = (Ok (PInt 1200), Scenario.loaded_world).
Proof.
  assert (H : exists d fm record,
             CacheManager.get_cached_metadata Sample.pack_path Scenario.loaded_world
             = (Ok (PDict d), Scenario.loaded_world) /\
             Py.dict_get "file_metadata" d = Some (PDict fm) /\
             Py.dict_get "drums/kick.wav" fm = Some (PDict record) /\
             Py.dict_get "duration_ms" record = Some (PInt 1200)).
  { eexists _, _, _. split; [vm_compute; reflexivity|].
    split; [reflexivity|]. split; reflexivity. }
  destruct H as (d & fm & record & Hget & Hfm & Hrec & Hd).
  destruct (duration_served_from_cache Sample.pack_path "drums/kick.wav"
              Scenario.loaded_world Scenario.loaded_world d fm record (PInt 1200)
              Hget Hfm Hrec Hd) as (H1 & H2 & _).
  exact (conj H1 H2).
Defined.

(** X28 ([get_file_duration] lines 504-538): when the payload of the
    cache holds no duration for the file and the probe of the entry
    finds one, [get_file_duration] returns it and stores it: the next
    call, and [get_audio_duration] too, return the duration from the
    cache and change nothing. *)
Theorem probed_duration_is_cached `{U : Str.Unicode} (p name : string) (w w1 w2 : world)
    (d fm : list (string * pyval)) (zf : zipfile) (zi : zipinfo) (n : Z) :
  CacheManager.get_cached_metadata p w = (Ok (PDict d), w1) ->
  Py.dict_get "file_metadata" d = Some (PDict fm) ->
  DurationSpec.unknown fm name ->
  ZipManager._ensure_zip_open p w1 = (Ok tt, w2) ->
  open_zips w2 !! p = Some zf ->
  ZipManager.getinfo zf name = Ok zi ->
  ZipManager.probe_duration zi = PInt n ->
  exists w3,
    ZipAccess.get_file_duration p name w = (Ok (PInt n), w3) /\
    ZipAccess.get_file_duration p name w3 = (Ok (PInt n), w3) /\
    ZipManager.get_audio_duration p name w3 = (Ok (PInt n), w3) /\
    zip_reads w3 = zip_reads w2.
Proof.
  intros Hget Hfm Hun Hopen Hz Hinfo Hprobe.
  destruct (PayloadFacts.get_hit_archive _ _ _ _ Hget ltac:(discriminate)) as [f Hf].
  destruct (CacheFacts.get_outside_cache _ _ _ _ Hget) as (Ha1 & _).
  destruct (AccessFacts.ensure_open_ok _ _ _ Hopen) as (_ & _ & _ & Ha2 & _).
  assert (Hf2 : archives w2 !! p = Some f) by now rewrite Ha2, Ha1.
  pose proof (DurationFacts.get_file_duration_probe _ _ _ _ _ _ _ _ _ _
                Hget Hfm Hun Hopen Hz Hinfo Hf2) as Hrun.
  rewrite Hprobe in Hrun.
  set (md := DurationSpec.merged d fm name zi (PInt n)) in *.
  exists (CacheSpec.after_store p md f w2).
  split; [exact Hrun|].
  pose proof (CacheFacts.get_after_store p md f w2 Hf2) as Hget3.
  destruct (PayloadFacts.merged_fields d fm name zi (PInt n))
    as (d' & fm' & record' & Hn & Hfm' & Hrec' & Hd' & _).
  fold md in Hn. rewrite Hn in Hget3.
  split; [exact (DurationFacts.get_file_duration_known _ _ _ _ _ _ _ _ Hget3 Hfm' Hrec' Hd')|].
  split; [exact (DurationFacts.get_audio_duration_known _ _ _ _ _ _ _ _ Hget3 Hfm' Hrec' Hd')|].
  reflexivity.
Qed.

Lemma probed_duration_is_cached_witness :
  exists w3,
    ZipAccess.get_file_duration Sample.pack_path "drums/kick.wav" Scenario.bare_payload_world
    = (Ok (PInt 1200), w3) /\
    ZipAccess.get_file_duration Sample.pack_path "drums/kick.wav" w3 = (Ok (PInt 1200), w3) /\
    ZipManager.get_audio_duration Sample.pack_path "drums/kick.wav" w3
    = (Ok (PInt 1200), w3) /\
    zip_reads w3 = 1%nat.
Proof.
  assert (Hun : DurationSpec.unknown [] "drums/kick.wav")
    by (intros x Hx; discriminate Hx).
  assert (Hget : CacheManager.get_cached_metadata Sample.pack_path
                   Scenario.bare_payload_world
                 = (Ok (PDict [("audio_files", PList [PStr "drums/kick.wav"]);
                               ("total_files", PInt 1);
                               ("file_metadata", PDict [])]),
                    Scenario.bare_payload_world)) by (vm_compute; reflexivity).
  assert (Hopen : ZipManager._ensure_zip_open Sample.pack_path Scenario.bare_payload_world
                  = (Ok tt, snd (ZipManager._ensure_zip_open Sample.pack_path
                                   Scenario.bare_payload_world)))
    by (vm_compute; reflexivity).
  exact (probed_duration_is_cached Sample.pack_path "drums/kick.wav"
           Scenario.bare_payload_world Scenario.bare_payload_world _ _ []
           (ZipFile [Sample.entry "drums/kick.wav" 16 (Some 1200%Z);
                     Sample.entry "drums/Snare.wav" 16 (Some 800%Z);
                     Sample.entry "amb/room.ogg" 16 None])
           (Sample.entry "drums/kick.wav" 16 (Some 1200%Z)) 1200
           Hget eq_refl Hun Hopen eq_refl eq_refl eq_refl).
Defined.

(** X29 ([get_file_duration] lines 518-538): storing a probed duration
    only adds to the payload: the other keys of the payload, the records
    of the other files and the other fields of the record of the file
    come back from the next lookup as they were; the record of the file
    holds the duration. *)
Theorem duration_merge_keeps_payload `{U : Str.Unicode} (p name : string)
    (w w1 w2 : world) (d fm : list (string * pyval)) (zf : zipfile) (zi : zipinfo) (n : Z) :
  CacheManager.get_cached_metadata p w = (Ok (PDict d), w1) ->
  Py.dict_get "file_metadata" d = Some (PDict fm) ->
  DurationSpec.unknown fm name ->
  ZipManager._ensure_zip_open p w1 = (Ok tt, w2) ->
  open_zips w2 !! p = Some zf ->
  ZipManager.getinfo zf name = Ok zi ->
  ZipManager.probe_duration zi = PInt n ->
  exists w3 d' fm' record',
    ZipAccess.get_file_duration p name w = (Ok (PInt n), w3) /\
    CacheManager.get_cached_metadata p w3 = (Ok (PDict d'), w3) /\
    (forall k, k <> "file_metadata" -> Py.dict_get k d' = Py.dict_get k d) /\
    Py.dict_get "file_metadata" d' = Some (PDict fm') /\
    (forall other, other <> name -> Py.dict_get other fm' = Py.dict_get other fm) /\
    Py.dict_get name fm' = Some (PDict record') /\
    Py.dict_get "duration_ms" record' = Some (PInt n) /\
    (forall record k, Py.dict_get name fm = Some (PDict record) -> k <> "duration_ms" ->
                      Py.dict_get k record' = Py.dict_get k record).
Proof.
  intros Hget Hfm Hun Hopen Hz Hinfo Hprobe.
  destruct (PayloadFacts.get_hit_archive _ _ _ _ Hget ltac:(discriminate)) as [f Hf].
  destruct (CacheFacts.get_outside_cache _ _ _ _ Hget) as (Ha1 & _).
  destruct (AccessFacts.ensure_open_ok _ _ _ Hopen) as (_ & _ & _ & Ha2 & _).
  assert (Hf2 : archives w2 !! p = Some f) by now rewrite Ha2, Ha1.
  pose proof (DurationFacts.get_file_duration_probe _ _ _ _ _ _ _ _ _ _
                Hget Hfm Hun Hopen Hz Hinfo Hf2) as Hrun.
  rewrite Hprobe in Hrun.
  set (md := DurationSpec.merged d fm name zi (PInt n)) in *.
  pose proof (CacheFacts.get_after_store p md f w2 Hf2) as Hget3.
  destruct (PayloadFacts.merged_fields d fm name zi (PInt n))
    as (d' & fm' & record' & Hn & Hfm' & Hrec' & Hd' & Hkeys & Hfiles & Hfields).
  fold md in Hn. rewrite Hn in Hget3.
  pose proof (PayloadFacts.get_normal _ _ _ _ Hget) as Hnd.
  assert (Hnfm : Json.normalize (PDict fm) = PDict fm).
  { apply (PayloadFacts.getitem_normal (PDict d) "file_metadata"); [exact Hnd|].
    now apply DurationFacts.getitem_some. }
  exists (CacheSpec.after_store p md f w2), d', fm', record'.
  split; [exact Hrun|]. split; [exact Hget3|].
  split; [intros k Hk; rewrite (Hkeys k Hk); now apply PayloadFacts.field_normal|].
  split; [exact Hfm'|].
  split; [intros other Ho; rewrite (Hfiles other Ho); now apply PayloadFacts.field_normal|].
  split; [exact Hrec'|]. split; [exact Hd'|].
  intros record k Hrec Hk. rewrite (Hfields k Hk).
  unfold DurationSpec.base_record. rewrite Hrec.
  apply PayloadFacts.field_normal.
  apply (PayloadFacts.getitem_normal (PDict fm) name); [exact Hnfm|].
  now apply DurationFacts.getitem_some.
Qed.

Lemma duration_merge_keeps_payload_witness :
  exists w3 d',
    ZipAccess.get_file_duration Sample.pack_path "drums/kick.wav" Scenario.bare_payload_world
    = (Ok (PInt 1200), w3) /\
    CacheManager.get_cached_metadata Sample.pack_path w3 = (Ok (PDict d'), w3) /\
    Py.dict_get "audio_files" d' = Some (PList [PStr "drums/kick.wav"]) /\
    Py.dict_get "total_files" d' = Some (PInt 1).
Proof.
  assert (Hun : DurationSpec.unknown [] "drums/kick.wav")
    by (intros x Hx; discriminate Hx).
  assert (Hget : CacheManager.get_cached_metadata Sample.pack_path
                   Scenario.bare_payload_world
                 = (Ok (PDict [("audio_files", PList [PStr "drums/kick.wav"]);
                               ("total_files", PInt 1);
                               ("file_metadata", PDict [])]),
                    Scenario.bare_payload_world)) by (vm_compute; reflexivity).
  assert (Hopen : ZipManager._ensure_zip_open Sample.pack_path Scenario.bare_payload_world
                  = (Ok tt, snd (ZipManager._ensure_zip_open Sample.pack_path
                                   Scenario.bare_payload_world)))
    by (vm_compute; reflexivity).
  destruct (duration_merge_keeps_payload Sample.pack_path "drums/kick.wav"
              Scenario.bare_payload_world Scenario.bare_payload_world _ _ []
              (ZipFile [Sample.entry "drums/kick.wav" 16 (Some 1200%Z);
                        Sample.entry "drums/Snare.wav" 16 (Some 800%Z);
                        Sample.entry "amb/room.ogg" 16 None])
              (Sample.entry "drums/kick.wav" 16 (Some 1200%Z)) 1200
              Hget eq_refl Hun Hopen eq_refl eq_refl eq_refl)
    as (w3 & d' & fm' & record' & Hrun & Hget3 & Hkeys & _).
  exists w3, d'. split; [exact Hrun|]. split; [exact Hget3|].
  split; [rewrite Hkeys by discriminate; reflexivity|].
  rewrite Hkeys by discriminate. reflexivity.
Defined.

(** X30 ([get_file_duration] lines 505-506 and 539-540): when the probe
    of the entry finds no duration, [get_file_duration] returns [None]
    and stores nothing: the cache is as the lookup left it. *)
Theorem failed_probe_stores_nothing `{U : Str.Unicode} (p name : string)
    (w w1 w2 : world) (d fm : list (string * pyval)) (zf : zipfile) (zi : zipinfo) :
  CacheManager.get_cached_metadata p w = (Ok (PDict d), w1) ->
  Py.dict_get "file_metadata" d = Some (PDict fm) ->
  DurationSpec.unknown fm name ->
  ZipManager._ensure_zip_open p w1 = (Ok tt, w2) ->
  open_zips w2 !! p = Some zf ->
  ZipManager.getinfo zf name = Ok zi ->
  ZipManager.probe_duration zi = PNone ->
  ZipAccess.get_file_duration p name w = (Ok PNone, w2) /\
  cache_files w2 = cache_files w1 /\ cache_index w2 = cache_index w1 /\
  CacheManager.get_cached_metadata p w2 = (Ok (PDict d), w2).
Proof.
  intros Hget Hfm Hun Hopen Hz Hinfo Hprobe.
  destruct (PayloadFacts.get_hit_archive _ _ _ _ Hget ltac:(discriminate)) as [f Hf].
  destruct (CacheFacts.get_outside_cache _ _ _ _ Hget) as (Ha1 & _).
  destruct (AccessFacts.ensure_open_ok _ _ _ Hopen)
    as (_ & _ & _ & Ha2 & Hdir & Hfiles & Hidx & _).
  assert (Hf2 : archives w2 !! p = Some f) by now rewrite Ha2, Ha1.
  pose proof (DurationFacts.get_file_duration_probe _ _ _ _ _ _ _ _ _ _
                Hget Hfm Hun Hopen Hz Hinfo Hf2) as Hrun.
  rewrite Hprobe in Hrun.
  split; [exact Hrun|]. split; [exact Hfiles|]. split; [exact Hidx|].
  apply CacheFacts.get_keep.
  rewrite (CacheFacts.decision_ext p w1 w2 Hidx Hfiles Hdir)
    by (unfold Lookup.observed; now rewrite Ha2).
  exact (CacheFacts.decision_after_get _ _ _ _ Hget).
Qed.

Lemma failed_probe_stores_nothing_witness :
  ZipAccess.get_file_duration Sample.pack_path "amb/room.ogg" Scenario.loaded_world
  = (Ok PNone, Scenario.loaded_world).
Proof.
  assert (H : exists d fm,
             CacheManager.get_cached_metadata Sample.pack_path Scenario.loaded_world
             = (Ok (PDict d), Scenario.loaded_world) /\
             Py.dict_get "file_metadata" d = Some (PDict fm) /\
             Py.dict_get "amb/room.ogg" fm
             = Some (PDict [("size", PInt 16);
                            ("timestamp", PList (List.map PInt [2024; 5; 17; 10; 30; 0]%Z))])).
  { eexists _, _. split; [vm_compute; reflexivity|]. split; reflexivity. }
  destruct H as (d & fm & Hget & Hfm & Hrec).
  assert (Hun : DurationSpec.unknown fm "amb/room.ogg").
  { intros x Hx. rewrite Hrec in Hx. injection Hx as <-. eexists. split; reflexivity. }
  assert (Hopen : ZipManager._ensure_zip_open Sample.pack_path Scenario.loaded_world
                  = (Ok tt, Scenario.loaded_world)) by (vm_compute; reflexivity).
  assert (Hz : open_zips Scenario.loaded_world !! Sample.pack_path
               = Some (ZipFile [Sample.entry "drums/kick.wav" 16 (Some 1200%Z);
                                Sample.entry "drums/Snare.wav" 16 (Some 800%Z);
                                Sample.entry "amb/room.ogg" 16 None]))
    by (vm_compute; reflexivity).
  exact (proj1 (failed_probe_stores_nothing Sample.pack_path "amb/room.ogg"
                  Scenario.loaded_world Scenario.loaded_world Scenario.loaded_world d fm _
                  (Sample.entry "amb/room.ogg" 16 None)
                  Hget Hfm Hun Hopen Hz eq_refl eq_refl)).
Defined.
